(** * Sales reconciliation and aggregation: a shallow embedding

    This development embeds the business logic of the reporting
    application (report_system/accounts) and verifies the properties its
    specification states about it:

    - [Views.calc_dispensed]      views.py, dispensed-litres calculator;
    - [Views.normalize_item_rows] views.py, receipt line parser;
    - [Views.admin_dashboard]     views.py, live sales aggregator;
    - [Tasks.refresh_dashboard_cache] tasks.py, cached sales aggregator;
    - [Supabase.get_rate_for_date] utils/supabase_utils.py, rate lookup.

    Numbers.  Python floats are modelled by exact rationals [Q]: finite
    values with exact arithmetic.  IEEE rounding, infinities, NaN and
    overflow are outside that model; numeric equalities between
    separately accumulated sums are therefore stated with [==] (equality
    of rationals).  Where a property turns on the floats themselves, the
    module [Binary64] embeds the code on IEEE 754 binary64 values: the
    built-in [float] on every argument, the meter calculator, the money
    accumulators of the dashboard loop, and the rounding and the returns
    of the cached dashboard.

    Text.  Python strings are modelled by [string]; the alphabet is ASCII
    (a character above 127 is a caseless symbol that is neither a digit
    nor white space).

    Exceptions.  A Python call that may raise returns a [result]. *)

From Stdlib Require Import Ascii String QArith Qabs Qround Qpower Lqa Floats.
From stdpp Require Import base option list strings gmap.

Open Scope string_scope.
Set Warnings "-clear-no-such-hyp".
Set Warnings "-inexact-float".

(** ** Exceptions *)

Inductive exn : Set :=
| TypeError
| ValueError
| KeyError
| IndexError
| AttributeError
| OverflowError.

Inductive result (A : Type) : Type :=
| Ok (a : A)
| Raise (e : exn).

Arguments Ok {A} a.
Arguments Raise {A} e.

#[global] Instance result_ret : MRet result := λ A a, Ok a.

#[global] Instance result_bind : MBind result := λ A B k r,
  match r with
  | Ok a => k a
  | Raise e => Raise e
  end.

(** ** Python built-ins on text *)

Module Py.

(** [str.isspace] / the class [\s] on the ASCII alphabet. *)
Definition is_space (c : ascii) : bool :=
  let n := nat_of_ascii c in
  ((9 <=? n) && (n <=? 13) || (28 <=? n) && (n <=? 32))%nat.

(** The class [\d] on the ASCII alphabet. *)
Definition is_digit (c : ascii) : bool :=
  let n := nat_of_ascii c in
  ((48 <=? n) && (n <=? 57))%nat.

Definition digit_val (c : ascii) : Z := Z.of_nat (nat_of_ascii c) - 48.

Definition upper_char (c : ascii) : ascii :=
  let n := nat_of_ascii c in
  if ((97 <=? n) && (n <=? 122))%nat then ascii_of_nat (n - 32) else c.

Definition lower_char (c : ascii) : ascii :=
  let n := nat_of_ascii c in
  if ((65 <=? n) && (n <=? 90))%nat then ascii_of_nat (n + 32) else c.

Fixpoint map_chars (f : ascii → ascii) (s : string) : string :=
  match s with
  | EmptyString => EmptyString
  | String c s' => String (f c) (map_chars f s')
  end.

(** [s.upper()] and [s.lower()]. *)
Definition upper : string → string := map_chars upper_char.
Definition lower : string → string := map_chars lower_char.

(** [(taken, rest)]: the longest prefix whose characters satisfy [p]. *)
Fixpoint span (p : ascii → bool) (s : string) : string * string :=
  match s with
  | EmptyString => (EmptyString, EmptyString)
  | String c s' =>
      if p c then let '(a, b) := span p s' in (String c a, b)
      else (EmptyString, s)
  end.

Definition lstrip (s : string) : string := snd (span is_space s).
Definition rstrip (s : string) : string :=
  String.rev (lstrip (String.rev s)).

(** [s.strip()]. *)
Definition strip (s : string) : string := rstrip (lstrip s).

(** [s.startswith(p)]. *)
Fixpoint startswith (p s : string) : bool :=
  match p, s with
  | EmptyString, _ => true
  | String a p', String b s' => if decide (a = b) then startswith p' s' else false
  | String _ _, EmptyString => false
  end.

(** [needle in s]. *)
Fixpoint contains (needle s : string) : bool :=
  startswith needle s ||
  match s with
  | EmptyString => false
  | String _ s' => contains needle s'
  end.

(** [s.split()]: the maximal runs of non-space characters.  [cur] is
    the run being read, reversed. *)
Fixpoint split_go (cur : string) (s : string) : list string :=
  match s with
  | EmptyString =>
      match cur with EmptyString => [] | _ => [String.rev cur] end
  | String c s' =>
      if is_space c then
        match cur with
        | EmptyString => split_go EmptyString s'
        | _ => String.rev cur :: split_go EmptyString s'
        end
      else split_go (String c cur) s'
  end.

Definition split (s : string) : list string := split_go EmptyString s.

(** [s[n:]]. *)
Fixpoint drop (n : nat) (s : string) : string :=
  match n, s with
  | S n', String _ s' => drop n' s'
  | _, _ => s
  end.

(** [s[:n]]. *)
Fixpoint take (n : nat) (s : string) : string :=
  match n, s with
  | S n', String c s' => String c (take n' s')
  | _, _ => EmptyString
  end.

Definition all_chars (p : ascii → bool) (s : string) : bool :=
  match snd (span p s) with EmptyString => true | _ => false end.

(** Value of a string of decimal digits, most significant first. *)
Fixpoint digits_val (acc : Z) (s : string) : Z :=
  match s with
  | EmptyString => acc
  | String c s' => digits_val (10 * acc + digit_val c) s'
  end.

Definition pow10 (e : Z) : Q := Qpower (10 # 1) e.

(** The exponent part of a float literal: empty, or [e] / [E], an
    optional sign and at least one digit, up to the end of the text. *)
Definition parse_exponent (s : string) : option Z :=
  match s with
  | EmptyString => Some 0%Z
  | String c r =>
      if decide (c = "e"%char ∨ c = "E"%char) then
        let '(sg, r') :=
          match r with
          | String "+" t => (1%Z, t)
          | String "-" t => ((-1)%Z, t)
          | _ => (1%Z, r)
          end in
        match r' with
        | EmptyString => None
        | _ => if all_chars is_digit r' then Some (sg * digits_val 0 r')%Z else None
        end
      else None
  end.

(** An optional sign in front of a number. *)
Definition split_sign (s : string) : Z * string :=
  match s with
  | String "+" t => (1%Z, t)
  | String "-" t => ((-1)%Z, t)
  | _ => (1%Z, s)
  end.

(** An optional dot and the digits behind it. *)
Definition split_fraction (s : string) : string * string :=
  match s with
  | String "." t => span is_digit t
  | _ => (EmptyString, s)
  end.

(** [float(s)] on text, as far as exact numbers go: surrounding white
    space, an optional sign, a decimal mantissa with at least one digit,
    an optional exponent.  [None] stands for [ValueError].  This is
    [float] on the texts the regular expressions of the code capture,
    which are made of digits and dots.  The spellings of infinity and
    NaN, digit-group underscores and the exact set of stripped
    characters are left to [Binary64.float_of_text], which embeds
    [float] on any text. *)
Definition float_of_string (s : string) : option Q :=
  let '(sg, s2) := split_sign (strip s) in
  let '(ip, s3) := span is_digit s2 in
  let '(fp, s4) := split_fraction s3 in
  match String.length ip + String.length fp with
  | O => None
  | _ =>
      match parse_exponent s4 with
      | None => None
      | Some e =>
          Some (Qred (inject_Z (sg * digits_val 0 (ip +:+ fp))
                      * pow10 (e - Z.of_nat (String.length fp))))
      end
  end.

(** [sorted(l, key=key, reverse=True)]: a stable sort into descending
    key order, [lt] being [<] on the keys.  Python keeps the original
    order of elements with equal keys also under [reverse=True], so each
    element is placed behind those already present whose key is at least
    its own. *)
Fixpoint insert_desc {A K} (lt : K → K → bool) (key : A → K) (x : A) (l : list A) : list A :=
  match l with
  | [] => [x]
  | y :: l' =>
      if lt (key y) (key x) then x :: l
      else y :: insert_desc lt key x l'
  end.

Definition sorted_desc {A K} (lt : K → K → bool) (key : A → K) (l : list A) : list A :=
  foldl (λ acc x, insert_desc lt key x acc) [] l.

(** [sorted(l, key=key)]: the stable sort into ascending key order. *)
Fixpoint insert_asc {A K} (lt : K → K → bool) (key : A → K) (x : A) (l : list A) : list A :=
  match l with
  | [] => [x]
  | y :: l' =>
      if lt (key x) (key y) then x :: l
      else y :: insert_asc lt key x l'
  end.

Definition sorted_asc {A K} (lt : K → K → bool) (key : A → K) (l : list A) : list A :=
  foldl (λ acc x, insert_asc lt key x acc) [] l.

(** The character of a decimal digit. *)
Definition digit_of (n : Z) : ascii := ascii_of_nat (48 + Z.to_nat n).

(** The decimal digits of a number that is not negative, written in
    front of [acc]; [fuel] bounds the number of digits. *)
Fixpoint digits_of (fuel : nat) (n : Z) (acc : string) : string :=
  match fuel with
  | O => acc
  | S fuel' =>
      let acc' := String (digit_of (n mod 10)) acc in
      if (n <? 10)%Z then acc' else digits_of fuel' (n / 10) acc'
  end.

(** [str(n)] on an integer. *)
Definition str_int (n : Z) : string :=
  if (n <? 0)%Z
  then String "-" (digits_of (S (Z.to_nat (Z.log2 (- n)))) (- n) "")
  else digits_of (S (Z.to_nat (Z.log2 n))) n "".

End Py.

(** ** Python values reaching the meter calculator *)

(** An argument of [calc_dispensed]: [None], a number, a text, or any
    other object (a list, a dict), which [float] rejects. *)
Inductive pyval : Type :=
| PyNone
| PyNum (q : Q)
| PyStr (s : string)
| PyObj.

(** The built-in [float(v)] on the values of the exact model:
    [TypeError] on [None] and on objects that are neither numbers nor
    text, [ValueError] on text that is not a number.  An int too large
    for a float, on which [float] raises [OverflowError], has no
    counterpart among exact numbers; [Binary64.py_float] has it. *)
Definition py_float (v : pyval) : result Q :=
  match v with
  | PyNone => Raise TypeError
  | PyNum q => Ok q
  | PyStr s =>
      match Py.float_of_string s with
      | Some q => Ok q
      | None => Raise ValueError
      end
  | PyObj => Raise TypeError
  end.

Definition is_None (v : pyval) : bool :=
  match v with PyNone => true | _ => false end.

(** [a > b] on numbers. *)
Definition Qgtb (a b : Q) : bool := negb (Qle_bool a b).

(** [a < b] on numbers. *)
Definition Qltb (a b : Q) : bool := Qgtb b a.

(** ** The regular expressions of the code

    Each pattern is read off as the scanner the backtracking matcher
    amounts to: the character classes that follow one another in these
    patterns are disjoint, so every greedy repetition takes its longest
    run and no shorter choice can succeed. *)

Module Re.

Definition is_digit_or_dot (c : ascii) : bool :=
  Py.is_digit c || bool_decide (c = "."%char).

Definition is_empty (s : string) : bool :=
  match s with EmptyString => true | _ => false end.

(** [QTY_PRICE_PATTERN.match(s)]: a quantity r"(\d+(\.\d+)?)", the sign
    r"\s*@\s*", a unit price r"([\d.]+)", white space and a total, which
    is a possibly empty run of the class r"[\d.]".  The result holds the
    groups 1, 3 and 4 of the match. *)
Definition match_qty_price (s : string) : option (string * string * string) :=
  let '(int_part, r1) := Py.span Py.is_digit s in
  if is_empty int_part then None
  else
    let '(g1, r2) :=
      match r1 with
      | String "." t =>
          let '(frac, r) := Py.span Py.is_digit t in
          if is_empty frac then (int_part, r1)
          else (int_part +:+ "." +:+ frac, r)
      | _ => (int_part, r1)
      end in
    match Py.lstrip r2 with
    | String "@" r3 =>
        let '(g3, r4) := Py.span is_digit_or_dot (Py.lstrip r3) in
        if is_empty g3 then None
        else
          let '(g4, _) := Py.span is_digit_or_dot (Py.lstrip r4) in
          Some (g1, g3, g4)
    | _ => None
    end.

(** [$]: the end of the text, or the line break that ends it. *)
Definition at_end (s : string) : bool :=
  match s with
  | EmptyString => true
  | String c EmptyString => bool_decide (c = "010"%char)
  | _ => false
  end.

(** The tail r"\s+(\d+\.\d{2})$" at the start of [s]: the price. *)
Definition match_price_tail (s : string) : option string :=
  let '(ws, r1) := Py.span Py.is_space s in
  if is_empty ws then None
  else
    let '(int_part, r2) := Py.span Py.is_digit r1 in
    if is_empty int_part then None
    else
      match r2 with
      | String "." (String a (String b r3)) =>
          if Py.is_digit a && Py.is_digit b && at_end r3
          then Some (int_part +:+ "." +:+ String a (String b EmptyString))
          else None
      | _ => None
      end.

(** The lazy group "(.+?)": [desc] holds the characters taken so far,
    last one first; the group grows by one character, never a line
    break, until the price tail matches. *)
Fixpoint match_description_go (desc : string) (s : string) : option (string * string) :=
  match s with
  | EmptyString => None
  | String c s' =>
      if bool_decide (c = "010"%char) then None
      else
        match match_price_tail s' with
        | Some price => Some (String.rev (String c desc), price)
        | None => match_description_go (String c desc) s'
        end
  end.

(** [DESCRIPTION_PRICE_PATTERN.match(s)], the pattern being
    r"(.+?)\s+(\d+\.\d{2})$": the groups 1 and 2. *)
Definition match_description_price (s : string) : option (string * string) :=
  match_description_go EmptyString s.

(** The scanner of r"\d+\.?\d*": outside a number, in its integer part,
    or behind its dot; [cur] is the match being read, reversed. *)
Inductive number_state : Set := Outside | InInt | InFrac.

Fixpoint findall_go (st : number_state) (cur : string) (s : string) : list string :=
  match s with
  | EmptyString =>
      match st with Outside => [] | _ => [String.rev cur] end
  | String c s' =>
      match st with
      | Outside =>
          if Py.is_digit c then findall_go InInt (String c EmptyString) s'
          else findall_go Outside EmptyString s'
      | InInt =>
          if Py.is_digit c then findall_go InInt (String c cur) s'
          else if bool_decide (c = "."%char) then findall_go InFrac (String c cur) s'
          else String.rev cur :: findall_go Outside EmptyString s'
      | InFrac =>
          if Py.is_digit c then findall_go InFrac (String c cur) s'
          else String.rev cur :: findall_go Outside EmptyString s'
      end
  end.

(** [re.findall(r"\d+\.?\d*", s)]. *)
Definition findall_numbers (s : string) : list string :=
  findall_go Outside EmptyString s.

(** [re.search(r"\d+\.?\d*", s)]: the leftmost match, which is the first
    one [findall] reports. *)
Definition search_number (s : string) : option string :=
  head (findall_numbers s).

(** The pattern r"amount\s*:?\s*([\d]+(?:\.\d{1,2})?)" matched at the
    start of [s]: group 1. *)
Definition match_amount_at (s : string) : option string :=
  if Py.startswith "amount" s then
    let r1 := Py.lstrip (Py.drop 6 s) in
    let r2 := match r1 with String ":" t => t | _ => r1 end in
    let '(int_part, r3) := Py.span Py.is_digit (Py.lstrip r2) in
    if is_empty int_part then None
    else
      match r3 with
      | String "." (String a (String b _)) =>
          if Py.is_digit a && Py.is_digit b
          then Some (int_part +:+ "." +:+ String a (String b EmptyString))
          else if Py.is_digit a then Some (int_part +:+ "." +:+ String a EmptyString)
          else Some int_part
      | String "." (String a EmptyString) =>
          if Py.is_digit a then Some (int_part +:+ "." +:+ String a EmptyString)
          else Some int_part
      | _ => Some int_part
      end
  else None.

Fixpoint search_amount (s : string) : option string :=
  match match_amount_at s with
  | Some g => Some g
  | None =>
      match s with
      | EmptyString => None
      | String _ s' => search_amount s'
      end
  end.

(** [re.search] for a pattern given by its matcher at one position: the
    match at the leftmost position that has one. *)
Fixpoint search (match_at : string → option string) (s : string) : option string :=
  match match_at s with
  | Some g => Some g
  | None =>
      match s with
      | EmptyString => None
      | String _ s' => search match_at s'
      end
  end.

(** A literal piece of a pattern at the start of [s]: what follows it. *)
Definition strip_prefix (p s : string) : option string :=
  if Py.startswith p s then Some (Py.drop (String.length p) s) else None.

(** The tail r"\s+(\d+)" at the start of [s]: group 1. *)
Definition match_spaces_digits (s : string) : option string :=
  let '(ws, r1) := Py.span Py.is_space s in
  if is_empty ws then None
  else
    let '(digits, _) := Py.span Py.is_digit r1 in
    if is_empty digits then None else Some digits.

(** The patterns r"03\s+unleaded 95\s+(\d+)" and
    r"01\s+unleaded 95\s+(\d+)" at the start of [s], [pump] being the
    two digits in front: group 1. *)
Definition match_unleaded_at (pump : string) (s : string) : option string :=
  match strip_prefix pump s with
  | Some r1 =>
      let '(ws, r2) := Py.span Py.is_space r1 in
      if is_empty ws then None
      else
        match strip_prefix "unleaded 95" r2 with
        | Some r3 => match_spaces_digits r3
        | None => None
        end
  | None => None
  end.

(** The pattern r"50ppm\s+(\d+)" at the start of [s]: group 1. *)
Definition match_50ppm_at (s : string) : option string :=
  match strip_prefix "50ppm" s with
  | Some r1 => match_spaces_digits r1
  | None => None
  end.

End Re.

(** ** Python dictionaries

    A [dict] keeps its keys in insertion order, and the code sorts and
    sums over [items()], so a dictionary is an association list with
    unique keys: an assignment to an existing key keeps its place, a new
    key goes to the end. *)

Module Dict.
Section Dict.
Context {K V : Type} `{EqDecision K}.

Definition t : Type := list (K * V).

(** [d.get(k)]. *)
Fixpoint get (d : t) (k : K) : option V :=
  match d with
  | [] => None
  | (k', v) :: d' => if decide (k' = k) then Some v else get d' k
  end.

(** [d[k] = f(d.get(k))]. *)
Fixpoint update (k : K) (f : option V → V) (d : t) : t :=
  match d with
  | [] => [(k, f None)]
  | (k', v) :: d' =>
      if decide (k' = k) then (k', f (Some v)) :: d'
      else (k', v) :: update k f d'
  end.

(** [list(d.keys())]. *)
Definition keys (d : t) : list K := d.*1.

End Dict.
Arguments t : clear implicits.
End Dict.

(** ** Calendar dates (the [datetime.date] operations the code uses) *)

Module Calendar.
Local Open Scope Z_scope.

Record date : Type := { year : Z; month : Z; day : Z }.

Definition is_leap (y : Z) : bool :=
  (y mod 4 =? 0) && (negb (y mod 100 =? 0) || (y mod 400 =? 0)).

Definition days_in_month (y m : Z) : Z :=
  if m =? 2 then (if is_leap y then 29 else 28)
  else if (m =? 4) || (m =? 6) || (m =? 9) || (m =? 11) then 30
  else 31.

(** The dates [datetime.date] can hold. *)
Definition valid_date (d : date) : bool :=
  (1 <=? year d) && (year d <=? 9999) && (1 <=? month d) && (month d <=? 12)
  && (1 <=? day d) && (day d <=? days_in_month (year d) (month d)).

Definition days_before_year (y : Z) : Z :=
  let y' := y - 1 in y' * 365 + y' / 4 - y' / 100 + y' / 400.

(** Days of the year before the first of month [m]. *)
Definition days_before_month (y m : Z) : Z :=
  foldr (λ k acc, days_in_month y (Z.of_nat k) + acc) 0
        (seq 1 (Z.to_nat (m - 1))).

(** [d.toordinal()]: 0001-01-01 is day 1. *)
Definition toordinal (d : date) : Z :=
  days_before_year (year d) + days_before_month (year d) (month d) + day d.

(** [d.weekday()]: Monday is 0. *)
Definition weekday (d : date) : Z := (toordinal d + 6) mod 7.

(** [date.fromordinal(n)], after CPython's [_ord2ymd]. *)
Definition fromordinal (n : Z) : date :=
  let n := n - 1 in
  let n400 := n / 146097 in
  let n := n mod 146097 in
  let n100 := n / 36524 in
  let n := n mod 36524 in
  let n4 := n / 1461 in
  let n := n mod 1461 in
  let n1 := n / 365 in
  let n := n mod 365 in
  let y := n400 * 400 + 1 + n100 * 100 + n4 * 4 + n1 in
  if (n1 =? 4) || (n100 =? 4) then {| year := y - 1; month := 12; day := 31 |}
  else
    let m := Z.shiftr (n + 50) 5 in
    let preceding := days_before_month y m in
    if preceding >? n then
      {| year := y; month := m - 1;
         day := n - (preceding - days_in_month y (m - 1)) + 1 |}
    else {| year := y; month := m; day := n - preceding + 1 |}.

(** [d + timedelta(days=k)]. *)
Definition add_days (d : date) (k : Z) : date := fromordinal (toordinal d + k).

(** [d.replace(day=k)]. *)
Definition replace_day (d : date) (k : Z) : date :=
  {| year := year d; month := month d; day := k |}.

(** [a <= b] on dates: the order of (year, month, day). *)
Definition date_leb (a b : date) : bool :=
  (year a <? year b)
  || ((year a =? year b)
      && ((month a <? month b) || ((month a =? month b) && (day a <=? day b)))).

Definition date_eqb (a b : date) : bool :=
  (year a =? year b) && (month a =? month b) && (day a =? day b).

(** [week_start <= d <= week_end]. *)
Definition date_between (lo d hi : date) : bool := date_leb lo d && date_leb d hi.

Definition digit_char (n : Z) : ascii := ascii_of_nat (48 + Z.to_nat (n mod 10)).

(** Zero-padded decimal of fixed width, as the format [%0wd] gives for a
    number of at most [w] digits. *)
Fixpoint pad_digits (w : nat) (n : Z) (acc : string) : string :=
  match w with
  | O => acc
  | S w' => pad_digits w' (n / 10) (String (digit_char n) acc)
  end.

(** [d.isoformat()]. *)
Definition isoformat (d : date) : string :=
  pad_digits 4 (year d) ("-" +:+ pad_digits 2 (month d) ("-" +:+ pad_digits 2 (day d) "")).

Definition checked (d : date) : option date :=
  if valid_date d then Some d else None.

(** [date.fromisoformat(s)] in its basic form [YYYY-MM-DD] (the only form
    before Python 3.11, and the form of a stored date column); [None]
    stands for [ValueError]. *)
Definition fromisoformat (s : string) : option date :=
  match s with
  | String y1 (String y2 (String y3 (String y4 (String "-"
      (String m1 (String m2 (String "-" (String d1 (String d2 EmptyString))))))))) =>
      if forallb Py.is_digit [y1; y2; y3; y4; m1; m2; d1; d2] then
        checked {| year := Py.digits_val 0 (String y1 (String y2 (String y3 (String y4 ""))));
                   month := Py.digits_val 0 (String m1 (String m2 ""));
                   day := Py.digits_val 0 (String d1 (String d2 "")) |}
      else None
  | _ => None
  end.

(** The directive [%m]: "1[0-2]|0[1-9]|[1-9]"; the directive [%d]:
    r"3[0-1]|[1-2]\d|0[1-9]|[1-9]| [1-9]".  Both give the value read and
    the rest of the text. *)
Definition read_month (s : string) : option (Z * string) :=
  match s with
  | String a (String b r) =>
      let two := Py.digits_val 0 (String a (String b "")) in
      if Py.is_digit a && Py.is_digit b && (1 <=? two) && (two <=? 12) then Some (two, r)
      else if Py.is_digit a && negb (Py.digit_val a =? 0) then Some (Py.digit_val a, String b r)
      else None
  | String a r =>
      if Py.is_digit a && negb (Py.digit_val a =? 0) then Some (Py.digit_val a, r) else None
  | EmptyString => None
  end.

Definition read_day (s : string) : option (Z * string) :=
  match s with
  | String a (String b r) =>
      let two := Py.digits_val 0 (String a (String b "")) in
      if Py.is_digit a && Py.is_digit b && (1 <=? two) && (two <=? 31) then Some (two, r)
      else if Py.is_digit a && negb (Py.digit_val a =? 0) then Some (Py.digit_val a, String b r)
      else if bool_decide (a = " "%char) && Py.is_digit b && negb (Py.digit_val b =? 0)
      then Some (Py.digit_val b, r)
      else None
  | String a r =>
      if Py.is_digit a && negb (Py.digit_val a =? 0) then Some (Py.digit_val a, r) else None
  | EmptyString => None
  end.

(** [datetime.strptime(s, "%Y-%m-%d").date()]; [None] stands for
    [ValueError]. *)
Definition strptime_ymd (s : string) : option date :=
  match s with
  | String y1 (String y2 (String y3 (String y4 (String "-" r)))) =>
      if forallb Py.is_digit [y1; y2; y3; y4] then
        match read_month r with
        | Some (m, String "-" r') =>
            match read_day r' with
            | Some (d, EmptyString) =>
                checked {| year := Py.digits_val 0 (String y1 (String y2 (String y3 (String y4 ""))));
                           month := m; day := d |}
            | _ => None
            end
        | _ => None
        end
      else None
  | _ => None
  end.

End Calendar.

(** * utils/supabase_utils.py *)

Module Supabase.
Local Open Scope Q_scope.

(** A row of the [fuel_rates] table.  Dates are the ISO texts the store
    returns; the code compares them as text. *)
Record fuel_rate : Type := {
  rate_name : string;
  start_date : string;
  value : Q;
}.

(** [rate_lookup = defaultdict(list)], filled by
    [rate_lookup[rate["rate_name"]].append(rate)]. *)
Definition build_rate_lookup (rates : list fuel_rate) : gmap string (list fuel_rate) :=
  foldl (λ lookup rate,
           <[rate_name rate := (default [] (lookup !! rate_name rate) ++ [rate])%list]> lookup)
        ∅ rates.

(** [get_rate_for_date(rate_name, report_date_str)], a closure over
    [rate_lookup]. *)
Definition get_rate_for_date (rate_lookup : gmap string (list fuel_rate))
    (name report_date_str : string) : result Q :=
  let candidates :=
    filter (λ r, String.le (start_date r) report_date_str)
           (default [] (rate_lookup !! name)) in
  match candidates with
  | [] => Ok 0
  | _ =>
      match Py.sorted_desc String.ltb start_date candidates with
      | r :: _ => Ok (value r)
      | [] => Raise IndexError
      end
  end.

(** A saved daily report, as far as the rate step reads and writes it. *)
Record report_row : Type := {
  report_date : string;
  rate_r22_12 : Q;
  rate_r23_36 : Q;
}.

(** Step 4 of [fetch_daily_sales_reports]: attach both rates to every
    report. *)
Fixpoint add_rates (rate_lookup : gmap string (list fuel_rate))
    (reports : list report_row) : result (list report_row) :=
  match reports with
  | [] => Ok []
  | rec :: rest =>
      r1 ← get_rate_for_date rate_lookup "rate_r22_12" (report_date rec);
      r2 ← get_rate_for_date rate_lookup "rate_r23_36" (report_date rec);
      rest' ← add_rates rate_lookup rest;
      Ok ({| report_date := report_date rec; rate_r22_12 := r1; rate_r23_36 := r2 |}
          :: rest')
  end.

Definition fetch_daily_sales_reports (reports : list report_row)
    (rates : list fuel_rate) : result (list report_row) :=
  add_rates (build_rate_lookup rates) reports.


(** *** The paging loop of the fetchers

    [fetch_posaud_sales], [fetch_eod_data], [fetch_pos2_stock_data] and
    [fetch_pos3_stock_data] (and the views that query [slip_items]) read
    a query page by page:

    [while True: rows = query.range(page * page_size,
    (page + 1) * page_size - 1).execute().data or []; all_data.extend(rows);
    if len(rows) < page_size: break; page += 1].

    [range lo hi] is the answer of the store to the request for the rows
    [lo] to [hi] of the query, [None] being a null [data].  The loop has
    no bound of its own: [fuel] is the number of requests a run may
    make, and a run that is still paging when it is used up gives
    [None]. *)
Definition page_size : nat := 1000.

Fixpoint fetch_pages {A} (range : nat → nat → option (list A))
    (fuel page : nat) (all_data : list A) : option (list A) :=
  match fuel with
  | O => None
  | S fuel' =>
      let rows := default [] (range (page * page_size) ((page + 1) * page_size - 1))%nat in
      let all_data := (all_data ++ rows)%list in
      if (length rows <? page_size)%nat then Some all_data
      else fetch_pages range fuel' (page + 1)%nat all_data
  end.

(** *** The query of [fetch_posaud_sales] *)

(** The calls chained on the query builder. *)
Inductive clause : Type :=
| Gte (column value : string)
| Lte (column value : string)
| Or_ (conditions : string)
| Ilike (column pattern : string)
| Order (column : string) (desc : bool).

(** Truth of an optional text: [None] and the empty text are falsy. *)
Definition truthy (s : option string) : bool :=
  match s with
  | Some (String _ _) => true
  | _ => false
  end.

(** [filters.get(k)] on a dictionary of texts, a null value being
    [Some None]. *)
Definition filter_get (filters : gmap string (option string)) (k : string) : option string :=
  default None (filters !! k).

(** The date clauses: a start or an end date of [filters] comes before
    [from_date]. *)
Definition date_clauses (from_date : option string)
    (filters : option (gmap string (option string))) : list clause :=
  let from_clause :=
    match from_date with
    | Some (String c r) => [Gte "trandate" (String c r)]
    | _ => []
    end in
  match filters with
  | Some f =>
      if bool_decide (f = ∅) then from_clause
      else
        let start_date := filter_get f "start_date" in
        let end_date := filter_get f "end_date" in
        if truthy start_date && truthy end_date
        then [Gte "trandate" (default "" start_date); Lte "trandate" (default "" end_date)]
        else if truthy start_date then [Gte "trandate" (default "" start_date)]
        else if truthy end_date then [Lte "trandate" (default "" end_date)]
        else from_clause
  | None => from_clause
  end.

(** The other filters.  [filters.get("search_term", "").strip()] raises
    [AttributeError] on a null search term. *)
Definition other_clauses (filters : option (gmap string (option string)))
    : result (list clause) :=
  match filters with
  | Some f =>
      if bool_decide (f = ∅) then Ok []
      else
        search_term ←
          match f !! "search_term" with
          | None => Ok ""
          | Some None => Raise AttributeError
          | Some (Some s) => Ok (Py.lower (Py.strip s))
          end;
        Ok ((if Re.is_empty search_term then []
             else [Or_ ("userid.ilike.%" +:+ search_term +:+ "%,logfile.ilike.%"
                        +:+ search_term +:+ "%")])
            ++ (if truthy (filter_get f "item")
                then [Or_ ("details.ilike.%" +:+ default "" (filter_get f "item")
                           +:+ "%,code.ilike.%" +:+ default "" (filter_get f "item")
                           +:+ "%")]
                else [])
            ++ (if truthy (filter_get f "trantime")
                then [Ilike "trantime" (default "" (filter_get f "trantime") +:+ "%")]
                else []))%list
  | None => Ok []
  end.

(** The query [fetch_posaud_sales(from_date, filters)] sends, as the
    list of its clauses in the order of the calls. *)
Definition posaud_query (from_date : option string)
    (filters : option (gmap string (option string))) : result (list clause) :=
  others ← other_clauses filters;
  Ok (date_clauses from_date filters ++ others
      ++ [Order "trandate" true; Order "trantime" true])%list.

End Supabase.

(** * views.py *)

Module Views.
Local Open Scope Q_scope.

(** [calc_dispensed(opening, closing, max_meter=100000)]. *)
Definition calc_dispensed (opening closing : pyval) (max_meter : Q) : result Q :=
  if is_None opening || is_None closing then Ok 0
  else
    match (o ← py_float opening; c ← py_float closing; Ok (o, c)) with
    | Raise TypeError | Raise ValueError => Ok 0
    | Raise e => Raise e
    | Ok (opening, closing) =>
        if Qle_bool opening closing then Ok (closing - opening)
        else if Qgtb (opening - closing) ((1 # 2) * max_meter)
        then Ok ((max_meter - opening) + closing)
        else Ok 0
    end.

Definition default_max_meter : Q := 100000.

(** *** The line parser, [normalize_item_rows] *)

(** A raw detail-line row; [None] is a null column. *)
Record raw_row : Type := {
  details : option string;
  code : option string;
}.

(** An emitted entry [(name, qty, unit_price, total_price, barcode)]. *)
Record entry : Type := {
  e_name : string;
  e_qty : Q;
  e_unit_price : Q;
  e_total_price : Q;
  e_barcode : string;
}.

(** [float(s)] on text. *)
Definition float_str (s : string) : result Q :=
  match Py.float_of_string s with
  | Some q => Ok q
  | None => Raise ValueError
  end.

(** [(row.get("details") or "").strip()] and [row.get("code") or ""]. *)
Definition details_of (row : raw_row) : string := Py.strip (default "" (details row)).
Definition code_of (row : raw_row) : string := default "" (code row).

(** The three [float] conversions behind a quantity/price match. *)
Definition qty_price_values (m : string * string * string) : result (Q * Q * Q) :=
  let '(g1, g3, g4) := m in
  qty ← float_str g1;
  unit_price ← float_str g3;
  total_price ← (if Re.is_empty g4 then Ok (qty * unit_price) else float_str g4);
  Ok (qty, unit_price, total_price).

(** Rule 3: the first row of the group whose upper-cased details start
    with "ITEMS 1 TOTAL", and the number in its last word.  A failing
    conversion is caught and gives [None]. *)
Definition items1_total (group_rows : list raw_row) : option Q :=
  match
    List.find (λ r, Py.startswith "ITEMS 1 TOTAL" (Py.upper (default "" (details r))))
              group_rows
  with
  | Some items1 =>
      match last (Py.split (default "" (details items1))) with
      | Some word => Py.float_of_string word
      | None => None
      end
  | None => None
  end.

(** Rules 3 to 5 for a row that neither is nor precedes a quantity/price
    line. *)
Definition plain_entry (group_rows : list raw_row) (text barcode : string) : entry :=
  match items1_total group_rows with
  | Some total_val =>
      {| e_name := text; e_qty := 1; e_unit_price := total_val;
         e_total_price := total_val; e_barcode := barcode |}
  | None =>
      match Re.match_description_price text with
      | Some (name, price_text) =>
          let price := default 0 (Py.float_of_string price_text) in
          {| e_name := name; e_qty := 1; e_unit_price := price;
             e_total_price := price; e_barcode := barcode |}
      | None =>
          {| e_name := text; e_qty := 1; e_unit_price := 0;
             e_total_price := 0; e_barcode := barcode |}
      end
  end.

(** The name and barcode of a quantity/price line: those of the previous
    row when it has details that are not themselves a quantity/price
    line. *)
Definition qty_line_name (prev : option raw_row) (text barcode : string) : string * string :=
  match prev with
  | Some p =>
      let pdet := details_of p in
      if negb (Re.is_empty pdet) && negb (bool_decide (is_Some (Re.match_qty_price pdet)))
      then (pdet, if Re.is_empty (code_of p) then barcode else code_of p)
      else (text, barcode)
  | None => (text, barcode)
  end.

(** The loop [while index < len(group_rows)]: [rest] is
    [group_rows[index:]], [prev] is [group_rows[index - 1]] when
    [index > 0], and [normalized] is the list built so far. *)
Fixpoint normalize_loop (group_rows : list raw_row) (prev : option raw_row)
    (rest : list raw_row) (normalized : list entry) : result (list entry) :=
  match rest with
  | [] => Ok normalized
  | row :: rest' =>
      let text := details_of row in
      let barcode := code_of row in
      if Re.is_empty text then normalize_loop group_rows (Some row) rest' normalized
      else
        match Re.match_qty_price text with
        | Some m =>
            '(qty, unit_price, total_price) ← qty_price_values m;
            let '(name, bc) := qty_line_name prev text barcode in
            normalize_loop group_rows (Some row) rest'
              (normalized ++ [{| e_name := name; e_qty := qty; e_unit_price := unit_price;
                                 e_total_price := total_price; e_barcode := bc |}])
        | None =>
            let plain :=
              normalize_loop group_rows (Some row) rest'
                (normalized ++ [plain_entry group_rows text barcode]) in
            match rest' with
            | next_row :: rest'' =>
                match Re.match_qty_price (details_of next_row) with
                | Some m =>
                    '(qty, unit_price, total_price) ← qty_price_values m;
                    normalize_loop group_rows (Some next_row) rest''
                      (normalized ++ [{| e_name := text; e_qty := qty;
                                         e_unit_price := unit_price;
                                         e_total_price := total_price;
                                         e_barcode := barcode |}])
                | None => plain
                end
            | [] => plain
            end
        end
  end.

(** [normalize_item_rows(group_rows)]. *)
Definition normalize_item_rows (group_rows : list raw_row) : result (list entry) :=
  normalize_loop group_rows None group_rows [].

(** *** The dashboard aggregation, [admin_dashboard] *)

(** A row of [slip_items] as the view reads it; [None] is a null
    column. *)
Record slip_item : Type := {
  total_price : option Q;
  vat : option Q;
  qty : option Q;
  item_name : option string;
  attendant : option string;
  trandate : option string;
  trantime : option string;
  slip_id : option Z;
  id : option Z;
}.

(** [a or b] on optional integers: [None] and [0] are falsy. *)
Definition or_int (a b : option Z) : option Z :=
  match a with
  | Some n => if (n =? 0)%Z then b else a
  | None => b
  end.

(** [s or dflt] on optional text: [None] and the empty text are falsy. *)
Definition or_str (s : option string) (dflt : string) : string :=
  match s with
  | Some (String c r) => String c r
  | _ => dflt
  end.

(** [float(x or 0)] on an optional number. *)
Definition or_zero (x : option Q) : Q := default 0 x.

(** An entry of [staff_sales]. *)
Record staff : Type := { sales : Q; transactions : nat }.

(** The local accumulators of the loop. *)
Record totals : Type := {
  total_revenue : Q;
  total_vat : Q;
  total_returns : Q;
  total_transactions : nat;
  fuel_total : Q;
  nonfuel_total : Q;
  diesel_total : Q;
  unleaded_total : Q;
  daily_sales : Dict.t string Q;
  hourly_sales : Dict.t string Q;
  staff_sales : Dict.t string staff;
  seen_slips : gset (option Z);
}.

(** The accumulators as initialised before the loop. *)
Definition totals_init : totals := {|
  total_revenue := 0; total_vat := 0; total_returns := 0;
  total_transactions := 0;
  fuel_total := 0; nonfuel_total := 0; diesel_total := 0; unleaded_total := 0;
  daily_sales := []; hourly_sales := []; staff_sales := [];
  seen_slips := ∅;
|}.

(** [d[k] += amount] on a [defaultdict(float)]. *)
Definition add_to (k : string) (amount : Q) (d : Dict.t string Q) : Dict.t string Q :=
  Dict.update k (λ old, default 0 old + amount) d.

(** [staff_sales[attendant]["sales"] += amount;
     staff_sales[attendant]["transactions"] += 1]. *)
Definition add_staff (k : string) (amount : Q) (d : Dict.t string staff) : Dict.t string staff :=
  Dict.update k
    (λ old, let e := default {| sales := 0; transactions := 0 |} old in
            {| sales := sales e + amount; transactions := S (transactions e) |})
    d.

(** The slip key of a row: [item.get("slip_id") or item.get("id")]. *)
Definition slip_key (item : slip_item) : option Z := or_int (slip_id item) (id item).

(** [name]: the upper-cased item name. *)
Definition upper_name (item : slip_item) : string :=
  Py.upper (or_str (item_name item) "").

(** ["DIESEL" in name or "UNLEADED" in name]. *)
Definition is_fuel (item : slip_item) : bool :=
  Py.contains "DIESEL" (upper_name item) || Py.contains "UNLEADED" (upper_name item).

(** One iteration of [for item in all_data]. *)
Definition step (t : totals) (item : slip_item) : totals :=
  let amount := or_zero (total_price item) in
  let vat_amount := or_zero (vat item) in
  let name := upper_name item in
  let who := or_str (attendant item) "Unknown" in
  let slip := slip_key item in
  {| total_revenue := total_revenue t + amount;
     total_vat := total_vat t + vat_amount;
     total_returns := total_returns t;
     total_transactions :=
       if decide (slip ∈ seen_slips t) then total_transactions t
       else S (total_transactions t);
     seen_slips :=
       if decide (slip ∈ seen_slips t) then seen_slips t
       else {[slip]} ∪ seen_slips t;
     fuel_total := if is_fuel item then fuel_total t + amount else fuel_total t;
     nonfuel_total := if is_fuel item then nonfuel_total t else nonfuel_total t + amount;
     diesel_total :=
       if Py.contains "DIESEL" name then diesel_total t + amount else diesel_total t;
     unleaded_total :=
       if Py.contains "UNLEADED" name then unleaded_total t + amount else unleaded_total t;
     daily_sales :=
       match trandate item with
       | Some (String c r) => add_to (String c r) amount (daily_sales t)
       | _ => daily_sales t
       end;
     hourly_sales :=
       match trantime item with
       | Some (String c r) => add_to (Py.take 2 (String c r)) amount (hourly_sales t)
       | _ => hourly_sales t
       end;
     staff_sales := add_staff who amount (staff_sales t);
  |}.

(** The whole loop over the fetched rows. *)
Definition aggregate (all_data : list slip_item) : totals :=
  foldl step totals_init all_data.

(** [sum(amt for d, amt in daily_sales.items()
          if lo <= date.fromisoformat(d) <= hi)]; a date text that does
    not parse raises [ValueError]. *)
Fixpoint sum_between (lo hi : Calendar.date) (acc : Q) (items : list (string * Q)) : result Q :=
  match items with
  | [] => Ok acc
  | (d, amt) :: rest =>
      match Calendar.fromisoformat d with
      | None => Raise ValueError
      | Some dt =>
          sum_between lo hi
            (if Calendar.date_between lo dt hi then acc + amt else acc) rest
      end
  end.

Definition is_zero (q : Q) : bool := Qeq_bool q 0.

(** The template context of the dashboard (the request filters and the
    JSON encoding of the chart series left aside). *)
Record dashboard : Type := {
  ctx_today : Calendar.date;
  ctx_today_sale : Q;
  ctx_week_sale : Q;
  ctx_week_start : Calendar.date;
  ctx_week_end : Calendar.date;
  ctx_month_sale : Q;
  ctx_month_start : Calendar.date;
  ctx_month_end : Calendar.date;
  ctx_total_revenue : Q;
  ctx_nett_revenue : Q;
  ctx_total_vat : Q;
  ctx_total_returns : Q;
  ctx_total_transactions : nat;
  ctx_avg_transaction_value : Q;
  ctx_fuel_total : Q;
  ctx_nonfuel_total : Q;
  ctx_fuel_percentage : Q;
  ctx_nonfuel_percentage : Q;
  ctx_diesel_total : Q;
  ctx_unleaded_total : Q;
  ctx_staff_performance : list (string * staff);
  ctx_revenue_trend_labels : list string;
  ctx_revenue_trend_data : list Q;
  ctx_hourly_labels : list string;
  ctx_hourly_sales : list Q;
}.

(** [admin_dashboard(request)], from the fetched rows [all_data] and the
    current date [today] to the template context. *)
Definition admin_dashboard (today : Calendar.date) (all_data : list slip_item)
    : result dashboard :=
  let t := aggregate all_data in
  let today_sale := default 0 (Dict.get (daily_sales t) (Calendar.isoformat today)) in
  let week_start := Calendar.add_days today (- Calendar.weekday today) in
  let week_end := Calendar.add_days week_start 6 in
  week_sale ← sum_between week_start week_end 0 (daily_sales t);
  let month_start := Calendar.replace_day today 1 in
  let month_end :=
    Calendar.replace_day today
      (Calendar.days_in_month (Calendar.year today) (Calendar.month today)) in
  month_sale ← sum_between month_start month_end 0 (daily_sales t);
  let revenue_trend_labels :=
    Py.sorted_asc String.ltb (λ k, k) (Dict.keys (daily_sales t)) in
  let hourly_labels :=
    Py.sorted_asc String.ltb (λ k, k) (Dict.keys (hourly_sales t)) in
  let fuel_percentage :=
    if is_zero (total_revenue t) then 0
    else fuel_total t / total_revenue t * 100 in
  Ok {| ctx_today := today;
        ctx_today_sale := today_sale;
        ctx_week_sale := week_sale;
        ctx_week_start := week_start;
        ctx_week_end := week_end;
        ctx_month_sale := month_sale;
        ctx_month_start := month_start;
        ctx_month_end := month_end;
        ctx_total_revenue := total_revenue t;
        ctx_nett_revenue := total_revenue t - total_returns t;
        ctx_total_vat := total_vat t;
        ctx_total_returns := total_returns t;
        ctx_total_transactions := total_transactions t;
        ctx_avg_transaction_value :=
          match total_transactions t with
          | O => 0
          | n => total_revenue t / inject_Z (Z.of_nat n)
          end;
        ctx_fuel_total := fuel_total t;
        ctx_nonfuel_total := nonfuel_total t;
        ctx_fuel_percentage := fuel_percentage;
        ctx_nonfuel_percentage := 100 - fuel_percentage;
        ctx_diesel_total := diesel_total t;
        ctx_unleaded_total := unleaded_total t;
        ctx_staff_performance :=
          Py.sorted_desc Qltb (λ kv, sales kv.2) (staff_sales t);
        ctx_revenue_trend_labels := revenue_trend_labels;
        ctx_revenue_trend_data :=
          map (λ d, default 0 (Dict.get (daily_sales t) d)) revenue_trend_labels;
        ctx_hourly_labels := hourly_labels;
        ctx_hourly_sales :=
          map (λ h, default 0 (Dict.get (hourly_sales t) h)) hourly_labels;
     |}.

(** *** The returns page, [return_transactions_view] *)

(** A row of [posaud] as the returns page reads it. *)
Record audit_row : Type := {
  opref : option string;
  audit_details : option string;
}.

(** ["return" in text or "refund" in text]. *)
Definition mentions_return (text : string) : bool :=
  Py.contains "return" text || Py.contains "refund" text.

(** [text.replace(" ", "")]. *)
Fixpoint remove_spaces (s : string) : string :=
  match s with
  | EmptyString => EmptyString
  | String c s' =>
      if bool_decide (c = " "%char) then remove_spaces s'
      else String c (remove_spaces s')
  end.

(** [grouped[row.get("opref")].append(row)] over the fetched rows. *)
Definition group_by_opref (data : list audit_row)
    : Dict.t (option string) (list audit_row) :=
  foldl (λ grouped row,
           Dict.update (opref row) (λ old, (default [] old ++ [row])%list) grouped)
        [] data.

(** What one row of a return slip adds to the total: the number behind
    the word amount, when the line mentions a return or a refund. *)
Definition add_row_amount (total : Q) (r : audit_row) : Q :=
  let text := remove_spaces (Py.lower (default "" (audit_details r))) in
  if mentions_return text then
    match Re.search_amount text with
    | Some g =>
        match Py.float_of_string g with
        | Some v => total + v
        | None => total
        end
    | None => total
    end
  else total.

(** The total of the returns page, before it is rounded for display. *)
Definition return_transactions_total (data : list audit_row) : Q :=
  foldl (λ total slip,
           if existsb (λ r, mentions_return (Py.lower (default "" (audit_details r))))
                      slip.2
           then foldl add_row_amount total slip.2
           else total)
        0 (group_by_opref data).


(** *** Fuel type by price, [get_fuel_type_from_price] *)

(** [FUEL_PRICE_RANGES], in the order of the dictionary literal. *)
Definition FUEL_PRICE_RANGES : Dict.t string (Q * Q) :=
  [ ("UNLEADED 95", (21.50, 22.50)); ("DIESEL 50PPM", (22.50, 23.50)) ].

(** The loop [for fuel, (low, high) in ...items()]. *)
Fixpoint fuel_type_in (ranges : Dict.t string (Q * Q)) (price : Q) : string :=
  match ranges with
  | [] => "UNKNOWN"
  | (fuel, (low, high)) :: rest =>
      if Qle_bool low price && Qle_bool price high then fuel
      else fuel_type_in rest price
  end.

Definition get_fuel_type_from_price (price : Q) : string :=
  fuel_type_in FUEL_PRICE_RANGES price.

(** *** Meter readings of the detail lines, [parse_readings] *)

(** The three local variables of the loop. *)
Record readings : Type := {
  ulp_reading_03 : option Z;
  ulp_reading_01 : option Z;
  d50_reading : option Z;
}.

(** One iteration of [for line in details_lines]; [int] of a run of
    digits is its decimal value. *)
Definition readings_step (st : readings) (line : option string) : readings :=
  match line with
  | Some (String c r) =>
      let s := Py.lower (String c r) in
      if Py.contains "03 unleaded 95" s then
        match Re.search (Re.match_unleaded_at "03") s with
        | Some g =>
            {| ulp_reading_03 := Some (Py.digits_val 0 g);
               ulp_reading_01 := ulp_reading_01 st;
               d50_reading := d50_reading st |}
        | None => st
        end
      else if Py.contains "01 unleaded 95" s then
        match Re.search (Re.match_unleaded_at "01") s with
        | Some g =>
            {| ulp_reading_03 := ulp_reading_03 st;
               ulp_reading_01 := Some (Py.digits_val 0 g);
               d50_reading := d50_reading st |}
        | None => st
        end
      else if Py.contains "diesel 50ppm" s then
        match Re.search Re.match_50ppm_at s with
        | Some g =>
            {| ulp_reading_03 := ulp_reading_03 st;
               ulp_reading_01 := ulp_reading_01 st;
               d50_reading := Some (Py.digits_val 0 g) |}
        | None => st
        end
      else st
  | _ => st
  end.

(** [parse_readings(details_lines)]: the unleaded and the diesel
    reading.  A reading of pump 03 that is zero is falsy and gives way
    to pump 01. *)
Definition parse_readings (details_lines : list (option string)) : Z * Z :=
  let st :=
    foldl readings_step
      {| ulp_reading_03 := None; ulp_reading_01 := None; d50_reading := None |}
      details_lines in
  (default 0%Z (or_int (ulp_reading_03 st) (or_int (ulp_reading_01 st) (Some 0%Z))),
   default 0%Z (d50_reading st)).

(** *** Access checks *)

(** A user as the access checks read it; an anonymous user is not
    authenticated. *)
Record account : Type := {
  is_authenticated : bool;
  account_role : string;
}.

(** [is_admin_or_manager(user)]. *)
Definition is_admin_or_manager (user : account) : bool :=
  is_authenticated user && bool_decide (account_role user ∈ ["admin"; "manager"]).

End Views.

(** * utils/fuel_utils.py *)

Module FuelUtils.

Definition TAGID_ATTENDANT_MAP : gmap string string :=
  list_to_map
    [ ("94CBA1", "Molapo"); ("56BDEF", "Jose"); ("C7DFA1", "Sibu"); ("6DC29F", "Mathebe") ].


(** [get_fuel_type_from_price(price)] of this module. *)
Definition get_fuel_type_from_price (price : Q) : string :=
  if Qltb (Qabs (price - 22.08)%Q) 0.05%Q then "UNLEADED 95"
  else if Qltb (Qabs (price - 22.8)%Q) 0.05%Q then "DIESEL 50PPM"
  else "UNKNOWN".

End FuelUtils.

(** * tasks.py *)

Module Tasks.
Local Open Scope Q_scope.

(** A row of the fuel log [eod_data], with the columns the query selects
    and the task reads; [None] is a null column. *)
Record eod_row : Type := {
  s_date : option string;
  total : option Q;
  gradeid : option string;
  tagid : option string;
}.

(** A row of [pos2_stock_data] or [pos3_stock_data].  [opref] is the slip
    reference of the receipt the line belongs to; the task does not read
    it. *)
Record pos_row : Type := {
  trandate : option string;
  details : option string;
  opref : option string;
}.

(** A row of [posaud]. *)
Record posaud_row : Type := {
  aud_details : option string;
}.

(** The date window computed from [today]. *)
Record window : Type := {
  today : Calendar.date;
  week_start : Calendar.date;
  week_end : Calendar.date;
  month_start : Calendar.date;
  month_end : Calendar.date;
}.

Definition window_of (today : Calendar.date) : window :=
  let week_start := Calendar.add_days today (- Calendar.weekday today) in
  let month_start := Calendar.replace_day today 1 in
  let next_month := Calendar.add_days (Calendar.replace_day month_start 28) 4 in
  {| today := today;
     week_start := week_start;
     week_end := Calendar.add_days week_start 6;
     month_start := month_start;
     month_end := Calendar.add_days next_month (- Calendar.day next_month) |}.

(** The dictionary [totals]. *)
Record totals : Type := {
  daily : Q;
  weekly : Q;
  monthly : Q;
  fuel : Q;
  diesel : Q;
  unleaded : Q;
  nonfuel : Q;
  revenue : Q;
  returns : Q;
  transactions : nat;
}.

(** An entry of [staff_perf]. *)
Record staff : Type := { sales : Q; staff_transactions : nat }.

(** What the three loops update. *)
Record state : Type := {
  tot : totals;
  staff_perf : Dict.t string staff;
  daily_trends : Dict.t string Q;
}.

Definition state_init : state := {|
  tot := {| daily := 0; weekly := 0; monthly := 0; fuel := 0; diesel := 0;
            unleaded := 0; nonfuel := 0; revenue := 0; returns := 0;
            transactions := 0 |};
  staff_perf := [];
  daily_trends := [];
|}.

(** The three period buckets: a row of date [d] adds [amount] to each
    bucket whose window holds [d]. *)
Definition bucket (w : window) (d : Calendar.date) (amount : Q) (t : totals)
    : Q * Q * Q :=
  (if Calendar.date_eqb d (today w) then daily t + amount else daily t,
   if Calendar.date_between (week_start w) d (week_end w)
   then weekly t + amount else weekly t,
   if Calendar.date_between (month_start w) d (month_end w)
   then monthly t + amount else monthly t).

(** One iteration over [eod_data].  A null date or total, or a date that
    does not parse, raises inside the [try] before anything is updated,
    and the row is skipped. *)
Definition eod_step (w : window) (st : state) (row : eod_row) : state :=
  match s_date row with
  | None => st
  | Some date_str =>
      match Calendar.strptime_ymd date_str, total row with
      | Some d, Some amount =>
          let t := tot st in
          let grade := Py.strip (default "" (gradeid row)) in
          let '(dl, wk, mo) := bucket w d amount t in
          let tag := Py.upper (default "" (tagid row)) in
          let who := default "Unknown" (FuelUtils.TAGID_ATTENDANT_MAP !! tag) in
          {| tot :=
               {| daily := dl; weekly := wk; monthly := mo;
                  fuel := fuel t + amount;
                  diesel := if bool_decide (grade = "02") then diesel t + amount else diesel t;
                  unleaded :=
                    if bool_decide (grade = "01") then unleaded t + amount else unleaded t;
                  nonfuel := nonfuel t;
                  revenue := revenue t + amount;
                  returns := returns t;
                  transactions := S (transactions t) |};
             staff_perf :=
               Dict.update who
                 (λ old, let e := default {| sales := 0; staff_transactions := 0 |} old in
                         {| sales := sales e + amount;
                            staff_transactions := S (staff_transactions e) |})
                 (staff_perf st);
             daily_trends :=
               Dict.update date_str (λ old, default 0 old + amount) (daily_trends st) |}
      | _, _ => st
      end
  end.

(** [float(nums[-1]) if nums else 0] for [nums = re.findall(..., text)]. *)
Definition last_number (text : string) : Q :=
  match last (Re.findall_numbers text) with
  | Some n => default 0 (Py.float_of_string n)
  | None => 0
  end.

(** ["VOID" in text.upper()]. *)
Definition is_void (text : string) : bool := Py.contains "VOID" (Py.upper text).

(** One iteration over [pos2_data + pos3_data]. *)
Definition pos_step (w : window) (st : state) (row : pos_row) : state :=
  match trandate row with
  | Some (String c r) =>
      let date_str := String c r in
      match Calendar.strptime_ymd date_str with
      | Some d =>
          let text := Py.strip (default "" (details row)) in
          if is_void text then st
          else
            let amount := last_number text in
            let t := tot st in
            let '(dl, wk, mo) := bucket w d amount t in
            {| tot :=
                 {| daily := dl; weekly := wk; monthly := mo;
                    fuel := fuel t; diesel := diesel t; unleaded := unleaded t;
                    nonfuel := nonfuel t + amount;
                    revenue := revenue t + amount;
                    returns := returns t;
                    transactions := S (transactions t) |};
               staff_perf := staff_perf st;
               daily_trends :=
                 Dict.update date_str (λ old, default 0 old + amount) (daily_trends st) |}
      | None => st
      end
  | _ => st
  end.

(** The amount a [posaud] row adds to the returns: the first number of a
    line that mentions a return or a refund; nothing otherwise. *)
Definition return_amount (row : posaud_row) : Q :=
  let text := Py.lower (default "" (aud_details row)) in
  if Py.contains "return" text || Py.contains "refund" text then
    match Re.search_number text with
    | Some m => default 0 (Py.float_of_string m)
    | None => 0
    end
  else 0.

(** Whether the row reaches [totals["returns"] += ...]. *)
Definition has_return_amount (row : posaud_row) : bool :=
  let text := Py.lower (default "" (aud_details row)) in
  (Py.contains "return" text || Py.contains "refund" text)
  && bool_decide (is_Some (Re.search_number text)).

(** One iteration over [posaud_data]. *)
Definition returns_step (st : state) (row : posaud_row) : state :=
  if has_return_amount row then
    let t := tot st in
    {| tot :=
         {| daily := daily t; weekly := weekly t; monthly := monthly t;
            fuel := fuel t; diesel := diesel t; unleaded := unleaded t;
            nonfuel := nonfuel t; revenue := revenue t;
            returns := returns t + return_amount row;
            transactions := transactions t |};
       staff_perf := staff_perf st;
       daily_trends := daily_trends st |}
  else st.

(** The three loops, in order. *)
Definition run_loops (w : window) (eod_data : list eod_row)
    (pos2_data pos3_data : list pos_row) (posaud_data : list posaud_row) : state :=
  let st1 := foldl (eod_step w) state_init eod_data in
  let st2 := foldl (pos_step w) st1 (pos2_data ++ pos3_data)%list in
  foldl returns_step st2 posaud_data.

(** [sum(float(row.get("total", 0)) for row in eod_data)]: outside any
    [try], a null total raises [TypeError]. *)
Fixpoint pos1_total (acc : Q) (eod_data : list eod_row) : result Q :=
  match eod_data with
  | [] => Ok acc
  | row :: rest =>
      match total row with
      | Some amount => pos1_total (acc + amount) rest
      | None => Raise TypeError
      end
  end.

(** The sums [pos2_total] and [pos3_total] over the rows without VOID. *)
Definition pos_total (rows : list pos_row) : Q :=
  foldl (λ acc row,
           if is_void (default "" (details row)) then acc
           else acc + last_number (default "" (details row)))
        0 rows.

(** [round(x, 2)] on an exact amount: to the nearest hundredth, a tie
    going to the even one.  On a float the tie is decided on the binary
    value the float stands for, as [Binary64.round2] does. *)
Definition round2 (x : Q) : Q :=
  let scaled := x * 100 in
  let lower := Qfloor scaled in
  let rest := scaled - inject_Z lower in
  let cents :=
    if Qltb rest (1 # 2) then lower
    else if Qltb (1 # 2) rest then (lower + 1)%Z
    else if Z.even lower then lower else (lower + 1)%Z in
  inject_Z cents / 100.

(** The cached dashboard. *)
Record dashboard : Type := {
  today_sale : Q;
  week_sale : Q;
  month_sale : Q;
  fuel_total : Q;
  diesel_total : Q;
  unleaded_total : Q;
  nonfuel_total : Q;
  total_revenue : Q;
  nett_revenue : Q;
  total_returns : Q;
  total_transactions : nat;
  staff_performance : Dict.t string staff;
  revenue_trend_labels : list string;
  revenue_trend_data : list Q;
  pos1_total_paid : Q;
  pos2_total_paid : Q;
  pos3_total_paid : Q;
  dash_window : window;
}.

(** The dashboard built from the fetched tables. *)
Definition build_dashboard (today : Calendar.date) (eod_data : list eod_row)
    (pos2_data pos3_data : list pos_row) (posaud_data : list posaud_row)
    : result dashboard :=
  let w := window_of today in
  let st := run_loops w eod_data pos2_data pos3_data posaud_data in
  let t := tot st in
  p1 ← pos1_total 0 eod_data;
  let sorted_dates := Py.sorted_asc String.ltb (λ k, k) (Dict.keys (daily_trends st)) in
  Ok {| today_sale := round2 (daily t);
        week_sale := round2 (weekly t);
        month_sale := round2 (monthly t);
        fuel_total := round2 (fuel t);
        diesel_total := round2 (diesel t);
        unleaded_total := round2 (unleaded t);
        nonfuel_total := round2 (nonfuel t);
        total_revenue := round2 (revenue t);
        nett_revenue := round2 (revenue t - returns t);
        total_returns := round2 (returns t);
        total_transactions := transactions t;
        staff_performance := staff_perf st;
        revenue_trend_labels := sorted_dates;
        revenue_trend_data :=
          map (λ d, default 0 (Dict.get (daily_trends st) d)) sorted_dates;
        pos1_total_paid := round2 p1;
        pos2_total_paid := round2 (pos_total pos2_data);
        pos3_total_paid := round2 (pos_total pos3_data);
        dash_window := w |}.

(** [refresh_dashboard_cache()], from the current date, the four fetched
    tables and the process-wide cache to the return value and the new
    cache: [cache.set("dashboard_cache", dashboard, 300)], then [True].
    The expiry is left aside. *)
Definition refresh_dashboard_cache (today : Calendar.date) (eod_data : list eod_row)
    (pos2_data pos3_data : list pos_row) (posaud_data : list posaud_row)
    (cache : gmap string dashboard) : result (bool * gmap string dashboard) :=
  d ← build_dashboard today eod_data pos2_data pos3_data posaud_data;
  Ok (true, <["dashboard_cache" := d]> cache).

End Tasks.

(** * The two aggregators as steps of one process

    The only state that outlives an invocation is Django's cache, which
    [refresh_dashboard_cache] overwrites under the key "dashboard_cache".
    [admin_dashboard] builds every accumulator afresh and touches no
    module-level name, so as a step of the process it hands the cache on
    as it received it. *)

Module Process.

Definition cache : Type := gmap string Tasks.dashboard.

(** The inputs of one invocation: the current date and the rows the row
    source returns. *)
Inductive invocation : Type :=
| Refresh (today : Calendar.date) (eod_data : list Tasks.eod_row)
    (pos2_data pos3_data : list Tasks.pos_row) (posaud_data : list Tasks.posaud_row)
| Dashboard (today : Calendar.date) (all_data : list Views.slip_item).

(** What an invocation answers. *)
Inductive response : Type :=
| Refreshed (r : result bool)
| Rendered (r : result Views.dashboard).

Definition invoke (i : invocation) (c : cache) : response * cache :=
  match i with
  | Refresh today eod_data pos2_data pos3_data posaud_data =>
      match Tasks.refresh_dashboard_cache today eod_data pos2_data pos3_data
              posaud_data c with
      | Ok (b, c') => (Refreshed (Ok b), c')
      | Raise e => (Refreshed (Raise e), c)
      end
  | Dashboard today all_data => (Rendered (Views.admin_dashboard today all_data), c)
  end.

(** The cache after a sequence of invocations. *)
Definition run (steps : list invocation) (c : cache) : cache :=
  foldl (λ c i, (invoke i c).2) c steps.

End Process.

(** * The code on binary64 floats

    The modules above compute with exact rationals.  This one embeds the
    built-in [float] on every argument, the meter calculator on it, the
    money accumulators of the dashboard loop, and the rounding and the
    returns of the cached dashboard, on IEEE 754 binary64 values as
    Python's [float] has them: every operation rounds to the nearest
    float, ties to even. *)

Module Binary64.

(** The float nearest to a rational, ties to even; an infinity beyond
    the range.  The quotient is taken with three bits more than the
    precision and a last bit that records a remainder. *)
Definition of_Q (q : Q) : float :=
  let n := Qnum q in
  let d := Z.pos (Qden q) in
  if (n =? 0)%Z then zero
  else
    let a := Z.abs n in
    let k := Z.max 0 (Z.log2 d + 56 - Z.log2 a) in
    let m := (a * 2 ^ k / d)%Z in
    let sticky := if ((a * 2 ^ k) mod d =? 0)%Z then 0%Z else 1%Z in
    let x := SF2Prim (binary_normalize 53 1024 (2 * m + sticky) (- k - 1) false) in
    if (n <? 0)%Z then PrimFloat.opp x else x.

(** What a reading can hold: [None], an int, a float, a text, or an
    object that is none of them (a list, a dict). *)
Inductive value : Type :=
| VNone
| VInt (n : Z)
| VFloat (x : float)
| VStr (s : string)
| VOther.

Definition is_None (v : value) : bool :=
  match v with VNone => true | _ => false end.

(** [float(n)] on an int: the nearest float, and [OverflowError] from
    2^1024 - 2^970 on, where the nearest float would be an infinity. *)
Definition float_of_int (n : Z) : result float :=
  if (2 ^ 1024 - 2 ^ 970 <=? Z.abs n)%Z then Raise OverflowError
  else Ok (of_Q (inject_Z n)).

(** The white space [float] strips from a text: tab to carriage return,
    and the space. *)
Definition is_space (c : ascii) : bool :=
  let n := nat_of_ascii c in
  ((9 <=? n) && (n <=? 13) || (n =? 32))%nat.

Definition strip (s : string) : string :=
  String.rev (snd (Py.span is_space (String.rev (snd (Py.span is_space s))))).

(** The text without its underscores, each of which has to stand between
    two digits; [prev] is the character in front. *)
Fixpoint remove_underscores (prev : option ascii) (s : string) : option string :=
  match s with
  | EmptyString =>
      if bool_decide (prev = Some "_"%char) then None else Some EmptyString
  | String c s' =>
      if bool_decide (c = "_"%char) then
        match prev with
        | Some p => if Py.is_digit p then remove_underscores (Some c) s' else None
        | None => None
        end
      else if bool_decide (prev = Some "_"%char) && negb (Py.is_digit c) then None
      else String c <$> remove_underscores (Some c) s'
  end.

(** [float(s)] on a text: underscores between digits are dropped, the
    white space around is stripped, and what is left is a sign and
    either a spelling of infinity or of not-a-number, in any case, or a
    decimal numeral with an optional exponent.  Anything else raises
    [ValueError]. *)
Definition float_of_text (s : string) : result float :=
  match remove_underscores None s with
  | None => Raise ValueError
  | Some s1 =>
      let '(sg, s2) := Py.split_sign (strip s1) in
      let signed (x : float) : float := if (sg <? 0)%Z then PrimFloat.opp x else x in
      let word := Py.lower s2 in
      if bool_decide (word = "inf" ∨ word = "infinity") then Ok (signed infinity)
      else if bool_decide (word = "nan") then Ok (signed nan)
      else
        let '(ip, s3) := Py.span Py.is_digit s2 in
        let '(fp, s4) := Py.split_fraction s3 in
        match String.length ip + String.length fp with
        | O => Raise ValueError
        | _ =>
            match Py.parse_exponent s4 with
            | None => Raise ValueError
            | Some e =>
                Ok (signed (of_Q (Qred (inject_Z (Py.digits_val 0 (ip +:+ fp))
                                        * Py.pow10 (e - Z.of_nat (String.length fp))))))
            end
        end
  end.

(** The built-in [float(v)]. *)
Definition py_float (v : value) : result float :=
  match v with
  | VNone => Raise TypeError
  | VInt n => float_of_int n
  | VFloat x => Ok x
  | VStr s => float_of_text s
  | VOther => Raise TypeError
  end.

(** [calc_dispensed(opening, closing, max_meter)], [max_meter] being the
    float of the third argument.  The value returned is the int 0 or a
    float. *)
Definition calc_dispensed (opening closing : value) (max_meter : float) : result value :=
  if is_None opening || is_None closing then Ok (VInt 0)
  else
    match (o ← py_float opening; c ← py_float closing; Ok (o, c)) with
    | Raise TypeError | Raise ValueError => Ok (VInt 0)
    | Raise e => Raise e
    | Ok (opening, closing) =>
        if PrimFloat.leb opening closing then Ok (VFloat (closing - opening)%float)
        else if PrimFloat.ltb (0.5 * max_meter)%float (opening - closing)%float
        then Ok (VFloat ((max_meter - opening) + closing)%float)
        else Ok (VInt 0)
    end.

(** *** The money accumulators of [admin_dashboard] *)

(** A row of [slip_items] with the two columns the split reads. *)
Record item : Type := {
  item_name : option string;
  total_price : option float;
}.

(** [float(item.get("total_price") or 0)]: a null and a zero are
    falsy. *)
Definition amount (i : item) : float :=
  match total_price i with
  | Some x => if PrimFloat.eqb x zero then zero else x
  | None => zero
  end.

(** ["DIESEL" in name or "UNLEADED" in name] on the upper-cased item
    name. *)
Definition is_fuel (i : item) : bool :=
  let name := Py.upper (Views.or_str (item_name i) "") in
  Py.contains "DIESEL" name || Py.contains "UNLEADED" name.

Record money : Type := {
  total_revenue : float;
  fuel_total : float;
  nonfuel_total : float;
}.

(** One iteration of [for item in all_data], as far as the three
    accumulators go. *)
Definition step (t : money) (i : item) : money :=
  {| total_revenue := (total_revenue t + amount i)%float;
     fuel_total := if is_fuel i then (fuel_total t + amount i)%float else fuel_total t;
     nonfuel_total :=
       if is_fuel i then nonfuel_total t else (nonfuel_total t + amount i)%float |}.

Definition aggregate (all_data : list item) : money :=
  foldl step {| total_revenue := zero; fuel_total := zero; nonfuel_total := zero |}
        all_data.

(** *** The returns and the net revenue of [refresh_dashboard_cache] *)

(** The rational a finite float stands for. *)
Definition to_Q (x : float) : option Q :=
  match Prim2SF x with
  | S754_zero _ => Some 0%Q
  | S754_finite s m e => Some (inject_Z (cond_Zopp s (Z.pos m)) * Qpower 2 e)%Q
  | S754_infinity _ | S754_nan => None
  end.

(** [round(x, 2)] on a float: the float nearest to the hundredth that is
    nearest to the value of [x], a tie between hundredths going to the
    even one; the sign of [x] is kept, and an infinity or a
    not-a-number comes back as it is. *)
Definition round2 (x : float) : float :=
  match to_Q x with
  | Some q =>
      let r := of_Q (Qred (Tasks.round2 q)) in
      if PrimFloat.eqb r zero && get_sign x then neg_zero else r
  | None => x
  end.

(** One iteration of [for row in posaud_data]: the first number of a
    line that contains return or refund is added to the returns. *)
Definition returns_step (returns : float) (row : Tasks.posaud_row) : float :=
  let details := Py.lower (default "" (Tasks.aud_details row)) in
  if Py.contains "return" details || Py.contains "refund" details then
    match Re.search_number details with
    | Some m =>
        match float_of_text m with
        | Ok v => (returns + v)%float
        | Raise _ => returns
        end
    | None => returns
    end
  else returns.

(** The three figures of the cached dashboard that the returns enter,
    from the revenue the loops have summed and the audit lines. *)
Record figures : Type := {
  reported_revenue : float;
  reported_nett : float;
  reported_returns : float;
}.

Definition cached_figures (revenue : float) (posaud_data : list Tasks.posaud_row)
    : figures :=
  let returns := foldl returns_step zero posaud_data in
  {| reported_revenue := round2 revenue;
     reported_nett := round2 (revenue - returns)%float;
     reported_returns := round2 returns |}.

End Binary64.

(** * decorators.py *)

Module Decorators.

(** [check_role(user)] of [role_required(allowed_roles)]. *)
Definition check_role (allowed_roles : list string) (user : Views.account) : bool :=
  Views.is_authenticated user
  && bool_decide (Py.lower (Views.account_role user) ∈ allowed_roles).

End Decorators.

(** * views.py: the login view *)

Module Login.

(** A row of [CustomUser], as far as the view reads and writes it. *)
Record user : Type := {
  role : string;
  failed_attempts : nat;
  is_locked : bool;
}.

(** A request: its method and the two fields of the form. *)
Record request : Type := {
  method : string;
  post_email : option string;
  post_password : option string;
}.

(** The session of the client: the account logged in, and the expiry
    set on it. *)
Record session : Type := {
  auth_user : option string;
  expiry : option nat;
}.

(** What the view answers: the template it renders or the route it
    redirects to, and the message it flashes. *)
Inductive target : Type :=
| Render (template : string)
| Redirect (route : string).

Record response : Type := {
  answer : target;
  message : option string;
}.

(** The accounts by email (the column is unique), and the session. *)
Record state : Type := {
  users : gmap string user;
  client : session;
}.

Definition MAX_FAILED_ATTEMPTS : nat := 4.

Section Backend.

(** The verdict of the authentication backend on an email and a
    password. *)
Variable check_password : string → option string → bool.

(** [authenticate(request, email=email, password=password)]. *)
Definition authenticate (accounts : gmap string user) (email : string)
    (password : option string) : option user :=
  if check_password email password then accounts !! email else None.

Definition login_page (msg : option string) : response :=
  {| answer := Render "auth/login.html"; message := msg |}.

(** [custom_login_view(request)]. *)
Definition custom_login_view (req : request) (st : state) : response * state :=
  if bool_decide (method req = "POST") then
    match post_email req with
    | None => (login_page (Some "Invalid email or password"), st)
    | Some email =>
        match users st !! email with
        | None => (login_page (Some "Invalid email or password"), st)
        | Some user_obj =>
            if is_locked user_obj then
              (login_page (Some "Your account is locked. Please reset your password."), st)
            else
              match authenticate (users st) email (post_password req) with
              | Some user =>
                  let saved :=
                    <[email := {| role := role user_obj; failed_attempts := 0;
                                  is_locked := is_locked user_obj |}]> (users st) in
                  let logged_in :=
                    {| users := saved;
                       client := {| auth_user := Some email; expiry := Some 600%nat |} |} in
                  let role := Py.lower (role user) in
                  if bool_decide (role ∈ ["admin"; "manager"]) then
                    ({| answer := Redirect "admin_dashboard"; message := None |}, logged_in)
                  else if bool_decide (role = "staff") then
                    ({| answer := Redirect "staff_dashboard"; message := None |}, logged_in)
                  else
                    ({| answer := Redirect "login";
                        message := Some "User role not recognized" |},
                     {| users := saved;
                        client := {| auth_user := None; expiry := None |} |})
              | None =>
                  let attempts := S (failed_attempts user_obj) in
                  if (MAX_FAILED_ATTEMPTS <? attempts)%nat then
                    (login_page
                       (Some "Your account has been locked due to multiple failed login attempts. Please reset your password."),
                     {| users :=
                          <[email := {| role := role user_obj; failed_attempts := attempts;
                                        is_locked := true |}]> (users st);
                        client := client st |})
                  else
                    (login_page
                       (Some ("Invalid email or password. Attempt "
                              +:+ Py.str_int (Z.of_nat attempts) +:+ "/"
                              +:+ Py.str_int (Z.of_nat (MAX_FAILED_ATTEMPTS + 1)))),
                     {| users :=
                          <[email := {| role := role user_obj; failed_attempts := attempts;
                                        is_locked := is_locked user_obj |}]> (users st);
                        client := client st |})
              end
        end
    end
  else (login_page None, st).

(** The state after a sequence of requests. *)
Definition serve (reqs : list request) (st : state) : state :=
  foldl (λ st req, (custom_login_view req st).2) st reqs.

End Backend.

End Login.

(** * views.py: till-slip analysis and best sellers *)

Module SlipAnalysis.
Local Open Scope Q_scope.

(** [a > b] on dates. *)
Definition date_gtb (a b : Calendar.date) : bool := negb (Calendar.date_leb a b).

(** [datetime.strptime(raw, "%Y-%m-%d").date() if raw else today]. *)
Definition parse_or_today (raw : option string) (today : Calendar.date)
    : result Calendar.date :=
  match raw with
  | Some (String c r) =>
      match Calendar.strptime_ymd (String c r) with
      | Some d => Ok d
      | None => Raise ValueError
      end
  | _ => Ok today
  end.

(** The date filter of [till_slip_analysis_pos1] and
    [till_slip_analysis_dynamic]: no future dates, and a start date not
    after the end date. *)
Definition date_filter (today : Calendar.date) (raw_start_date raw_end_date : option string)
    : result (Calendar.date * Calendar.date) :=
  start_date ← parse_or_today raw_start_date today;
  end_date ← parse_or_today raw_end_date today;
  let start_date := if date_gtb start_date today then today else start_date in
  let end_date := if date_gtb end_date today then today else end_date in
  let start_date := if date_gtb start_date end_date then end_date else start_date in
  Ok (start_date, end_date).

(** [min(a, b)] on dates: [b] when it is smaller, else [a]. *)
Definition date_min (a b : Calendar.date) : Calendar.date :=
  if date_gtb a b then b else a.

(** The date filter of [most_sold_items]. *)
Definition date_filter_min (today : Calendar.date) (raw_start_date raw_end_date : option string)
    : result (Calendar.date * Calendar.date) :=
  start_date ← parse_or_today raw_start_date today;
  end_date ← parse_or_today raw_end_date today;
  let start_date := date_min start_date today in
  let end_date := date_min end_date today in
  let start_date := if date_gtb start_date end_date then end_date else start_date in
  Ok (start_date, end_date).

(** *** [till_slip_analysis_pos1]: litres by fuel *)

Record parsed_slip : Type := {
  ps_attendant : string;
  ps_trandate : option string;
  ps_time : option string;
  ps_fuel_type : string;
  ps_litres : Q;
  ps_amount_paid : Q;
}.

Record pos1_state : Type := {
  parsed_slips : list parsed_slip;
  total_litres : Q;
  pos1_amount_paid : Q;
  pos1_vat : Q;
  litres_by_fuel : Dict.t string Q;
}.

Definition pos1_init : pos1_state :=
  {| parsed_slips := []; total_litres := 0; pos1_amount_paid := 0; pos1_vat := 0;
     litres_by_fuel := [] |}.

(** One iteration of [for item in all_data]. *)
Definition pos1_step (st : pos1_state) (item : Views.slip_item) : pos1_state :=
  let litres := Views.or_zero (Views.qty item) in
  let amount := Views.or_zero (Views.total_price item) in
  let vat := Views.or_zero (Views.vat item) in
  let fuel := Views.or_str (Views.item_name item) "" in
  {| parsed_slips :=
       (parsed_slips st
        ++ [{| ps_attendant := Views.or_str (Views.attendant item) "";
               ps_trandate := Views.trandate item;
               ps_time := Views.trantime item;
               ps_fuel_type := fuel;
               ps_litres := litres;
               ps_amount_paid := amount |}])%list;
     total_litres := total_litres st + litres;
     pos1_amount_paid := pos1_amount_paid st + amount;
     pos1_vat := pos1_vat st + vat;
     litres_by_fuel := Views.add_to fuel litres (litres_by_fuel st) |}.

Definition pos1_totals (all_data : list Views.slip_item) : pos1_state :=
  foldl pos1_step pos1_init all_data.

(** *** [till_slip_analysis_dynamic]: slips and their financials *)

(** The key of a slip: the slip id of the row, or a text made of the row
    id. *)
Inductive slip_ref : Type :=
| RefId (n : Z)
| RefText (s : string).

#[global] Instance slip_ref_eq_dec : EqDecision slip_ref.
Proof. solve_decision. Defined.

(** The text an f-string gives for an optional integer. *)
Definition format_id (x : option Z) : string :=
  match x with
  | Some n => Py.str_int n
  | None => "None"
  end.

(** [x.get("slip_id") or f"<prefix>{x.get('id')}"]. *)
Definition ref_of (prefix : string) (slip_id row_id : option Z) : slip_ref :=
  match slip_id with
  | Some n => if (n =? 0)%Z then RefText (prefix +:+ format_id row_id) else RefId n
  | None => RefText (prefix +:+ format_id row_id)
  end.

Record item_line : Type := {
  il_name : string;
  il_quantity : Q;
  il_amount : Q;
  il_vat : Q;
}.

Record slip : Type := {
  userid : string;
  slip_trandate : option string;
  slip_time : option string;
  logfile : slip_ref;
  items : list item_line;
  amount_paid : Q;
  slip_vat : Q;
  returns : Q;
  payouts : Q;
  receipts : Q;
  payments : Q;
}.

(** A row of [slip_financials]. *)
Record fin_row : Type := {
  fin_slip_id : option Z;
  fin_id : option Z;
  fin_userid : option string;
  fin_trandate : option string;
  fin_trantime : option string;
  fin_amount : option Q;
  fin_type : option string;
}.

(** The running totals of the two loops. *)
Record sums : Type := {
  total_amount_paid : Q;
  total_vat : Q;
  total_returns : Q;
  total_payouts : Q;
  total_receipts : Q;
  total_payments : Q;
}.

Record slip_state : Type := {
  slips : Dict.t slip_ref slip;
  totals : sums;
}.

Definition slip_init : slip_state :=
  {| slips := [];
     totals := {| total_amount_paid := 0; total_vat := 0; total_returns := 0;
                  total_payouts := 0; total_receipts := 0; total_payments := 0 |} |}.

(** The slip a row opens when its key is new. *)
Definition new_slip (who : string) (date time : option string) (ref : slip_ref) : slip :=
  {| userid := who; slip_trandate := date; slip_time := time; logfile := ref;
     items := []; amount_paid := 0; slip_vat := 0; returns := 0; payouts := 0;
     receipts := 0; payments := 0 |}.

(** One iteration of [for item in all_sales]. *)
Definition sale_step (st : slip_state) (item : Views.slip_item) : slip_state :=
  let ref := ref_of "slip_" (Views.slip_id item) (Views.id item) in
  let quantity := Views.or_zero (Views.qty item) in
  let amount := Views.or_zero (Views.total_price item) in
  let vat := Views.or_zero (Views.vat item) in
  let t := totals st in
  {| slips :=
       Dict.update ref
         (λ old,
            let s := default (new_slip (Views.or_str (Views.attendant item) "")
                                (Views.trandate item) (Views.trantime item) ref) old in
            {| userid := userid s; slip_trandate := slip_trandate s;
               slip_time := slip_time s; logfile := logfile s;
               items :=
                 (items s
                  ++ [{| il_name := Views.or_str (Views.item_name item) "Unknown";
                         il_quantity := quantity; il_amount := amount;
                         il_vat := vat |}])%list;
               amount_paid := amount_paid s + amount;
               slip_vat := slip_vat s + vat;
               returns := returns s; payouts := payouts s;
               receipts := receipts s; payments := payments s |})
         (slips st);
     totals :=
       {| total_amount_paid := total_amount_paid t + amount;
          total_vat := total_vat t + vat;
          total_returns := total_returns t; total_payouts := total_payouts t;
          total_receipts := total_receipts t; total_payments := total_payments t |} |}.

(** One iteration of [for fin in all_fin]. *)
Definition fin_step (st : slip_state) (fin : fin_row) : slip_state :=
  let ref := ref_of "fin_" (fin_slip_id fin) (fin_id fin) in
  let amount := Views.or_zero (fin_amount fin) in
  let kind := Py.upper (Views.or_str (fin_type fin) "") in
  let is_kind (k : string) : bool := bool_decide (kind = k) in
  let t := totals st in
  {| slips :=
       Dict.update ref
         (λ old,
            let s := default (new_slip (Views.or_str (fin_userid fin) "")
                                (fin_trandate fin) (fin_trantime fin) ref) old in
            {| userid := userid s; slip_trandate := slip_trandate s;
               slip_time := slip_time s; logfile := logfile s;
               items := items s; amount_paid := amount_paid s; slip_vat := slip_vat s;
               returns := if is_kind "RETURN" then returns s + amount else returns s;
               payouts := if is_kind "PAYOUT" then payouts s + amount else payouts s;
               receipts := if is_kind "RECEIPT" then receipts s + amount else receipts s;
               payments := if is_kind "PAYMENT" then payments s + amount else payments s |})
         (slips st);
     totals :=
       {| total_amount_paid := total_amount_paid t; total_vat := total_vat t;
          total_returns :=
            if is_kind "RETURN" then total_returns t + amount else total_returns t;
          total_payouts :=
            if is_kind "PAYOUT" then total_payouts t + amount else total_payouts t;
          total_receipts :=
            if is_kind "RECEIPT" then total_receipts t + amount else total_receipts t;
          total_payments :=
            if is_kind "PAYMENT" then total_payments t + amount else total_payments t |} |}.

(** The two loops, in order. *)
Definition process_slips (all_sales : list Views.slip_item) (all_fin : list fin_row)
    : slip_state :=
  foldl fin_step (foldl sale_step slip_init all_sales) all_fin.

(** The figures of the template context. *)
Record slip_report : Type := {
  slips_list : list slip;
  total_transactions : nat;
  report_totals : sums;
  nett_takings : Q;
}.

Definition till_slip_analysis_dynamic (all_sales : list Views.slip_item)
    (all_fin : list fin_row) : slip_report :=
  let st := process_slips all_sales all_fin in
  let t := totals st in
  {| slips_list := (slips st).*2;
     total_transactions := length (slips st).*2;
     report_totals := t;
     nett_takings :=
       total_amount_paid t - total_returns t - total_payouts t
       - total_receipts t - total_payments t |}.

(** *** [most_sold_items]: quantities and amounts per item *)

Record item_total : Type := {
  quantity : Q;
  amount : Q;
}.

(** One iteration of [for item in combined_sales] on the
    [defaultdict] of the item totals. *)
Definition item_step (item_totals : Dict.t string item_total) (item : Views.slip_item)
    : Dict.t string item_total :=
  Dict.update (Views.or_str (Views.item_name item) "Unknown")
    (λ old,
       let e := default {| quantity := 0; amount := 0 |} old in
       {| quantity := quantity e + Views.or_zero (Views.qty item);
          amount := amount e + Views.or_zero (Views.total_price item) |})
    item_totals.

Definition item_totals (combined_sales : list Views.slip_item) : Dict.t string item_total :=
  foldl item_step [] combined_sales.

(** [sorted(item_totals.items(), key=lambda x: x[1]["quantity"],
    reverse=True)]. *)
Definition most_sold_items (combined_sales : list Views.slip_item)
    : list (string * item_total) :=
  Py.sorted_desc Qltb (λ x, quantity x.2) (item_totals combined_sales).

End SlipAnalysis.

(** * Verified properties *)

(** ** Dispensed-litres calculator *)

Module DispensedSpec.
Local Open Scope Q_scope.

(** The three cases of the specification, in its own words: normal
    reading, rollover, unreliable data. *)
Inductive dispensed_spec (opening closing max_meter : Q) : Q → Prop :=
| spec_normal :
    closing >= opening →
    dispensed_spec opening closing max_meter (closing - opening)
| spec_rollover :
    closing < opening →
    opening - closing > (1 # 2) * max_meter →
    dispensed_spec opening closing max_meter ((max_meter - opening) + closing)
| spec_bad_data :
    closing < opening →
    opening - closing <= (1 # 2) * max_meter →
    dispensed_spec opening closing max_meter 0.

End DispensedSpec.

Section CalcDispensed.
Import Views DispensedSpec.
Local Open Scope Q_scope.

Lemma Qgtb_true a b : Qgtb a b = true ↔ a > b.
Proof.
  unfold Qgtb. rewrite negb_true_iff, <- not_true_iff_false, Qle_bool_iff.
  split; [apply Qnot_le_lt | apply Qlt_not_le].
Qed.

Lemma Qgtb_false a b : Qgtb a b = false ↔ a <= b.
Proof.
  unfold Qgtb. rewrite negb_false_iff. apply Qle_bool_iff.
Qed.

Lemma Qle_bool_false a b : Qle_bool a b = false ↔ b < a.
Proof.
  rewrite <- not_true_iff_false, Qle_bool_iff.
  split; [apply Qnot_le_lt | apply Qlt_not_le].
Qed.

Lemma calc_dispensed_num o c m :
  calc_dispensed (PyNum o) (PyNum c) m =
  Ok (if Qle_bool o c then c - o
      else if Qgtb (o - c) ((1 # 2) * m) then (m - o) + c else 0).
Proof.
  unfold calc_dispensed; simpl.
  destruct (Qle_bool o c); [done|]. by destruct (Qgtb _ _).
Qed.

(** The reference definition determines its value. *)
Lemma dispensed_spec_functional o c m r1 r2 :
  dispensed_spec o c m r1 → dispensed_spec o c m r2 → r1 = r2.
Proof.
  intros H1 H2. destruct H1, H2; try reflexivity; exfalso; lra.
Qed.

(** The calculator and the reference definition agree on every value. *)
Lemma calc_dispensed_iff_spec (opening closing max_meter r : Q) :
  calc_dispensed (PyNum opening) (PyNum closing) max_meter = Ok r
  ↔ dispensed_spec opening closing max_meter r.
Proof.
  rewrite calc_dispensed_num. split.
  - intros [= <-].
    destruct (Qle_bool opening closing) eqn:Hle.
    + apply spec_normal. by apply Qle_bool_iff.
    + apply Qle_bool_false in Hle.
      destruct (Qgtb _ _) eqn:Hgap.
      * apply spec_rollover; [done|]. by apply Qgtb_true.
      * apply spec_bad_data; [done|]. by apply Qgtb_false.
  - intros Hspec. f_equal.
    destruct Hspec as [Hn | Hlt Hgap | Hlt Hgap].
    + apply Qle_bool_iff in Hn. by rewrite Hn.
    + apply Qle_bool_false in Hlt. apply Qgtb_true in Hgap.
      by rewrite Hlt, Hgap.
    + apply Qle_bool_false in Hlt. apply Qgtb_false in Hgap.
      by rewrite Hlt, Hgap.
Qed.

(** The reference definition covers every pair of readings. *)
Lemma dispensed_spec_total o c m : ∃ r, dispensed_spec o c m r.
Proof.
  destruct (Qlt_le_dec c o) as [Hlt|Hle].
  - destruct (Qlt_le_dec ((1 # 2) * m) (o - c)) as [Hgap|Hgap].
    + eexists. by apply spec_rollover.
    + eexists. by apply spec_bad_data.
  - eexists. by apply spec_normal.
Qed.

(** C1: on numeric readings, for every max_meter (the positive ones
    included), [calc_dispensed] returns a value, and that value is the
    one, and the only one, the three-case reference definition gives:
    closing - opening when closing >= opening; (max_meter - opening) +
    closing on a rollover, i.e. closing < opening with a gap above half
    of max_meter; 0 when closing < opening with a gap of at most half of
    max_meter. *)
Theorem calc_dispensed_three_cases (opening closing max_meter : Q) :
  ∃ r, calc_dispensed (PyNum opening) (PyNum closing) max_meter = Ok r
       ∧ dispensed_spec opening closing max_meter r
       ∧ ∀ r', dispensed_spec opening closing max_meter r' → r' = r.
Proof.
  rewrite calc_dispensed_num. eexists. split; [reflexivity|].
  assert (Hspec : dispensed_spec opening closing max_meter
            (if Qle_bool opening closing then closing - opening
             else if Qgtb (opening - closing) ((1 # 2) * max_meter)
                  then (max_meter - opening) + closing else 0)).
  { apply calc_dispensed_iff_spec, calc_dispensed_num. }
  split; [exact Hspec|].
  intros r' Hr'. by apply (dispensed_spec_functional opening closing max_meter).
Qed.

Lemma calc_dispensed_three_cases_witness :
  ∃ r, calc_dispensed (PyNum 99000) (PyNum 500) 100000 = Ok r
       ∧ dispensed_spec 99000 500 100000 r
       ∧ ∀ r', dispensed_spec 99000 500 100000 r' → r' = r.
Proof. exact (calc_dispensed_three_cases 99000 500 100000). Defined.

(** Worked examples of the specification. *)
Example dispensed_normal :
  calc_dispensed (PyNum 100) (PyNum (301 # 2)) 100000 = Ok (101 # 2).
Proof. reflexivity. Qed.

Example dispensed_rollover :
  calc_dispensed (PyNum 99000) (PyNum 500) 100000 = Ok 1500.
Proof. reflexivity. Qed.

Example dispensed_bad_data :
  calc_dispensed (PyNum 500) (PyNum 490) 100000 = Ok 0.
Proof. reflexivity. Qed.

Example dispensed_text_readings :
  calc_dispensed (PyStr "100.00") (PyStr " 150.50") 100000 = Ok (101 # 2).
Proof. reflexivity. Qed.

(** C7: for readings within the meter range, 0 <= opening <= max_meter
    and 0 <= closing <= max_meter, [calc_dispensed] returns a
    non-negative amount. *)
Theorem calc_dispensed_nonneg (opening closing max_meter : Q) :
  0 <= opening <= max_meter →
  0 <= closing <= max_meter →
  ∃ r, calc_dispensed (PyNum opening) (PyNum closing) max_meter = Ok r ∧ 0 <= r.
Proof.
  intros [Ho1 Ho2] [Hc1 Hc2]. rewrite calc_dispensed_num.
  eexists; split; [reflexivity|].
  destruct (Qle_bool opening closing) eqn:Hle.
  - apply Qle_bool_iff in Hle. lra.
  - destruct (Qgtb _ _); lra.
Qed.

Lemma calc_dispensed_nonneg_witness :
  ∃ r, calc_dispensed (PyNum 99000) (PyNum 500) 100000 = Ok r ∧ 0 <= r.
Proof.
  apply (calc_dispensed_nonneg 99000 500 100000); split; by vm_compute.
Defined.

(** Outside the meter range the rollover branch can go below zero: the
    range hypothesis of C7 is needed. *)
Example dispensed_negative_out_of_range :
  calc_dispensed (PyNum 300000) (PyNum 0) 100000 = Ok (-200000).
Proof. reflexivity. Qed.

(** [float] fails with [TypeError] or [ValueError] only. *)
Example dispensed_missing_closing :
  calc_dispensed (PyNum 500) PyNone 100000 = Ok 0.
Proof. reflexivity. Qed.

End CalcDispensed.

(** ** The meter calculator on every argument *)

Section CalcDispensedFloat.
Import Binary64.






(** The texts [float] converts are more than the plain numerals:
    underscores between digits, spellings of infinity and of
    not-a-number; the white space it strips is less than [str.strip]
    strips. *)
Example float_of_text_examples :
  float_of_text "1_000" = Ok 1000%float
  ∧ float_of_text " 2.675  " = Ok 2.675%float
  ∧ float_of_text "-Infinity" = Ok neg_infinity
  ∧ float_of_text "1e999" = Ok infinity
  ∧ float_of_text "1__0" = Raise ValueError
  ∧ float_of_text ("25" +:+ String (ascii_of_nat 28) "") = Raise ValueError
  ∧ float_of_text "12.5.0" = Raise ValueError
  ∧ float_of_text "" = Raise ValueError.
Proof. repeat split; vm_compute; reflexivity. Qed.

Example dispensed_underscored_readings :
  calc_dispensed (VStr "1_000") (VStr "2_000") 100000 = Ok (VFloat 1000).
Proof. vm_compute. reflexivity. Qed.

Example dispensed_rollover_float :
  calc_dispensed (VInt 99000) (VFloat 500) 100000 = Ok (VFloat 1500).
Proof. vm_compute. reflexivity. Qed.

End CalcDispensedFloat.

(** ** Rate lookup *)

Section RateLookup.
Import Supabase.
Local Open Scope Q_scope.

Lemma ltb_false_le (a b : string) : String.ltb a b = false → String.le b a.
Proof.
  unfold String.le, String.ltb, String.leb. rewrite (String.compare_antisym b a).
  destruct (String.compare a b); simpl; done.
Qed.

Lemma ltb_true_le (a b : string) : String.ltb a b = true → String.le a b.
Proof.
  unfold String.le, String.ltb, String.leb.
  destruct (String.compare a b); simpl; done.
Qed.

Context {A : Type} (key : A → string).

Lemma elem_of_insert_desc (x y : A) (l : list A) :
  y ∈ Py.insert_desc String.ltb key x l ↔ y = x ∨ y ∈ l.
Proof.
  induction l as [|z l IH]; simpl.
  - set_solver.
  - destruct (String.ltb (key z) (key x)); [set_solver|].
    rewrite !elem_of_cons, IH. naive_solver.
Qed.

Lemma elem_of_sorted_desc (y : A) (l : list A) :
  y ∈ Py.sorted_desc String.ltb key l ↔ y ∈ l.
Proof.
  unfold Py.sorted_desc.
  assert (H : ∀ acc, y ∈ foldl (λ acc x, Py.insert_desc String.ltb key x acc) acc l
                     ↔ y ∈ acc ∨ y ∈ l).
  { induction l as [|x l IH]; intros acc; simpl; [set_solver|].
    rewrite IH, elem_of_insert_desc, elem_of_cons. naive_solver. }
  rewrite H. set_solver.
Qed.

(** The head of a list dominates every element. *)
Definition head_greatest (l : list A) : Prop :=
  match l with
  | [] => True
  | x :: _ => ∀ y, y ∈ l → String.le (key y) (key x)
  end.

Lemma insert_desc_head_greatest (x : A) (l : list A) :
  head_greatest l → head_greatest (Py.insert_desc String.ltb key x l).
Proof.
  destruct l as [|z l]; simpl.
  - intros _ y ->%list_elem_of_singleton. done.
  - intros Hz. destruct (String.ltb (key z) (key x)) eqn:Hlt.
    + intros y [->|Hy]%elem_of_cons; [done|].
      transitivity (key z); [by apply Hz | by apply ltb_true_le].
    + intros y [->|Hy]%elem_of_cons; [done|].
      apply elem_of_insert_desc in Hy as [->|Hy].
      * by apply ltb_false_le.
      * apply Hz. by right.
Qed.

Lemma sorted_desc_head_greatest (l : list A) :
  head_greatest (Py.sorted_desc String.ltb key l).
Proof.
  unfold Py.sorted_desc.
  assert (H : ∀ acc, head_greatest acc →
                     head_greatest (foldl (λ acc x, Py.insert_desc String.ltb key x acc) acc l)).
  { induction l as [|x l IH]; intros acc Hacc; simpl; [done|].
    by apply IH, insert_desc_head_greatest. }
  by apply H.
Qed.

End RateLookup.

(** *** ISO date texts are ordered as the dates they write *)

Section IsoOrder.
Import Calendar.
Local Open Scope Z_scope.

Lemma digit_char_compare (x y : Z) :
  Ascii.compare (digit_char x) (digit_char y) = (x mod 10 ?= y mod 10).
Proof.
  unfold Ascii.compare, digit_char, ascii_of_nat.
  pose proof (Z.mod_pos_bound x 10 eq_refl) as Hx.
  pose proof (Z.mod_pos_bound y 10 eq_refl) as Hy.
  rewrite !N_ascii_embedding by lia.
  rewrite <- N2Z.inj_compare, !nat_N_Z, !Nat2Z.inj_add, !Z2Nat.id by lia.
  apply Z.add_compare_mono_l.
Qed.

(** Comparison by quotient and last digit is comparison. *)
Lemma compare_by_digits (x y : Z) (c : comparison) :
  match x / 10 ?= y / 10 with
  | Eq => match x mod 10 ?= y mod 10 with Eq => c | o => o end
  | o => o
  end
  = match x ?= y with Eq => c | o => o end.
Proof.
  pose proof (Z.div_mod x 10 ltac:(lia)) as Hx.
  pose proof (Z.div_mod y 10 ltac:(lia)) as Hy.
  pose proof (Z.mod_pos_bound x 10 eq_refl).
  pose proof (Z.mod_pos_bound y 10 eq_refl).
  destruct (Z.compare_spec (x / 10) (y / 10)) as [Hq|Hq|Hq];
    destruct (Z.compare_spec (x mod 10) (y mod 10)) as [Hr|Hr|Hr];
    destruct (Z.compare_spec x y) as [Hc|Hc|Hc]; try reflexivity; exfalso; lia.
Qed.

Lemma compare_cons (a b : ascii) (s t : string) :
  String.compare (String a s) (String b t)
  = match Ascii.compare a b with Eq => String.compare s t | o => o end.
Proof. simpl. by destruct (Ascii.compare a b). Qed.

Lemma pad_digits_compare (w : nat) (x y : Z) (s t : string) :
  0 <= x < 10 ^ Z.of_nat w → 0 <= y < 10 ^ Z.of_nat w →
  String.compare (pad_digits w x s) (pad_digits w y t)
  = match x ?= y with Eq => String.compare s t | o => o end.
Proof.
  revert x y s t. induction w as [|w IH]; intros x y s t Hx Hy.
  - simpl in *. by replace x with 0 by lia; replace y with 0 by lia.
  - rewrite Nat2Z.inj_succ, Z.pow_succ_r in Hx, Hy by lia.
    change (pad_digits (S w) x s)
      with (pad_digits w (x / 10) (String (digit_char x) s)).
    change (pad_digits (S w) y t)
      with (pad_digits w (y / 10) (String (digit_char y) t)).
    rewrite IH.
    + rewrite compare_cons, digit_char_compare. apply compare_by_digits.
    + split; [apply Z.div_pos; lia | apply Z.div_lt_upper_bound; lia].
    + split; [apply Z.div_pos; lia | apply Z.div_lt_upper_bound; lia].
Qed.

Lemma days_in_month_bound (y m : Z) : 28 <= days_in_month y m <= 31.
Proof.
  unfold days_in_month.
  destruct (m =? 2); [destruct (is_leap y); lia|].
  destruct ((m =? 4) || (m =? 6) || (m =? 9) || (m =? 11)); lia.
Qed.

Lemma date_leb_spec (a b : date) :
  date_leb a b = true
  ↔ year a < year b
    ∨ (year a = year b
       ∧ (month a < month b ∨ (month a = month b ∧ day a <= day b))).
Proof.
  unfold date_leb.
  rewrite !orb_true_iff, !andb_true_iff, !orb_true_iff, !andb_true_iff.
  by rewrite !Z.ltb_lt, !Z.eqb_eq, Z.leb_le.
Qed.

(** On the dates [datetime.date] can hold, the text order of
    [isoformat] is the order of the dates. *)
Lemma isoformat_le (a b : date) :
  valid_date a = true → valid_date b = true →
  (String.le (isoformat a) (isoformat b) ↔ date_leb a b = true).
Proof.
  unfold valid_date. rewrite !andb_true_iff, !Z.leb_le.
  intros (((((Ha1 & Ha2) & Ha3) & Ha4) & Ha5) & Ha6)
         (((((Hb1 & Hb2) & Hb3) & Hb4) & Hb5) & Hb6).
  pose proof (days_in_month_bound (year a) (month a)).
  pose proof (days_in_month_bound (year b) (month b)).
  assert (Hdash : ∀ x y, String.compare ("-" +:+ x) ("-" +:+ y) = String.compare x y)
    by reflexivity.
  assert (H4 : 10 ^ Z.of_nat 4 = 10000) by reflexivity.
  assert (H2 : 10 ^ Z.of_nat 2 = 100) by reflexivity.
  unfold String.le, String.leb, isoformat.
  rewrite pad_digits_compare by (rewrite H4; lia).
  rewrite Hdash, pad_digits_compare by (rewrite H2; lia).
  rewrite Hdash, pad_digits_compare by (rewrite H2; lia).
  change (String.compare EmptyString EmptyString) with Eq.
  rewrite date_leb_spec.
  destruct (Z.compare_spec (year a) (year b)) as [Hy|Hy|Hy];
    destruct (Z.compare_spec (month a) (month b)) as [Hm|Hm|Hm];
    destruct (Z.compare_spec (day a) (day b)) as [Hd|Hd|Hd];
    simpl; (split; [intros Hs | intros Hle]); try done; lia.
Qed.

Example iso_order_example :
  String.le (isoformat {| year := 2025; month := 2; day := 15 |})
            (isoformat {| year := 2025; month := 3; day := 1 |}).
Proof. by apply isoformat_le. Qed.

End IsoOrder.

Section RateForDate.
Import Supabase.
Local Open Scope Q_scope.

(** The grouped lookup holds, per name, the rates of that name in their
    original order. *)
Lemma build_rate_lookup_spec (rates : list fuel_rate) (name : string) :
  default [] (build_rate_lookup rates !! name)
  = filter (λ r, rate_name r = name) rates.
Proof.
  unfold build_rate_lookup.
  assert (H : ∀ m : gmap string (list fuel_rate),
    default [] (foldl (λ lookup rate,
        <[rate_name rate := (default [] (lookup !! rate_name rate) ++ [rate])%list]> lookup)
      m rates !! name)
    = (default [] (m !! name) ++ filter (λ r, rate_name r = name) rates)%list).
  { induction rates as [|r rates IH]; intros m; simpl.
    - by rewrite app_nil_r.
    - rewrite IH. rewrite filter_cons. destruct (decide (rate_name r = name)) as [<-|Hne].
      + rewrite lookup_insert_eq. simpl. by rewrite <- app_assoc.
      + by rewrite lookup_insert_ne. }
  rewrite H, lookup_empty. done.
Qed.

(** A rate is applicable to a report date when it carries the requested
    name and starts on or before that date. *)
Definition applicable (rates : list fuel_rate) (name date : string)
    (r : fuel_rate) : Prop :=
  r ∈ rates ∧ rate_name r = name ∧ String.le (start_date r) date.

Lemma candidates_applicable rates name date r :
  r ∈ filter (λ r, String.le (start_date r) date)
             (default [] (build_rate_lookup rates !! name))
  ↔ applicable rates name date r.
Proof.
  rewrite build_rate_lookup_spec, !list_elem_of_filter.
  unfold applicable. naive_solver.
Qed.

(** The two rates of the specification's example. *)
Definition example_rates : list fuel_rate :=
  [ {| rate_name := "rate_r22_12"; start_date := "2025-01-01"; value := 20 |};
    {| rate_name := "rate_r22_12"; start_date := "2025-03-01"; value := 22 |} ].

(** C2: the rate lookup returns the value of an applicable rate (same
    name, start date <= report date) whose start date is the most recent
    among the applicable ones; it returns 0 when no rate is applicable;
    and for the rates 2025-01-01 -> 20, 2025-03-01 -> 22 the query date
    2025-02-15 yields 20.  Dates are ISO texts, ordered as the code
    orders them. *)
Theorem get_rate_for_date_most_recent (rates : list fuel_rate) (name date : string) :
  ((∀ r, ¬ applicable rates name date r) →
     get_rate_for_date (build_rate_lookup rates) name date = Ok 0)
  ∧ ((∃ r, applicable rates name date r) →
     ∃ r, applicable rates name date r
          ∧ (∀ r', applicable rates name date r' →
                   String.le (start_date r') (start_date r))
          ∧ get_rate_for_date (build_rate_lookup rates) name date = Ok (value r))
  ∧ get_rate_for_date (build_rate_lookup example_rates) "rate_r22_12" "2025-02-15"
    = Ok 20.
Proof.
  split; [|split; [|reflexivity]].
  - intros Hnone. unfold get_rate_for_date.
    destruct (filter _ _) as [|r l] eqn:Hc; [done|].
    exfalso. apply (Hnone r), candidates_applicable. rewrite Hc. by left.
  - intros [r0 Hr0]. apply candidates_applicable in Hr0.
    unfold get_rate_for_date.
    set (candidates := filter _ _) in *.
    pose proof (sorted_desc_head_greatest start_date candidates) as Hmax.
    pose proof (elem_of_sorted_desc start_date) as Hperm.
    destruct candidates as [|c cs] eqn:Hc; [by apply elem_of_nil in Hr0|].
    rewrite <- Hc in *.
    destruct (Py.sorted_desc String.ltb start_date candidates) as [|r l] eqn:Hs.
    + exfalso. apply (Hperm r0 candidates) in Hr0. rewrite Hs in Hr0.
      by apply elem_of_nil in Hr0.
    + exists r. split; [|split; [|done]].
      * apply candidates_applicable. fold candidates.
        apply (Hperm r candidates). rewrite Hs. by left.
      * intros r' Hr'. apply Hmax.
        rewrite <- Hs. apply (Hperm r' candidates).
        by apply candidates_applicable.
Qed.

Lemma get_rate_for_date_most_recent_witness :
  ∃ r, applicable example_rates "rate_r22_12" "2025-04-01" r
       ∧ (∀ r', applicable example_rates "rate_r22_12" "2025-04-01" r' →
                String.le (start_date r') (start_date r))
       ∧ get_rate_for_date (build_rate_lookup example_rates)
           "rate_r22_12" "2025-04-01" = Ok (value r).
Proof.
  apply (get_rate_for_date_most_recent example_rates "rate_r22_12" "2025-04-01").
  exists {| rate_name := "rate_r22_12"; start_date := "2025-03-01"; value := 22 |}.
  split; [|split]; [|reflexivity|by vm_compute].
  apply elem_of_cons. right. apply elem_of_cons. by left.
Defined.

(** With ISO texts for dates, being applicable reads chronologically:
    the rate starts on or before the report date. *)
Lemma applicable_chronological rates name (d sd : Calendar.date) (r : fuel_rate) :
  Calendar.valid_date d = true → Calendar.valid_date sd = true →
  start_date r = Calendar.isoformat sd →
  applicable rates name (Calendar.isoformat d) r
  ↔ r ∈ rates ∧ rate_name r = name ∧ Calendar.date_leb sd d = true.
Proof.
  intros Hd Hsd Hr. unfold applicable. by rewrite Hr, isoformat_le.
Qed.

Example rate_lookup_miss :
  get_rate_for_date (build_rate_lookup example_rates) "rate_r22_12" "2024-12-31"
  = Ok 0.
Proof. reflexivity. Qed.

Example rate_lookup_latest :
  get_rate_for_date (build_rate_lookup example_rates) "rate_r22_12" "2025-03-01"
  = Ok 22.
Proof. reflexivity. Qed.

Example rate_lookup_other_name :
  get_rate_for_date (build_rate_lookup example_rates) "rate_r23_36" "2025-03-01"
  = Ok 0.
Proof. reflexivity. Qed.

End RateForDate.





(** ** Sales aggregation *)

(** [sum] of a list of numbers. *)
Definition sumQ (l : list Q) : Q := foldr Qplus 0%Q l.

Lemma sumQ_cons (x : Q) (l : list Q) : sumQ (x :: l) = (x + sumQ l)%Q.
Proof. reflexivity. Qed.

Section AdminDashboard.
Import Views.
Local Open Scope Q_scope.

(** The amount a row contributes: [float(item.get("total_price") or 0)]. *)
Definition amount (item : slip_item) : Q := or_zero (total_price item).

Lemma foldl_step_seen (rows : list slip_item) (t : totals) :
  seen_slips (foldl step t rows) = list_to_set (slip_key <$> rows) ∪ seen_slips t.
Proof.
  revert t. induction rows as [|item rows IH]; intros t; simpl.
  - set_solver.
  - rewrite IH. simpl. destruct (decide (slip_key item ∈ seen_slips t)); set_solver.
Qed.

Lemma foldl_step_transactions (rows : list slip_item) (t : totals) :
  total_transactions t = size (seen_slips t) →
  total_transactions (foldl step t rows) = size (seen_slips (foldl step t rows)).
Proof.
  revert t. induction rows as [|item rows IH]; intros t Ht; simpl; [done|].
  apply IH. simpl. destruct (decide (slip_key item ∈ seen_slips t)) as [Hin|Hnew]; [done|].
  rewrite size_union by set_solver. rewrite size_singleton. simpl. by rewrite Ht.
Qed.

(** The loop keeps the set of the slip keys met so far. *)
Lemma aggregate_seen_slips (rows : list slip_item) :
  seen_slips (aggregate rows) = list_to_set (slip_key <$> rows).
Proof.
  unfold aggregate. rewrite foldl_step_seen. simpl. set_solver.
Qed.

(** The transaction count of the dashboard loop is the number of
    distinct slip keys, however many rows carry each key. *)
Lemma aggregate_transactions (rows : list slip_item) :
  total_transactions (aggregate rows)
  = size (list_to_set (slip_key <$> rows) : gset (option Z)).
Proof.
  rewrite <- aggregate_seen_slips. unfold aggregate.
  apply foldl_step_transactions. reflexivity.
Qed.

Lemma aggregate_transactions_remove_dups (rows : list slip_item) :
  total_transactions (aggregate rows) = length (remove_dups (slip_key <$> rows)).
Proof.
  rewrite aggregate_transactions.
  rewrite <- (size_list_to_set (C := gset (option Z)) (remove_dups (slip_key <$> rows)))
    by apply NoDup_remove_dups.
  f_equal. apply set_eq. intros k.
  by rewrite !elem_of_list_to_set, elem_of_remove_dups.
Qed.

Lemma foldl_step_sums (rows : list slip_item) (t : totals) :
  total_revenue (foldl step t rows) == total_revenue t + sumQ (amount <$> rows)
  ∧ fuel_total (foldl step t rows)
    == fuel_total t + sumQ (amount <$> filter (λ i, is_fuel i = true) rows)
  ∧ nonfuel_total (foldl step t rows)
    == nonfuel_total t + sumQ (amount <$> filter (λ i, is_fuel i = false) rows).
Proof.
  revert t. induction rows as [|item rows IH]; intros t.
  - simpl. repeat split; lra.
  - change (foldl step t (item :: rows)) with (foldl step (step t item) rows).
    destruct (IH (step t item)) as (Hr & Hf & Hn). rewrite Hr, Hf, Hn. clear.
    change (total_revenue (step t item)) with (total_revenue t + amount item).
    change (fuel_total (step t item))
      with (if is_fuel item then fuel_total t + amount item else fuel_total t).
    change (nonfuel_total (step t item))
      with (if is_fuel item then nonfuel_total t else nonfuel_total t + amount item).
    rewrite fmap_cons, sumQ_cons.
    destruct (is_fuel item) eqn:Hfuel.
    + rewrite (filter_cons_True (λ i, is_fuel i = true)) by done.
      rewrite (filter_cons_False (λ i, is_fuel i = false)) by congruence.
      rewrite fmap_cons, sumQ_cons. repeat split; lra.
    + rewrite (filter_cons_False (λ i, is_fuel i = true)) by congruence.
      rewrite (filter_cons_True (λ i, is_fuel i = false)) by done.
      rewrite fmap_cons, sumQ_cons. repeat split; lra.
Qed.

Lemma foldl_step_returns (rows : list slip_item) (t : totals) :
  total_returns (foldl step t rows) = total_returns t.
Proof.
  revert t. induction rows as [|item rows IH]; intros t; simpl; [done|].
  by rewrite IH.
Qed.

End AdminDashboard.

(** ** The same rows in another order *)

Section DictFacts.
Context {K V : Type} `{EqDecision K}.

Lemma dict_get_update (k k' : K) (f : option V → V) (d : Dict.t K V) :
  Dict.get (Dict.update k f d) k'
  = if decide (k = k') then Some (f (Dict.get d k)) else Dict.get d k'.
Proof.
  induction d as [|[k0 v] d IH]; simpl.
  - destruct (decide (k = k')) as [->|]; [done|]. done.
  - destruct (decide (k0 = k)) as [->|Hk0]; simpl.
    + destruct (decide (k = k')) as [->|]; [done|]. done.
    + destruct (decide (k0 = k')) as [->|].
      * by destruct (decide (k = k')).
      * apply IH.
Qed.

Lemma dict_keys_update (k : K) (f : option V → V) (d : Dict.t K V) :
  Dict.keys (Dict.update k f d)
  = if decide (k ∈ Dict.keys d) then Dict.keys d else (Dict.keys d ++ [k])%list.
Proof.
  unfold Dict.keys. induction d as [|[k0 v] d IH].
  - rewrite decide_False by apply not_elem_of_nil. done.
  - change (Dict.update k f ((k0, v) :: d))
      with (if decide (k0 = k) then (k0, f (Some v)) :: d
            else (k0, v) :: Dict.update k f d).
    rewrite (fmap_cons fst _ d). change ((k0, v).1) with k0.
    destruct (decide (k0 = k)) as [->|Hk0].
    + rewrite decide_True by (by left). by rewrite fmap_cons.
    + rewrite fmap_cons, IH. change ((k0, v).1) with k0.
      destruct (decide (k ∈ d.*1)) as [Hin|Hn].
      * rewrite decide_True by (by right). done.
      * rewrite decide_False; [done|]. intros [?|?]%elem_of_cons; [congruence|done].
Qed.

Lemma dict_keys_update_NoDup (k : K) (f : option V → V) (d : Dict.t K V) :
  NoDup (Dict.keys d) → NoDup (Dict.keys (Dict.update k f d)).
Proof.
  intros Hd. rewrite dict_keys_update. destruct (decide (k ∈ Dict.keys d)); [done|].
  apply NoDup_app. split; [done|]. split; [|apply NoDup_singleton].
  intros x Hx ->%list_elem_of_singleton. done.
Qed.

Lemma dict_get_Some (d : Dict.t K V) (k : K) (v : V) :
  NoDup (Dict.keys d) → (Dict.get d k = Some v ↔ (k, v) ∈ d).
Proof.
  unfold Dict.keys. induction d as [|[k0 v0] d IH]; simpl; intros Hd.
  - split; [done | by intros ?%elem_of_nil].
  - apply NoDup_cons in Hd as [Hk0 Hd]. destruct (decide (k0 = k)) as [->|Hne].
    + split; [intros [= ->]; by left|].
      intros [[= ->]|Hin]%elem_of_cons; [done|].
      exfalso. apply Hk0. apply list_elem_of_fmap. by exists (k, v).
    + rewrite IH by done. split; [by right|].
      intros [[= ? ?]|Hin]%elem_of_cons; [congruence | done].
Qed.

(** A dictionary read by key does not depend on the order of its
    entries. *)
Lemma dict_get_Permutation (d d' : Dict.t K V) (k : K) :
  NoDup (Dict.keys d) → d ≡ₚ d' → Dict.get d k = Dict.get d' k.
Proof.
  intros Hd Hp.
  assert (Hd' : NoDup (Dict.keys d')).
  { unfold Dict.keys in *. by rewrite <- Hp. }
  destruct (Dict.get d k) as [v|] eqn:Hg.
  - symmetry. apply dict_get_Some; [done|]. rewrite <- Hp. by apply dict_get_Some.
  - destruct (Dict.get d' k) as [v'|] eqn:Hg'; [|done].
    apply dict_get_Some in Hg'; [|done]. rewrite <- Hp in Hg'.
    apply dict_get_Some in Hg'; [|done]. congruence.
Qed.

End DictFacts.

Section Sorting.
Context {A K : Type} (lt : K → K → bool) (key : A → K).

Lemma insert_desc_Permutation (x : A) (l : list A) :
  Py.insert_desc lt key x l ≡ₚ x :: l.
Proof.
  induction l as [|y l IH]; simpl; [done|].
  destruct (lt (key y) (key x)); [done|]. rewrite IH. apply Permutation_swap.
Qed.

(** Sorting rearranges: [sorted] gives the elements it was given. *)
Lemma sorted_desc_Permutation (l : list A) : Py.sorted_desc lt key l ≡ₚ l.
Proof.
  unfold Py.sorted_desc.
  assert (H : ∀ acc, foldl (λ acc x, Py.insert_desc lt key x acc) acc l ≡ₚ (acc ++ l)%list).
  { induction l as [|x l IH]; intros acc; simpl; [by rewrite app_nil_r|].
    rewrite IH, insert_desc_Permutation. simpl. apply Permutation_middle. }
  by rewrite H.
Qed.

End Sorting.

Section RowOrder.
Import Views.
Local Open Scope Q_scope.
Local Arguments Calendar.fromisoformat : simpl never.
Local Arguments Calendar.isoformat : simpl never.
Local Arguments Calendar.add_days : simpl never.
Local Arguments Calendar.weekday : simpl never.
Local Arguments Py.contains : simpl never.
Local Arguments Py.upper : simpl never.
Local Arguments Py.take : simpl never.

Lemma sumQ_Permutation (l l' : list Q) : l ≡ₚ l' → sumQ l == sumQ l'.
Proof.
  induction 1 as [|x l l' _ IH|x y l|l l' l'' _ IH1 _ IH2].
  - reflexivity.
  - rewrite !sumQ_cons, IH. reflexivity.
  - rewrite !sumQ_cons. lra.
  - by rewrite IH1.
Qed.

Lemma sumQ_fmap_Permutation {A} (f : A → Q) (l l' : list A) :
  l ≡ₚ l' → sumQ (f <$> l) == sumQ (f <$> l').
Proof. intros Hp. apply sumQ_Permutation. by rewrite Hp. Qed.

(** *** What each accumulator holds, as a sum over the rows *)

Definition vat_amount (item : slip_item) : Q := or_zero (vat item).

Definition diesel_amount (item : slip_item) : Q :=
  if Py.contains "DIESEL" (upper_name item) then amount item else 0.

Definition unleaded_amount (item : slip_item) : Q :=
  if Py.contains "UNLEADED" (upper_name item) then amount item else 0.

(** The amount a row adds under the date [k]. *)
Definition dated_amount (k : string) (item : slip_item) : Q :=
  match trandate item with
  | Some (String c r) => if decide (String c r = k) then amount item else 0
  | _ => 0
  end.

(** The amount a row adds to the dates that satisfy [p]. *)
Definition period_amount (p : string → bool) (item : slip_item) : Q :=
  match trandate item with
  | Some (String c r) => if p (String c r) then amount item else 0
  | _ => 0
  end.

(** The name a row is booked under in [staff_sales]. *)
Definition booked_to (item : slip_item) : string := or_str (attendant item) "Unknown".

Lemma foldl_step_more (rows : list slip_item) (t : totals) :
  total_vat (foldl step t rows) == total_vat t + sumQ (vat_amount <$> rows)
  ∧ diesel_total (foldl step t rows) == diesel_total t + sumQ (diesel_amount <$> rows)
  ∧ unleaded_total (foldl step t rows)
    == unleaded_total t + sumQ (unleaded_amount <$> rows).
Proof.
  revert t. induction rows as [|item rows IH]; intros t.
  - simpl. repeat split; lra.
  - change (foldl step t (item :: rows)) with (foldl step (step t item) rows).
    destruct (IH (step t item)) as (Hv & Hd & Hu). rewrite Hv, Hd, Hu. clear.
    rewrite !fmap_cons, !sumQ_cons. unfold diesel_amount, unleaded_amount, vat_amount.
    change (total_vat (step t item)) with (total_vat t + or_zero (vat item)).
    change (diesel_total (step t item))
      with (if Py.contains "DIESEL" (upper_name item)
            then diesel_total t + amount item else diesel_total t).
    change (unleaded_total (step t item))
      with (if Py.contains "UNLEADED" (upper_name item)
            then unleaded_total t + amount item else unleaded_total t).
    destruct (Py.contains "DIESEL" _), (Py.contains "UNLEADED" _); repeat split; lra.
Qed.

(** The sum of the entries of a dictionary whose key satisfies [p]. *)
Definition dict_sum (p : string → bool) (d : Dict.t string Q) : Q :=
  sumQ ((λ kv, if p kv.1 then kv.2 else 0) <$> d).

Lemma dict_sum_add_to (p : string → bool) (k : string) (a : Q) (d : Dict.t string Q) :
  dict_sum p (add_to k a d) == dict_sum p d + (if p k then a else 0).
Proof.
  unfold dict_sum, add_to. induction d as [|[k0 v] d IH].
  - change (Dict.update k (λ old, default 0 old + a) []) with [(k, 0 + a)].
    rewrite fmap_cons, sumQ_cons. change (sumQ (_ <$> [])) with 0.
    cbn [fst snd]. destruct (p k); lra.
  - change (Dict.update k (λ old, default 0 old + a) ((k0, v) :: d))
      with (if decide (k0 = k) then (k0, v + a) :: d
            else (k0, v) :: Dict.update k (λ old, default 0 old + a) d).
    destruct (decide (k0 = k)) as [->|Hne].
    + rewrite !fmap_cons, !sumQ_cons. cbn [fst snd]. destruct (p k); lra.
    + rewrite !fmap_cons, !sumQ_cons, IH. cbn [fst snd]. destruct (p k0), (p k); lra.
Qed.

Lemma default_get_add_to (k k' : string) (a : Q) (d : Dict.t string Q) :
  default 0 (Dict.get (add_to k a d) k')
  == default 0 (Dict.get d k') + (if decide (k = k') then a else 0).
Proof.
  unfold add_to. rewrite dict_get_update.
  destruct (decide (k = k')) as [->|]; simpl; lra.
Qed.

Lemma daily_sales_step (t : totals) (item : slip_item) :
  daily_sales (step t item)
  = match trandate item with
    | Some (String c r) => add_to (String c r) (amount item) (daily_sales t)
    | _ => daily_sales t
    end.
Proof. reflexivity. Qed.

Lemma foldl_step_daily (p : string → bool) (k : string) (rows : list slip_item)
    (t : totals) :
  dict_sum p (daily_sales (foldl step t rows))
  == dict_sum p (daily_sales t) + sumQ (period_amount p <$> rows)
  ∧ default 0 (Dict.get (daily_sales (foldl step t rows)) k)
    == default 0 (Dict.get (daily_sales t) k) + sumQ (dated_amount k <$> rows).
Proof.
  revert t. induction rows as [|item rows IH]; intros t.
  - simpl. split; lra.
  - change (foldl step t (item :: rows)) with (foldl step (step t item) rows).
    destruct (IH (step t item)) as (Hs & Hg). rewrite Hs, Hg. clear.
    rewrite !fmap_cons, !sumQ_cons, daily_sales_step.
    unfold period_amount, dated_amount.
    destruct (trandate item) as [[|c r]|]; [split; lra| |split; lra].
    rewrite dict_sum_add_to, default_get_add_to. split; lra.
Qed.

(** The dates the loop has an entry for are the dates of the rows. *)
Lemma foldl_step_dates (k : string) (rows : list slip_item) (t : totals) :
  k ∈ Dict.keys (daily_sales (foldl step t rows))
  ↔ k ∈ Dict.keys (daily_sales t)
    ∨ ∃ item c r, item ∈ rows ∧ trandate item = Some (String c r) ∧ k = String c r.
Proof.
  revert t. induction rows as [|item rows IH]; intros t.
  - simpl. split; [by left|]. intros [?|(? & ? & ? & Hin%elem_of_nil & _)]; done.
  - change (foldl step t (item :: rows)) with (foldl step (step t item) rows).
    rewrite IH, daily_sales_step.
    assert (Hrest : (∃ item0 c r, item0 ∈ item :: rows
                                  ∧ trandate item0 = Some (String c r) ∧ k = String c r)
                    ↔ (∃ c r, trandate item = Some (String c r) ∧ k = String c r)
                      ∨ (∃ item0 c r, item0 ∈ rows
                                      ∧ trandate item0 = Some (String c r)
                                      ∧ k = String c r)).
    { split.
      - intros (i & c & r & [->|Hin]%elem_of_cons & Hd & Hk); [left|right]; eauto 10.
      - intros [(c & r & Hd & Hk)|(i & c & r & Hin & Hd & Hk)].
        + exists item, c, r. split; [by left|done].
        + exists i, c, r. split; [by right|done]. }
    rewrite Hrest. clear IH Hrest.
    destruct (trandate item) as [[|c r]|] eqn:Hd.
    + split; [intros [?|?]; tauto|]. intros [?|[(c & r & [=] & _)|?]]; tauto.
    + unfold add_to. rewrite dict_keys_update.
      destruct (decide (String c r ∈ Dict.keys (daily_sales t))) as [Hin|Hn].
      * split; [intros [?|?]; tauto|].
        intros [?|[(c' & r' & [= -> ->] & ->)|?]]; tauto.
      * rewrite elem_of_app, list_elem_of_singleton.
        split.
        -- intros [[?| ->]|?]; [tauto| |tauto]. right. left. eauto.
        -- intros [?|[(c' & r' & [= -> ->] & ->)|?]]; tauto.
    + split; [intros [?|?]; tauto|]. intros [?|[(c & r & [=] & _)|?]]; tauto.
Qed.

(** The test of a period on the text of a date. *)
Definition in_period (lo hi : Calendar.date) (k : string) : bool :=
  match Calendar.fromisoformat k with
  | Some dt => Calendar.date_between lo dt hi
  | None => false
  end.

(** The period sum goes through when every date of the dictionary
    parses, and is then the sum of the entries within the period;
    otherwise it raises [ValueError]. *)
Lemma sum_between_spec (lo hi : Calendar.date) (acc : Q) (d : Dict.t string Q) :
  match sum_between lo hi acc d with
  | Ok v =>
      (∀ k, k ∈ Dict.keys d → is_Some (Calendar.fromisoformat k))
      ∧ v == acc + dict_sum (in_period lo hi) d
  | Raise e =>
      e = ValueError ∧ ∃ k, k ∈ Dict.keys d ∧ Calendar.fromisoformat k = None
  end.
Proof.
  unfold Dict.keys, dict_sum. revert acc. induction d as [|[k a] d IH]; intros acc.
  - simpl. split; [by intros k ?%elem_of_nil | lra].
  - change (sum_between lo hi acc ((k, a) :: d))
      with (match Calendar.fromisoformat k with
            | None => Raise ValueError
            | Some dt =>
                sum_between lo hi
                  (if Calendar.date_between lo dt hi then acc + a else acc) d
            end).
    rewrite !fmap_cons, sumQ_cons. cbn [fst snd].
    destruct (Calendar.fromisoformat k) as [dt|] eqn:Hk.
    + specialize (IH (if Calendar.date_between lo dt hi then acc + a else acc)).
      destruct (sum_between lo hi _ d) as [v|e].
      * destruct IH as [Hall Hv]. split.
        -- intros k' [->|Hin]%elem_of_cons; [by rewrite Hk | by apply Hall].
        -- assert (Hp : in_period lo hi k = Calendar.date_between lo dt hi)
             by (unfold in_period; by rewrite Hk).
           rewrite Hv, Hp. destruct (Calendar.date_between lo dt hi); lra.
      * destruct IH as [-> (k' & Hin & Hn)]. split; [done|].
        exists k'. split; [by right | done].
    + split; [done|]. exists k. split; [by left | done].
Qed.

(** *** Staff entries *)

Definition staff_step (who : string) (item : slip_item) (e : option staff) : option staff :=
  if decide (booked_to item = who)
  then Some {| sales := sales (default {| sales := 0; transactions := 0 |} e) + amount item;
               transactions :=
                 S (transactions (default {| sales := 0; transactions := 0 |} e)) |}
  else e.

(** Two staff entries with equal figures. *)
Definition same_staff (a b : option staff) : Prop :=
  match a, b with
  | Some x, Some y => sales x == sales y ∧ transactions x = transactions y
  | None, None => True
  | _, _ => False
  end.

(** The entry of [who] after the loop: none when no row is booked to
    that name, otherwise the sum and the number of the rows booked to
    it. *)
Definition staff_entry (who : string) (rows : list slip_item) : option staff :=
  match filter (λ i, booked_to i = who) rows with
  | [] => None
  | booked => Some {| sales := sumQ (amount <$> booked); transactions := length booked |}
  end.

Lemma staff_sales_step (t : totals) (item : slip_item) :
  staff_sales (step t item) = add_staff (booked_to item) (amount item) (staff_sales t).
Proof. reflexivity. Qed.

Lemma foldl_step_staff (who : string) (rows : list slip_item) (t : totals) :
  match Dict.get (staff_sales (foldl step t rows)) who with
  | Some e =>
      let booked := filter (λ i, booked_to i = who) rows in
      let e0 := default {| sales := 0; transactions := 0 |}
                        (Dict.get (staff_sales t) who) in
      (is_Some (Dict.get (staff_sales t) who) ∨ booked ≠ [])
      ∧ sales e == sales e0 + sumQ (amount <$> booked)
      ∧ transactions e = (transactions e0 + length booked)%nat
  | None =>
      Dict.get (staff_sales t) who = None ∧ filter (λ i, booked_to i = who) rows = []
  end.
Proof.
  revert t. induction rows as [|item rows IH]; intros t.
  - simpl. destruct (Dict.get (staff_sales t) who) as [e|] eqn:He; simpl.
    + split; [left; by eexists|]. split; [lra|lia].
    + done.
  - change (foldl step t (item :: rows)) with (foldl step (step t item) rows).
    specialize (IH (step t item)). rewrite staff_sales_step in IH.
    unfold add_staff in IH. rewrite dict_get_update in IH.
    destruct (decide (booked_to item = who)) as [Hb|Hb].
    + rewrite (filter_cons_True (λ i, booked_to i = who)) by done.
      destruct (Dict.get (staff_sales (foldl step (step t item) rows)) who) as [e|].
      * cbv zeta in IH. simpl in IH. destruct IH as (_ & Hs & Ht).
        cbv zeta. split; [by right|]. rewrite fmap_cons, sumQ_cons. simpl.
        rewrite Hs, Ht, Hb. split; [lra|lia].
      * by destruct IH.
    + rewrite (filter_cons_False (λ i, booked_to i = who)) by done. apply IH.
Qed.

Lemma aggregate_staff (who : string) (rows : list slip_item) :
  same_staff (Dict.get (staff_sales (aggregate rows)) who) (staff_entry who rows).
Proof.
  unfold aggregate, staff_entry. pose proof (foldl_step_staff who rows totals_init) as H.
  destruct (Dict.get (staff_sales (foldl step totals_init rows)) who) as [e|].
  - cbv zeta in H. simpl in H. destruct H as ([[? [=]]|Hne] & Hs & Ht).
    destruct (filter _ rows) as [|i booked] eqn:Hf; [done|]. simpl.
    split; [rewrite Hs; simpl; lra | rewrite Ht; simpl; lia].
  - destruct H as [_ ->]. done.
Qed.

Lemma staff_entry_Permutation (who : string) (rows rows' : list slip_item) :
  rows ≡ₚ rows' → same_staff (staff_entry who rows) (staff_entry who rows').
Proof.
  intros Hp. unfold staff_entry.
  assert (Hf : filter (λ i, booked_to i = who) rows
               ≡ₚ filter (λ i, booked_to i = who) rows') by by rewrite Hp.
  destruct (filter _ rows) as [|i booked], (filter _ rows') as [|i' booked'].
  - done.
  - by apply Permutation_nil_cons in Hf.
  - symmetry in Hf. by apply Permutation_nil_cons in Hf.
  - cbn [same_staff sales transactions]. split.
    + by apply sumQ_fmap_Permutation.
    + by apply Permutation_length.
Qed.

Lemma same_staff_trans (a b c : option staff) :
  same_staff a b → same_staff b c → same_staff a c.
Proof.
  destruct a, b, c; simpl; try done. intros [H1 H2] [H3 H4]. split; [lra | congruence].
Qed.

Lemma same_staff_sym (a b : option staff) : same_staff a b → same_staff b a.
Proof. destruct a, b; simpl; try done. intros [H1 H2]. split; [lra | done]. Qed.

Lemma staff_sales_NoDup (rows : list slip_item) (t : totals) :
  NoDup (Dict.keys (staff_sales t)) →
  NoDup (Dict.keys (staff_sales (foldl step t rows))).
Proof.
  revert t. induction rows as [|item rows IH]; intros t Ht; [done|].
  change (foldl step t (item :: rows)) with (foldl step (step t item) rows).
  apply IH. rewrite staff_sales_step. by apply dict_keys_update_NoDup.
Qed.

(** *** The dashboard of the same rows in another order *)

(** Two dashboards with the same totals: the same transaction count and
    windows, equal money totals, period sales, average and shares, and
    for every name equal staff figures. *)
Definition same_totals (d d' : dashboard) : Prop :=
  ctx_total_transactions d = ctx_total_transactions d'
  ∧ ctx_total_revenue d == ctx_total_revenue d'
  ∧ ctx_nett_revenue d == ctx_nett_revenue d'
  ∧ ctx_total_vat d == ctx_total_vat d'
  ∧ ctx_total_returns d == ctx_total_returns d'
  ∧ ctx_fuel_total d == ctx_fuel_total d'
  ∧ ctx_nonfuel_total d == ctx_nonfuel_total d'
  ∧ ctx_diesel_total d == ctx_diesel_total d'
  ∧ ctx_unleaded_total d == ctx_unleaded_total d'
  ∧ ctx_today_sale d == ctx_today_sale d'
  ∧ ctx_week_sale d == ctx_week_sale d'
  ∧ ctx_month_sale d == ctx_month_sale d'
  ∧ ctx_avg_transaction_value d == ctx_avg_transaction_value d'
  ∧ ctx_fuel_percentage d == ctx_fuel_percentage d'
  ∧ ctx_nonfuel_percentage d == ctx_nonfuel_percentage d'
  ∧ (ctx_today d, ctx_week_start d, ctx_week_end d, ctx_month_start d, ctx_month_end d)
    = (ctx_today d', ctx_week_start d', ctx_week_end d', ctx_month_start d',
       ctx_month_end d')
  ∧ ∀ who, same_staff (Dict.get (ctx_staff_performance d) who)
                      (Dict.get (ctx_staff_performance d') who).

Lemma is_zero_proper (a b : Q) : a == b → is_zero a = is_zero b.
Proof.
  intros Hab. unfold is_zero.
  destruct (Qeq_bool a 0) eqn:Ha, (Qeq_bool b 0) eqn:Hb; try done.
  - apply Qeq_bool_iff in Ha. apply Qeq_bool_neq in Hb. exfalso. apply Hb. lra.
  - apply Qeq_bool_iff in Hb. apply Qeq_bool_neq in Ha. exfalso. apply Ha. lra.
Qed.

(** The accumulators of the loop do not depend on the order of the
    rows. *)
Lemma aggregate_Permutation (rows rows' : list slip_item) :
  rows ≡ₚ rows' →
  let t := aggregate rows in
  let t' := aggregate rows' in
  total_transactions t = total_transactions t'
  ∧ total_revenue t == total_revenue t'
  ∧ total_vat t == total_vat t'
  ∧ total_returns t = total_returns t'
  ∧ fuel_total t == fuel_total t'
  ∧ nonfuel_total t == nonfuel_total t'
  ∧ diesel_total t == diesel_total t'
  ∧ unleaded_total t == unleaded_total t'
  ∧ (∀ k, default 0 (Dict.get (daily_sales t) k)
          == default 0 (Dict.get (daily_sales t') k))
  ∧ (∀ p, dict_sum p (daily_sales t) == dict_sum p (daily_sales t'))
  ∧ (∀ k, k ∈ Dict.keys (daily_sales t) ↔ k ∈ Dict.keys (daily_sales t'))
  ∧ (∀ who, same_staff (Dict.get (staff_sales t) who) (Dict.get (staff_sales t') who)).
Proof.
  intros Hp t t'. unfold t, t', aggregate.
  destruct (foldl_step_sums rows totals_init) as (Hr & Hf & Hn).
  destruct (foldl_step_sums rows' totals_init) as (Hr' & Hf' & Hn').
  destruct (foldl_step_more rows totals_init) as (Hv & Hd & Hu).
  destruct (foldl_step_more rows' totals_init) as (Hv' & Hd' & Hu').
  split.
  { fold (aggregate rows). fold (aggregate rows'). rewrite !aggregate_transactions.
    f_equal. apply set_eq. intros k. rewrite !elem_of_list_to_set. by rewrite Hp. }
  split. { rewrite Hr, Hr'. by rewrite (sumQ_fmap_Permutation amount rows rows'). }
  split. { rewrite Hv, Hv'. by rewrite (sumQ_fmap_Permutation vat_amount rows rows'). }
  split. { by rewrite !foldl_step_returns. }
  split.
  { rewrite Hf, Hf'. apply Qplus_comp; [reflexivity|].
    apply sumQ_fmap_Permutation. by rewrite Hp. }
  split.
  { rewrite Hn, Hn'. apply Qplus_comp; [reflexivity|].
    apply sumQ_fmap_Permutation. by rewrite Hp. }
  split. { rewrite Hd, Hd'. by rewrite (sumQ_fmap_Permutation diesel_amount rows rows'). }
  split. { rewrite Hu, Hu'. by rewrite (sumQ_fmap_Permutation unleaded_amount rows rows'). }
  split.
  { intros k.
    destruct (foldl_step_daily (λ _, true) k rows totals_init) as [_ ->].
    destruct (foldl_step_daily (λ _, true) k rows' totals_init) as [_ ->].
    by rewrite (sumQ_fmap_Permutation (dated_amount k) rows rows'). }
  split.
  { intros p.
    destruct (foldl_step_daily p "" rows totals_init) as [-> _].
    destruct (foldl_step_daily p "" rows' totals_init) as [-> _].
    by rewrite (sumQ_fmap_Permutation (period_amount p) rows rows'). }
  split.
  { intros k. rewrite !foldl_step_dates.
    split; (intros [?|(i & c & r & Hin & ?)]; [by left|right]; exists i, c, r;
            split; [|done]); [by rewrite <- Hp | by rewrite Hp]. }
  intros who.
  eapply same_staff_trans; [apply (aggregate_staff who rows)|].
  eapply same_staff_trans; [apply (staff_entry_Permutation who rows rows' Hp)|].
  apply same_staff_sym, aggregate_staff.
Qed.

(** The ranking lists the staff entries of the loop. *)
Lemma staff_ranking_get (rows : list slip_item) (who : string) :
  Dict.get (Py.sorted_desc Qltb (λ kv : string * staff, sales kv.2)
              (staff_sales (aggregate rows))) who
  = Dict.get (staff_sales (aggregate rows)) who.
Proof.
  symmetry. apply dict_get_Permutation.
  - apply staff_sales_NoDup. apply NoDup_nil_2.
  - symmetry. apply sorted_desc_Permutation.
Qed.

Lemma admin_dashboard_Permutation (today : Calendar.date) (rows rows' : list slip_item) :
  rows ≡ₚ rows' →
  match admin_dashboard today rows, admin_dashboard today rows' with
  | Ok d, Ok d' => same_totals d d'
  | Raise e, Raise e' => e = ValueError ∧ e' = ValueError
  | _, _ => False
  end.
Proof.
  intros Hp.
  destruct (aggregate_Permutation rows rows' Hp)
    as (Hn & Hr & Hv & Hret & Hf & Hnf & Hd & Hu & Hday & Hsum & Hkeys & Hstaff).
  unfold admin_dashboard.
  set (t := aggregate rows) in *. set (t' := aggregate rows') in *.
  set (ws := Calendar.add_days today (- Calendar.weekday today)).
  set (we := Calendar.add_days ws 6).
  set (ms := Calendar.replace_day today 1).
  set (me := Calendar.replace_day today
               (Calendar.days_in_month (Calendar.year today) (Calendar.month today))).
  pose proof (sum_between_spec ws we 0 (daily_sales t)) as Hw.
  pose proof (sum_between_spec ws we 0 (daily_sales t')) as Hw'.
  pose proof (sum_between_spec ms me 0 (daily_sales t)) as Hm.
  pose proof (sum_between_spec ms me 0 (daily_sales t')) as Hm'.
  assert (Hbad : ∀ k, k ∈ Dict.keys (daily_sales t) → Calendar.fromisoformat k = None →
                      (∀ k, k ∈ Dict.keys (daily_sales t') →
                            is_Some (Calendar.fromisoformat k)) → False).
  { intros k Hk Hnone Hall. apply Hkeys in Hk. apply Hall in Hk as [? ?]. congruence. }
  assert (Hbad' : ∀ k, k ∈ Dict.keys (daily_sales t') → Calendar.fromisoformat k = None →
                       (∀ k, k ∈ Dict.keys (daily_sales t) →
                             is_Some (Calendar.fromisoformat k)) → False).
  { intros k Hk Hnone Hall. apply Hkeys in Hk. apply Hall in Hk as [? ?]. congruence. }
  destruct (sum_between ws we 0 (daily_sales t)) as [week|e];
    destruct (sum_between ws we 0 (daily_sales t')) as [week'|e']; cbn [mbind result_bind].
  2:{ destruct Hw as [Hall _], Hw' as [_ (k & Hk & Hnone)]. exfalso. exact (Hbad' k Hk Hnone Hall). }
  2:{ destruct Hw' as [Hall _], Hw as [_ (k & Hk & Hnone)]. exfalso. exact (Hbad k Hk Hnone Hall). }
  2:{ by destruct Hw, Hw'. }
  destruct (sum_between ms me 0 (daily_sales t)) as [month|e];
    destruct (sum_between ms me 0 (daily_sales t')) as [month'|e']; cbn [mbind result_bind].
  2:{ destruct Hm as [Hall _], Hm' as [_ (k & Hk & Hnone)]. exfalso. exact (Hbad' k Hk Hnone Hall). }
  2:{ destruct Hm' as [Hall _], Hm as [_ (k & Hk & Hnone)]. exfalso. exact (Hbad k Hk Hnone Hall). }
  2:{ by destruct Hm, Hm'. }
  destruct Hw as [_ Hw], Hw' as [_ Hw'], Hm as [_ Hm], Hm' as [_ Hm'].
  unfold same_totals.
  cbn [ctx_total_transactions ctx_total_revenue ctx_nett_revenue ctx_total_vat
       ctx_total_returns ctx_fuel_total ctx_nonfuel_total ctx_diesel_total
       ctx_unleaded_total ctx_today_sale ctx_week_sale ctx_month_sale
       ctx_avg_transaction_value ctx_fuel_percentage ctx_nonfuel_percentage
       ctx_today ctx_week_start ctx_week_end ctx_month_start ctx_month_end
       ctx_staff_performance].
  assert (Hpct : (if is_zero (total_revenue t) then 0
                  else fuel_total t / total_revenue t * 100)
                 == (if is_zero (total_revenue t') then 0
                     else fuel_total t' / total_revenue t' * 100)).
  { rewrite (is_zero_proper _ _ Hr). destruct (is_zero (total_revenue t')); [reflexivity|].
    by rewrite Hf, Hr. }
  repeat split; try done.
  - by rewrite Hr, Hret.
  - by rewrite Hret.
  - rewrite Hw, Hw'. by rewrite Hsum.
  - rewrite Hm, Hm'. by rewrite Hsum.
  - rewrite <- Hn. destruct (total_transactions t); [reflexivity|]. by rewrite Hr.
  - by rewrite Hpct.
  - intros who. unfold t, t'. rewrite !staff_ranking_get. apply Hstaff.
Qed.

End RowOrder.

Section CachedDashboard.
Import Tasks.
Local Open Scope Q_scope.
Local Arguments Calendar.strptime_ymd : simpl never.
Local Arguments Py.strip : simpl never.
Local Arguments Py.upper : simpl never.
Local Arguments Py.lower : simpl never.
Local Arguments Py.contains : simpl never.

(** An invariant of every iteration is an invariant of the loop. *)
Lemma foldl_invariant {S A} (P : S → Prop) (f : S → A → S) (l : list A) (st : S) :
  (∀ st x, P st → P (f st x)) → P st → P (foldl f st l).
Proof.
  intros Hstep. revert st. induction l as [|x l IH]; intros st Hst; simpl; [done|].
  by apply IH, Hstep.
Qed.

(** The fuel-log rows the first loop gets through: a date that parses
    and a total. *)
Definition eod_counted (row : eod_row) : bool :=
  match s_date row with
  | Some date_str =>
      bool_decide (is_Some (Calendar.strptime_ymd date_str))
      && bool_decide (is_Some (total row))
  | None => false
  end.

(** The shop rows the second loop gets through: a date that parses and
    no VOID marker. *)
Definition pos_counted (row : pos_row) : bool :=
  match trandate row with
  | Some (String c r) =>
      bool_decide (is_Some (Calendar.strptime_ymd (String c r)))
      && negb (is_void (Py.strip (default "" (details row))))
  | _ => false
  end.

Lemma eod_step_transactions w st row :
  transactions (tot (eod_step w st row))
  = (transactions (tot st) + (if eod_counted row then 1 else 0))%nat.
Proof.
  unfold eod_step, eod_counted.
  destruct (s_date row) as [ds|]; [|simpl; lia].
  destruct (Calendar.strptime_ymd ds) as [d|], (total row) as [a|]; simpl; lia.
Qed.

Lemma pos_step_transactions w st row :
  transactions (tot (pos_step w st row))
  = (transactions (tot st) + (if pos_counted row then 1 else 0))%nat.
Proof.
  unfold pos_step, pos_counted.
  destruct (trandate row) as [[|c r]|]; simpl; try lia.
  destruct (Calendar.strptime_ymd (String c r)) as [d|]; simpl; try lia.
  destruct (is_void _); simpl; lia.
Qed.

Lemma returns_step_transactions st row :
  transactions (tot (returns_step st row)) = transactions (tot st).
Proof. unfold returns_step. by destruct (has_return_amount row). Qed.

Lemma foldl_count {S A} (f : S → A → S) (m : S → nat) (c : A → bool)
    (l : list A) (st : S) :
  (∀ st x, m (f st x) = (m st + (if c x then 1 else 0))%nat) →
  m (foldl f st l) = (m st + length (filter (λ x, c x = true) l))%nat.
Proof.
  intros Hstep. revert st. induction l as [|x l IH]; intros st; simpl; [lia|].
  rewrite IH, Hstep. destruct (c x) eqn:Hc.
  - rewrite filter_cons_True by done. simpl. lia.
  - rewrite filter_cons_False by congruence. lia.
Qed.

(** The cached aggregator counts one transaction per row it gets
    through, whatever slip the row belongs to. *)
Lemma run_loops_transactions w eod_data pos2_data pos3_data posaud_data :
  transactions (tot (run_loops w eod_data pos2_data pos3_data posaud_data))
  = (length (filter (λ r, eod_counted r = true) eod_data)
     + length (filter (λ r, pos_counted r = true) (pos2_data ++ pos3_data)%list))%nat.
Proof.
  unfold run_loops.
  rewrite (foldl_invariant
             (λ st', transactions (tot st') = transactions (tot (foldl (pos_step w)
                (foldl (eod_step w) state_init eod_data) (pos2_data ++ pos3_data)%list)))
             returns_step posaud_data).
  - rewrite (foldl_count (pos_step w) (λ st, transactions (tot st)) pos_counted)
      by apply pos_step_transactions.
    rewrite (foldl_count (eod_step w) (λ st, transactions (tot st)) eod_counted)
      by apply eod_step_transactions.
    reflexivity.
  - intros st x Hst. by rewrite returns_step_transactions.
  - reflexivity.
Qed.

(** Revenue and its two buckets move together. *)
Definition balanced (st : state) : Prop :=
  revenue (tot st) == fuel (tot st) + nonfuel (tot st).

Lemma eod_step_balanced w st row : balanced st → balanced (eod_step w st row).
Proof.
  unfold balanced, eod_step. intros Hb.
  destruct (s_date row) as [ds|]; [|done].
  destruct (Calendar.strptime_ymd ds) as [d|], (total row) as [a|]; try done.
  simpl. lra.
Qed.

Lemma pos_step_balanced w st row : balanced st → balanced (pos_step w st row).
Proof.
  unfold balanced, pos_step. intros Hb.
  destruct (trandate row) as [[|c r]|]; try done.
  destruct (Calendar.strptime_ymd (String c r)) as [d|]; try done.
  destruct (is_void _); try done.
  simpl. lra.
Qed.

Lemma returns_step_balanced st row : balanced st → balanced (returns_step st row).
Proof.
  unfold balanced, returns_step. intros Hb.
  by destruct (has_return_amount row).
Qed.

Lemma run_loops_balanced w eod_data pos2_data pos3_data posaud_data :
  balanced (run_loops w eod_data pos2_data pos3_data posaud_data).
Proof.
  unfold run_loops.
  apply foldl_invariant; [apply returns_step_balanced|].
  apply foldl_invariant; [apply pos_step_balanced|].
  apply foldl_invariant; [apply eod_step_balanced|].
  unfold balanced. simpl. lra.
Qed.

(** *** The money totals of the cached aggregator, row by row *)

(** What a row of the fuel log and a row of the shop tables add to the
    money totals: its amount when the loop gets through it, nothing when
    it is skipped. *)
Definition eod_amount (row : eod_row) : Q :=
  if eod_counted row then default 0 (total row) else 0.

Definition pos_amount (row : pos_row) : Q :=
  if pos_counted row then last_number (Py.strip (default "" (details row))) else 0.

(** A total that every iteration raises by the share of its row is the
    initial total plus the sum of the shares. *)
Lemma foldl_sum {S A} (f : S → A → S) (m : S → Q) (g : A → Q) (l : list A) (st : S) :
  (∀ st x, m (f st x) == m st + g x) →
  m (foldl f st l) == m st + sumQ (g <$> l).
Proof.
  intros Hstep. revert st. induction l as [|x l IH]; intros st.
  - simpl. lra.
  - change (foldl f st (x :: l)) with (foldl f (f st x) l).
    rewrite fmap_cons, sumQ_cons, IH, Hstep. lra.
Qed.

Lemma foldl_keeps {S A B} (f : S → A → S) (m : S → B) (l : list A) (st : S) :
  (∀ st x, m (f st x) = m st) → m (foldl f st l) = m st.
Proof.
  intros Hstep. revert st. induction l as [|x l IH]; intros st; simpl; [done|].
  by rewrite IH, Hstep.
Qed.

Lemma eod_step_money w st row :
  fuel (tot (eod_step w st row)) == fuel (tot st) + eod_amount row
  ∧ nonfuel (tot (eod_step w st row)) = nonfuel (tot st)
  ∧ revenue (tot (eod_step w st row)) == revenue (tot st) + eod_amount row.
Proof.
  unfold eod_step, eod_amount, eod_counted.
  destruct (s_date row) as [ds|]; [|repeat split; try done; lra].
  destruct (Calendar.strptime_ymd ds) as [d|], (total row) as [a|];
    simpl; repeat split; try done; try lra.
  all: rewrite ?bool_decide_eq_true_2 by eauto; simpl; lra.
Qed.

Lemma pos_step_money w st row :
  fuel (tot (pos_step w st row)) = fuel (tot st)
  ∧ nonfuel (tot (pos_step w st row)) == nonfuel (tot st) + pos_amount row
  ∧ revenue (tot (pos_step w st row)) == revenue (tot st) + pos_amount row.
Proof.
  unfold pos_step, pos_amount, pos_counted.
  destruct (trandate row) as [[|c r]|]; try (repeat split; try done; lra).
  destruct (Calendar.strptime_ymd (String c r)) as [d|];
    [|simpl; repeat split; try done; lra].
  rewrite bool_decide_eq_true_2 by eauto.
  destruct (is_void _); simpl; repeat split; try done; lra.
Qed.

Lemma returns_step_money st row :
  fuel (tot (returns_step st row)) = fuel (tot st)
  ∧ nonfuel (tot (returns_step st row)) = nonfuel (tot st)
  ∧ revenue (tot (returns_step st row)) = revenue (tot st).
Proof. unfold returns_step. by destruct (has_return_amount row). Qed.

(** The fuel total of the cached aggregator is the sum over the rows of
    the fuel log, its non-fuel total the sum over the rows of the two
    shop tables, and the revenue the sum over both: the table a row
    comes from decides its bucket, not its grade or its text. *)
Lemma run_loops_money w eod_data pos2_data pos3_data posaud_data :
  let c := tot (run_loops w eod_data pos2_data pos3_data posaud_data) in
  fuel c == sumQ (eod_amount <$> eod_data)
  ∧ nonfuel c == sumQ (pos_amount <$> (pos2_data ++ pos3_data)%list)
  ∧ revenue c == sumQ (eod_amount <$> eod_data)
                 + sumQ (pos_amount <$> (pos2_data ++ pos3_data)%list).
Proof.
  unfold run_loops. cbv zeta.
  set (st1 := foldl (eod_step w) state_init eod_data).
  set (st2 := foldl (pos_step w) st1 (pos2_data ++ pos3_data)%list).
  rewrite (foldl_keeps returns_step (λ st, fuel (tot st)))
    by (intros; apply returns_step_money).
  rewrite (foldl_keeps returns_step (λ st, nonfuel (tot st)))
    by (intros; apply returns_step_money).
  rewrite (foldl_keeps returns_step (λ st, revenue (tot st)))
    by (intros; apply returns_step_money).
  assert (H1f : fuel (tot st1) == 0 + sumQ (eod_amount <$> eod_data)).
  { apply (foldl_sum (eod_step w) (λ st, fuel (tot st)) eod_amount).
    intros. apply eod_step_money. }
  assert (H1n : nonfuel (tot st1) = 0).
  { unfold st1. rewrite (foldl_keeps (eod_step w) (λ st, nonfuel (tot st))); [done|].
    intros. apply eod_step_money. }
  assert (H1r : revenue (tot st1) == 0 + sumQ (eod_amount <$> eod_data)).
  { apply (foldl_sum (eod_step w) (λ st, revenue (tot st)) eod_amount).
    intros. apply eod_step_money. }
  assert (H2f : fuel (tot st2) = fuel (tot st1)).
  { unfold st2. rewrite (foldl_keeps (pos_step w) (λ st, fuel (tot st))); [done|].
    intros. apply pos_step_money. }
  assert (H2n : nonfuel (tot st2)
                == nonfuel (tot st1) + sumQ (pos_amount <$> (pos2_data ++ pos3_data)%list)).
  { apply (foldl_sum (pos_step w) (λ st, nonfuel (tot st)) pos_amount).
    intros. apply pos_step_money. }
  assert (H2r : revenue (tot st2)
                == revenue (tot st1) + sumQ (pos_amount <$> (pos2_data ++ pos3_data)%list)).
  { apply (foldl_sum (pos_step w) (λ st, revenue (tot st)) pos_amount).
    intros. apply pos_step_money. }
  rewrite H2f, H2n, H2r, H1n, H1f, H1r. repeat split; lra.
Qed.


End CachedDashboard.

(** *** The split on binary64 floats *)

Section FloatSplit.
Import Binary64.

(** The sum a float accumulator holds after adding the numbers of a
    list one after the other. *)
Definition fsum (l : list float) : float := foldl PrimFloat.add zero l.

Lemma foldl_step_float (rows : list item) (t : money) :
  total_revenue (foldl step t rows)
  = foldl PrimFloat.add (total_revenue t) (amount <$> rows)
  ∧ fuel_total (foldl step t rows)
    = foldl PrimFloat.add (fuel_total t)
        (amount <$> filter (λ i, is_fuel i = true) rows)
  ∧ nonfuel_total (foldl step t rows)
    = foldl PrimFloat.add (nonfuel_total t)
        (amount <$> filter (λ i, is_fuel i = false) rows).
Proof.
  revert t. induction rows as [|i rows IH]; intros t; [done|].
  change (foldl step t (i :: rows)) with (foldl step (step t i) rows).
  destruct (IH (step t i)) as (-> & -> & ->). simpl.
  destruct (is_fuel i) eqn:Hfuel.
  - rewrite (filter_cons_True (λ i, is_fuel i = true)) by done.
    rewrite (filter_cons_False (λ i, is_fuel i = false)) by congruence. done.
  - rewrite (filter_cons_False (λ i, is_fuel i = true)) by congruence.
    rewrite (filter_cons_True (λ i, is_fuel i = false)) by done. done.
Qed.

(** Each of the three float accumulators is the running sum of its own
    rows, in the order of the rows. *)
Lemma aggregate_float_sums (rows : list item) :
  total_revenue (aggregate rows) = fsum (amount <$> rows)
  ∧ fuel_total (aggregate rows) = fsum (amount <$> filter (λ i, is_fuel i = true) rows)
  ∧ nonfuel_total (aggregate rows)
    = fsum (amount <$> filter (λ i, is_fuel i = false) rows).
Proof. apply foldl_step_float. Qed.

End FloatSplit.


Section AggregatorClaims.
Import Views.
Local Open Scope Q_scope.

(** The totals the template context reports are those of the loop. *)
Lemma admin_dashboard_totals today rows d :
  admin_dashboard today rows = Ok d →
  ctx_total_transactions d = total_transactions (aggregate rows)
  ∧ ctx_total_revenue d = total_revenue (aggregate rows)
  ∧ ctx_fuel_total d = fuel_total (aggregate rows)
  ∧ ctx_nonfuel_total d = nonfuel_total (aggregate rows)
  ∧ ctx_total_returns d = total_returns (aggregate rows)
  ∧ ctx_nett_revenue d = total_revenue (aggregate rows) - total_returns (aggregate rows).
Proof.
  unfold admin_dashboard.
  destruct (sum_between (Calendar.add_days today _) _ 0 _) as [week|e];
    simpl; [|discriminate].
  destruct (sum_between _ _ 0 _) as [month|e]; simpl; [|discriminate].
  intros [= <-]. simpl. done.
Qed.

Lemma sumQ_partition {A} (f : A → Q) (c : A → bool) (l : list A) :
  sumQ (f <$> l)
  == sumQ (f <$> filter (λ x, c x = true) l) + sumQ (f <$> filter (λ x, c x = false) l).
Proof.
  induction l as [|x l IH]; [simpl; lra|].
  rewrite fmap_cons, sumQ_cons, IH. destruct (c x) eqn:Hc.
  - rewrite (filter_cons_True (λ x, c x = true)) by done.
    rewrite (filter_cons_False (λ x, c x = false)) by congruence.
    rewrite fmap_cons, sumQ_cons. lra.
  - rewrite (filter_cons_False (λ x, c x = true)) by congruence.
    rewrite (filter_cons_True (λ x, c x = false)) by done.
    rewrite fmap_cons, sumQ_cons. lra.
Qed.

(** A slip item with the given slip, name and price. *)
Definition item_of (slip : Z) (name : string) (price : Q) : slip_item :=
  {| total_price := Some price; vat := None; qty := Some 1;
     item_name := Some name; attendant := Some "Sibu";
     trandate := Some "2025-02-15"; trantime := Some "10:30:00";
     slip_id := Some slip; id := None |}.

(** A shop receipt line of slip S-1001. *)
Definition receipt_line (text : string) : Tasks.pos_row :=
  {| Tasks.trandate := Some "2025-02-15"; Tasks.details := Some text;
     Tasks.opref := Some "S-1001" |}.

Definition a_day : Calendar.date :=
  {| Calendar.year := 2025; Calendar.month := 2; Calendar.day := 15 |}.

(** C3, as stated, fails for the cached aggregator: two receipt lines of
    the one slip S-1001 give a transaction count of 2, the number of
    rows, while they carry 1 distinct slip identifier. *)
Lemma cached_count_is_per_row :
  let lines := [receipt_line "BREAD 15.00"; receipt_line "MILK 22.50"] in
  (∃ d, Tasks.build_dashboard a_day [] lines [] [] = Ok d
        ∧ Tasks.total_transactions d = 2%nat)
  ∧ size (list_to_set (Tasks.opref <$> lines) : gset (option string)) = 1%nat.
Proof.
  split; [eexists; split|]; by vm_compute.
Qed.

(** C3, amended: in [admin_dashboard] the transaction count is the
    number of distinct slip keys ([slip_id or id]), accumulated over the
    set of keys seen so far, and not the number of rows; two line items
    with one slip key count as 1 transaction.  In
    [refresh_dashboard_cache] the count is the number of rows the loops
    get through (fuel-log rows with a date and a total, shop rows with a
    date and no VOID marker), one per row. *)
Theorem transaction_count_by_aggregator
    (rows : list slip_item) (a b : slip_item)
    (today : Calendar.date) (d : dashboard)
    (w : Tasks.window) (eod_data : list Tasks.eod_row)
    (pos2_data pos3_data : list Tasks.pos_row) (posaud_data : list Tasks.posaud_row) :
  seen_slips (aggregate rows) = list_to_set (slip_key <$> rows)
  ∧ total_transactions (aggregate rows) = size (seen_slips (aggregate rows))
  ∧ total_transactions (aggregate rows) = length (remove_dups (slip_key <$> rows))
  ∧ (admin_dashboard today rows = Ok d →
     ctx_total_transactions d = length (remove_dups (slip_key <$> rows)))
  ∧ (slip_key a = slip_key b → total_transactions (aggregate [a; b]) = 1%nat)
  ∧ Tasks.transactions
      (Tasks.tot (Tasks.run_loops w eod_data pos2_data pos3_data posaud_data))
    = (length (filter (λ r, eod_counted r = true) eod_data)
       + length (filter (λ r, pos_counted r = true) (pos2_data ++ pos3_data)%list))%nat.
Proof.
  split; [apply aggregate_seen_slips|].
  split; [rewrite aggregate_seen_slips; apply aggregate_transactions|].
  split; [apply aggregate_transactions_remove_dups|].
  split.
  { intros (Hcount & _)%admin_dashboard_totals.
    rewrite Hcount. apply aggregate_transactions_remove_dups. }
  split; [|apply run_loops_transactions].
  intros Hkey. rewrite aggregate_transactions.
  assert (Hset : (list_to_set (slip_key <$> [a; b]) : gset (option Z))
                 = {[slip_key b]}).
  { simpl. rewrite Hkey. set_solver. }
  rewrite Hset. apply size_singleton.
Qed.

(** Two line items of slip 7. *)
Definition slip7_rows : list slip_item :=
  [item_of 7 "BREAD" 15; item_of 7 "MILK 2L" (45 # 2)].

Lemma transaction_count_by_aggregator_witness :
  total_transactions (aggregate slip7_rows) = 1%nat
  ∧ match admin_dashboard a_day slip7_rows with
    | Ok d => ctx_total_transactions d = 1%nat
    | Raise _ => False
    end.
Proof.
  destruct (admin_dashboard a_day slip7_rows) as [d|e] eqn:Hrun.
  - destruct (transaction_count_by_aggregator slip7_rows (item_of 7 "BREAD" 15)
                (item_of 7 "MILK 2L" (45 # 2)) a_day d
                (Tasks.window_of a_day) [] [] [] []) as (_ & _ & _ & Hd & Hpair & _).
    split; [by apply Hpair | by rewrite (Hd Hrun)].
  - vm_compute in Hrun. discriminate Hrun.
Defined.

(** The fuel test of the dashboard loop, written out: the upper-cased
    item name contains DIESEL or UNLEADED. *)
Definition named_fuel (item : slip_item) : bool :=
  Py.contains "DIESEL" (Py.upper (or_str (item_name item) ""))
  || Py.contains "UNLEADED" (Py.upper (or_str (item_name item) "")).

(** C4, amended: in exact arithmetic the total revenue is the fuel
    total plus the non-fuel total, in both aggregators, every row
    entering the revenue and exactly one bucket.  The dashboard loop
    puts a row into the fuel bucket when its upper-cased item name
    contains DIESEL or UNLEADED and into the non-fuel bucket otherwise.
    The cached aggregator puts every row of the fuel log into the fuel
    bucket and every row of the two shop tables into the non-fuel
    bucket, whatever the grade code or the text of the row.  On the
    binary64 floats of the code the three totals are three running sums,
    each rounded at every step, so that the equation holds up to
    rounding only. *)
Theorem revenue_is_fuel_plus_nonfuel
    (rows : list slip_item) (today : Calendar.date) (d : dashboard)
    (w : Tasks.window) (eod_data : list Tasks.eod_row)
    (pos2_data pos3_data : list Tasks.pos_row) (posaud_data : list Tasks.posaud_row)
    (float_rows : list Binary64.item) :
  let t := aggregate rows in
  let c := Tasks.tot (Tasks.run_loops w eod_data pos2_data pos3_data posaud_data) in
  let f := Binary64.aggregate float_rows in
  total_revenue t == fuel_total t + nonfuel_total t
  ∧ total_revenue t == sumQ (amount <$> rows)
  ∧ fuel_total t == sumQ (amount <$> filter (λ i, named_fuel i = true) rows)
  ∧ nonfuel_total t == sumQ (amount <$> filter (λ i, named_fuel i = false) rows)
  ∧ (admin_dashboard today rows = Ok d →
     ctx_total_revenue d == ctx_fuel_total d + ctx_nonfuel_total d)
  ∧ Tasks.revenue c == Tasks.fuel c + Tasks.nonfuel c
  ∧ Tasks.fuel c == sumQ (eod_amount <$> eod_data)
  ∧ Tasks.nonfuel c == sumQ (pos_amount <$> (pos2_data ++ pos3_data)%list)
  ∧ Binary64.total_revenue f = fsum (Binary64.amount <$> float_rows)
  ∧ Binary64.fuel_total f
    = fsum (Binary64.amount <$> filter (λ i, Binary64.is_fuel i = true) float_rows)
  ∧ Binary64.nonfuel_total f
    = fsum (Binary64.amount <$> filter (λ i, Binary64.is_fuel i = false) float_rows).
Proof.
  intros t c f.
  destruct (foldl_step_sums rows totals_init) as (Hr & Hf & Hn).
  fold (aggregate rows) in Hr, Hf, Hn. fold t in Hr, Hf, Hn.
  change (total_revenue totals_init) with 0 in Hr.
  change (fuel_total totals_init) with 0 in Hf.
  change (nonfuel_total totals_init) with 0 in Hn.
  change is_fuel with named_fuel in Hf, Hn.
  pose proof (sumQ_partition amount named_fuel rows) as Hp.
  destruct (run_loops_money w eod_data pos2_data pos3_data posaud_data) as (Hcf & Hcn & Hcr).
  destruct (aggregate_float_sums float_rows) as (Hfr & Hff & Hfn).
  split; [lra|]. split; [lra|]. split; [lra|]. split; [lra|].
  split.
  { intros (_ & -> & -> & -> & _)%admin_dashboard_totals. fold t. lra. }
  split; [apply run_loops_balanced|].
  repeat split; done.
Qed.

(** A fuel row, a shop row and a second fuel row over two slips. *)
Definition mixed_rows : list slip_item :=
  [item_of 1 "Diesel 50ppm" 500; item_of 1 "BREAD" 15; item_of 2 "unleaded 95" 300].

Lemma revenue_is_fuel_plus_nonfuel_witness :
  match admin_dashboard a_day mixed_rows with
  | Ok d => ctx_total_revenue d == ctx_fuel_total d + ctx_nonfuel_total d
  | Raise _ => False
  end.
Proof.
  destruct (admin_dashboard a_day mixed_rows) as [d|e] eqn:Hrun.
  - destruct (revenue_is_fuel_plus_nonfuel mixed_rows a_day d
                (Tasks.window_of a_day) [] [] [] [] [])
      as (_ & _ & _ & _ & Hd & _).
    exact (Hd Hrun).
  - vm_compute in Hrun. discriminate Hrun.
Defined.

(** Three rows priced 0.10, 0.10 and 1.10, the second one fuel. *)
Definition dime_rows : list Binary64.item :=
  [ {| Binary64.item_name := Some "BREAD"; Binary64.total_price := Some 0.1%float |};
    {| Binary64.item_name := Some "DIESEL 50PPM"; Binary64.total_price := Some 0.1%float |};
    {| Binary64.item_name := Some "MILK"; Binary64.total_price := Some 1.1%float |} ].

(** C4, as stated, fails on the code.  On its floats the revenue of the
    three rows is 1.3 while the fuel and the non-fuel total add up to
    1.3000000000000003.  And in the cached aggregator a row of the fuel
    log with the unknown grade 09 is fuel, while a shop line that names
    diesel is non-fuel. *)
Lemma revenue_split_not_exact :
  (let f := Binary64.aggregate dime_rows in
   Binary64.total_revenue f = 1.3%float
   ∧ (Binary64.fuel_total f + Binary64.nonfuel_total f)%float = 1.3000000000000003%float
   ∧ PrimFloat.eqb (Binary64.total_revenue f)
                   (Binary64.fuel_total f + Binary64.nonfuel_total f) = false)
  ∧ (let c :=
       Tasks.tot
         (Tasks.run_loops (Tasks.window_of a_day)
            [ {| Tasks.s_date := Some "2025-02-15"; Tasks.total := Some 100;
                 Tasks.gradeid := Some "09"; Tasks.tagid := None |} ]
            [ receipt_line "DIESEL 50PPM 500.00" ] [] []) in
     (Tasks.fuel c, Tasks.diesel c, Tasks.unleaded c, Tasks.nonfuel c) = (100, 0, 0, 500)).
Proof. split; [repeat split; vm_compute; reflexivity | reflexivity]. Qed.

Example fuel_split_example :
  let t := aggregate mixed_rows in
  (total_revenue t, fuel_total t, nonfuel_total t, total_transactions t)
  = (815, 800, 15, 2%nat).
Proof. reflexivity. Qed.

(** C10: in the admin dashboard aggregation the returns total is 0 for
    every row set, since no iteration of the loop changes it, and the
    reported net revenue equals the gross total revenue, also when rows
    mention a return or a refund. *)
Theorem admin_dashboard_returns_zero
    (today : Calendar.date) (rows : list slip_item) (d : dashboard) :
  total_returns (aggregate rows) = 0
  ∧ (admin_dashboard today rows = Ok d →
     ctx_total_returns d = 0 ∧ ctx_nett_revenue d == ctx_total_revenue d).
Proof.
  assert (H0 : total_returns (aggregate rows) = 0).
  { unfold aggregate. by rewrite foldl_step_returns. }
  split; [done|].
  intros (_ & Hrev & _ & _ & Hret & Hnett)%admin_dashboard_totals.
  rewrite Hret, Hnett, Hrev, H0. split; [done | lra].
Qed.

(** Two rows that mention a refund and a return. *)
Definition refund_rows : list slip_item :=
  [item_of 1 "REFUND BREAD" 15; item_of 2 "RETURN MILK 22.50" (45 # 2)].

Lemma admin_dashboard_returns_zero_witness :
  match admin_dashboard a_day refund_rows with
  | Ok d => ctx_total_returns d = 0 ∧ ctx_nett_revenue d == ctx_total_revenue d
  | Raise _ => False
  end.
Proof.
  destruct (admin_dashboard a_day refund_rows) as [d|e] eqn:Hrun.
  - exact (proj2 (admin_dashboard_returns_zero a_day refund_rows d) Hrun).
  - vm_compute in Hrun. discriminate Hrun.
Defined.

End AggregatorClaims.

(** ** Numbers read from text *)

Section NumberText.
Local Open Scope Q_scope.

(** The characters of a text. *)
Fixpoint chars (s : string) : list ascii :=
  match s with
  | EmptyString => []
  | String c s' => c :: chars s'
  end.

Lemma chars_app (a b : string) : chars (a +:+ b) = (chars a ++ chars b)%list.
Proof.
  induction a as [|c a IH]; [done|].
  change (String c a +:+ b) with (String c (a +:+ b)). simpl. by rewrite IH.
Qed.

Lemma span_taken (p : ascii → bool) (s a b : string) :
  Py.span p s = (a, b) → Forall (λ c, p c = true) (chars a).
Proof.
  revert a b. induction s as [|c s IH]; intros a b; simpl.
  - intros [= <- <-]. constructor.
  - destruct (p c) eqn:Hp.
    + destruct (Py.span p s) as [a' b'] eqn:Hs. intros [= <- <-].
      simpl. constructor; [done|]. by eapply IH.
    + intros [= <- <-]. constructor.
Qed.

Lemma span_rest (p : ascii → bool) (s a b : string) (c : ascii) :
  Py.span p s = (a, b) → c ∈ chars b → c ∈ chars s.
Proof.
  revert a b. induction s as [|x s IH]; intros a b; simpl.
  - by intros [= <- <-].
  - destruct (p x).
    + destruct (Py.span p s) as [a' b'] eqn:Hs. intros [= <- <-] Hc.
      right. by eapply IH.
    + by intros [= <- <-].
Qed.

Lemma chars_rev_app (s1 s2 : string) (c : ascii) :
  c ∈ chars (String.rev_app s1 s2) ↔ c ∈ chars s1 ∨ c ∈ chars s2.
Proof.
  revert s2. induction s1 as [|x s1 IH]; intros s2; simpl.
  - rewrite elem_of_nil. naive_solver.
  - rewrite IH. simpl. rewrite !elem_of_cons. naive_solver.
Qed.

Lemma chars_rev (s : string) (c : ascii) : c ∈ chars (String.rev s) ↔ c ∈ chars s.
Proof.
  unfold String.rev. rewrite chars_rev_app. simpl. rewrite elem_of_nil. naive_solver.
Qed.

Lemma chars_lstrip (s : string) (c : ascii) : c ∈ chars (Py.lstrip s) → c ∈ chars s.
Proof.
  unfold Py.lstrip. destruct (Py.span Py.is_space s) as [a b] eqn:Hs.
  simpl. by eapply span_rest.
Qed.

(** Stripping only removes characters. *)
Lemma chars_strip (s : string) (c : ascii) : c ∈ chars (Py.strip s) → c ∈ chars s.
Proof.
  unfold Py.strip, Py.rstrip. rewrite chars_rev.
  intros H%chars_lstrip. rewrite chars_rev in H. by apply chars_lstrip.
Qed.

Lemma digit_val_nonneg (c : ascii) : Py.is_digit c = true → (0 <= Py.digit_val c)%Z.
Proof.
  unfold Py.is_digit, Py.digit_val.
  intros [H1 _]%andb_true_iff. apply Nat.leb_le in H1. lia.
Qed.

Lemma digits_val_nonneg (s : string) (acc : Z) :
  Forall (λ c, Py.is_digit c = true) (chars s) → (0 <= acc)%Z →
  (0 <= Py.digits_val acc s)%Z.
Proof.
  revert acc. induction s as [|c s IH]; intros acc Hs Hacc; simpl; [done|].
  inversion Hs as [|? ? Hc Hs']; subst. apply IH; [done|].
  pose proof (digit_val_nonneg c Hc). lia.
Qed.

Lemma pow10_pos (e : Z) : 0 < Py.pow10 e.
Proof. unfold Py.pow10. by apply Qpower_0_lt. Qed.

Lemma split_sign_plain (c : ascii) (t : string) :
  c ≠ "+"%char → c ≠ "-"%char → Py.split_sign (String c t) = (1%Z, String c t).
Proof.
  intros Hp Hm. destruct c as [[] [] [] [] [] [] [] []]; try reflexivity; congruence.
Qed.

Lemma split_fraction_plain (c : ascii) (t : string) :
  c ≠ "."%char → Py.split_fraction (String c t) = (EmptyString, String c t).
Proof.
  intros Hd. destruct c as [[] [] [] [] [] [] [] []]; try reflexivity; congruence.
Qed.

Lemma split_sign_nonneg (s s2 : string) (sg : Z) :
  Py.split_sign s = (sg, s2) → "-"%char ∉ chars s → sg = 1%Z.
Proof.
  destruct s as [|c t]; [by intros [= <- <-]|].
  intros Hs Hminus.
  destruct (decide (c = "-"%char)) as [->|Hc]; [exfalso; apply Hminus; by left|].
  destruct (decide (c = "+"%char)) as [->|Hp]; [by injection Hs as <- <-|].
  rewrite split_sign_plain in Hs by done. by injection Hs as <- <-.
Qed.

Lemma split_fraction_digits (s fp s4 : string) :
  Py.split_fraction s = (fp, s4) → Forall (λ c, Py.is_digit c = true) (chars fp).
Proof.
  destruct s as [|c t]; [intros [= <- <-]; constructor|].
  destruct (decide (c = "."%char)) as [->|Hc].
  - simpl. by apply span_taken.
  - rewrite split_fraction_plain by done. intros [= <- <-]. constructor.
Qed.

(** A text without a minus sign never converts to a negative number. *)
Lemma float_of_string_nonneg (s : string) (q : Q) :
  Py.float_of_string s = Some q → "-"%char ∉ chars s → 0 <= q.
Proof.
  unfold Py.float_of_string. intros Hq Hminus.
  destruct (Py.split_sign (Py.strip s)) as [sg s2] eqn:Hsg.
  apply split_sign_nonneg in Hsg as ->;
    [|intros H; by apply Hminus, chars_strip].
  destruct (Py.span Py.is_digit s2) as [ip s3] eqn:Hip.
  destruct (Py.split_fraction s3) as [fp s4] eqn:Hfp.
  apply split_fraction_digits in Hfp.
  destruct (String.length ip + String.length fp)%nat; [done|].
  destruct (Py.parse_exponent s4) as [e|]; [|done].
  injection Hq as <-. rewrite Qred_correct.
  apply Qmult_le_0_compat; [|apply Qlt_le_weak, pow10_pos].
  rewrite Z.mul_1_l. change 0 with (inject_Z 0). rewrite <- Zle_Qle.
  apply digits_val_nonneg; [|done].
  rewrite chars_app. apply Forall_app. split; [|done]. by eapply span_taken.
Qed.

(** Every match of the number pattern consists of digits and dots. *)
Lemma findall_go_chars (s : string) (st : Re.number_state) (cur m : string) :
  Forall (λ c, Re.is_digit_or_dot c = true) (chars cur) →
  m ∈ Re.findall_go st cur s →
  Forall (λ c, Re.is_digit_or_dot c = true) (chars m).
Proof.
  assert (Hrev : ∀ cur, Forall (λ c, Re.is_digit_or_dot c = true) (chars cur) →
                        Forall (λ c, Re.is_digit_or_dot c = true) (chars (String.rev cur))).
  { intros cur' H. rewrite Forall_forall in H. apply Forall_forall.
    intros c Hc. rewrite chars_rev in Hc. by apply H. }
  assert (Hdig : ∀ c, Py.is_digit c = true → Re.is_digit_or_dot c = true).
  { intros c Hc. unfold Re.is_digit_or_dot. by rewrite Hc. }
  revert st cur. induction s as [|c s IH]; intros st cur Hcur; simpl.
  - destruct st; [by intros ?%elem_of_nil| |];
      intros ->%list_elem_of_singleton; by apply Hrev.
  - destruct st.
    + destruct (Py.is_digit c) eqn:Hc; apply IH; simpl;
        repeat constructor; by apply Hdig.
    + destruct (Py.is_digit c) eqn:Hc.
      { apply IH. simpl. constructor; [by apply Hdig | done]. }
      destruct (bool_decide (c = "."%char)) eqn:Hdot.
      { apply IH. simpl. constructor; [|done].
        unfold Re.is_digit_or_dot. by rewrite Hdot, orb_true_r. }
      intros [->|Hm]%elem_of_cons; [by apply Hrev|].
      revert Hm. apply IH. constructor.
    + destruct (Py.is_digit c) eqn:Hc.
      { apply IH. simpl. constructor; [by apply Hdig | done]. }
      intros [->|Hm]%elem_of_cons; [by apply Hrev|].
      revert Hm. apply IH. constructor.
Qed.

Lemma findall_numbers_chars (s m : string) :
  m ∈ Re.findall_numbers s → "-"%char ∉ chars m.
Proof.
  intros Hm Hminus.
  assert (H : Forall (λ c, Re.is_digit_or_dot c = true) (chars m)).
  { eapply findall_go_chars; [|exact Hm]. constructor. }
  rewrite Forall_forall in H. specialize (H _ Hminus). by vm_compute in H.
Qed.

(** *** The matches of the number pattern convert to numbers *)

Lemma chars_inj (a b : string) : chars a = chars b → a = b.
Proof.
  revert b. induction a as [|c a IH]; intros [|d b]; simpl; try done.
  intros [= -> H]. f_equal. by apply IH.
Qed.

Lemma chars_rev_app_eq (s1 s2 : string) :
  chars (String.rev_app s1 s2) = (rev (chars s1) ++ chars s2)%list.
Proof.
  revert s2. induction s1 as [|c s1 IH]; intros s2; simpl; [done|].
  rewrite IH. simpl. by rewrite <- app_assoc.
Qed.

Lemma chars_rev_eq (s : string) : chars (String.rev s) = rev (chars s).
Proof. unfold String.rev. rewrite chars_rev_app_eq. simpl. apply app_nil_r. Qed.

Lemma rev_rev (s : string) : String.rev (String.rev s) = s.
Proof. apply chars_inj. by rewrite !chars_rev_eq, rev_involutive. Qed.

Lemma rev_cons (c : ascii) (s : string) :
  String.rev (String c s) = String.rev s +:+ String c EmptyString.
Proof.
  apply chars_inj. rewrite chars_app, !chars_rev_eq. simpl. done.
Qed.

Lemma app_empty_r (s : string) : s +:+ EmptyString = s.
Proof. apply chars_inj. rewrite chars_app. simpl. apply app_nil_r. Qed.

Lemma app_assoc_str (a b c : string) : (a +:+ b) +:+ c = a +:+ (b +:+ c).
Proof. apply chars_inj. rewrite !chars_app. by rewrite app_assoc. Qed.

(** A text of digits. *)
Definition digits_text (s : string) : Prop :=
  Forall (λ c, Py.is_digit c = true) (chars s).

(** The texts the number pattern matches: digits, or digits, a dot and
    possibly more digits. *)
Inductive number_text : string → Prop :=
| number_int (ip : string) :
    ip ≠ EmptyString → digits_text ip → number_text ip
| number_frac (ip fp : string) :
    ip ≠ EmptyString → digits_text ip → digits_text fp →
    number_text (ip +:+ String "." fp).

Lemma digits_text_snoc (s : string) (c : ascii) :
  digits_text s → Py.is_digit c = true → digits_text (s +:+ String c EmptyString).
Proof.
  intros Hs Hc. unfold digits_text. rewrite chars_app. apply Forall_app.
  split; [done|]. simpl. by repeat constructor.
Qed.

Lemma app_nonempty (s : string) (c : ascii) : s +:+ String c EmptyString ≠ EmptyString.
Proof. intros H. apply (f_equal chars) in H. rewrite chars_app in H. by destruct (chars s). Qed.

(** What the scanner holds in [cur] in each state. *)
Definition scanner_inv (st : Re.number_state) (cur : string) : Prop :=
  match st with
  | Re.Outside => True
  | Re.InInt => String.rev cur ≠ EmptyString ∧ digits_text (String.rev cur)
  | Re.InFrac =>
      ∃ ip fp, ip ≠ EmptyString ∧ digits_text ip ∧ digits_text fp
               ∧ String.rev cur = ip +:+ String "." fp
  end.

Lemma findall_go_number_text (s : string) (st : Re.number_state) (cur m : string) :
  scanner_inv st cur → m ∈ Re.findall_go st cur s → number_text m.
Proof.
  revert st cur. induction s as [|c s IH]; intros st cur Hinv; simpl.
  - destruct st; simpl in Hinv.
    + by intros ?%elem_of_nil.
    + intros ->%list_elem_of_singleton. destruct Hinv. by apply number_int.
    + intros ->%list_elem_of_singleton. destruct Hinv as (ip & fp & ? & ? & ? & ->).
      by apply number_frac.
  - destruct st; simpl in Hinv.
    + destruct (Py.is_digit c) eqn:Hc; apply IH; simpl; [|done].
      split; [done|]. by repeat constructor.
    + destruct Hinv as [Hne Hdig]. destruct (Py.is_digit c) eqn:Hc.
      { apply IH. simpl. rewrite rev_cons. split; [apply app_nonempty|].
        by apply digits_text_snoc. }
      destruct (bool_decide (c = "."%char)) eqn:Hdot.
      { apply bool_decide_eq_true in Hdot as ->. apply IH. simpl.
        exists (String.rev cur), EmptyString. rewrite rev_cons.
        repeat split; try done. constructor. }
      intros [->|Hm]%elem_of_cons; [by apply number_int|].
      revert Hm. by apply IH.
    + destruct Hinv as (ip & fp & Hne & Hip & Hfp & Hcur).
      destruct (Py.is_digit c) eqn:Hc.
      { apply IH. simpl. exists ip, (fp +:+ String c EmptyString).
        rewrite rev_cons, Hcur. repeat split; try done.
        - by apply digits_text_snoc.
        - apply (app_assoc_str ip (String "." fp) (String c EmptyString)). }
      intros [->|Hm]%elem_of_cons; [rewrite Hcur; by apply number_frac|].
      revert Hm. by apply IH.
Qed.

Lemma span_digits_app (ip rest : string) :
  digits_text ip →
  match rest with
  | EmptyString => True
  | String c _ => Py.is_digit c = false
  end →
  Py.span Py.is_digit (ip +:+ rest) = (ip, rest).
Proof.
  intros Hip Hrest. induction ip as [|c ip IH].
  - change (EmptyString +:+ rest) with rest.
    destruct rest as [|c t]; simpl; [done|]. by rewrite Hrest.
  - change (String c ip +:+ rest) with (String c (ip +:+ rest)).
    inversion Hip as [|? ? Hc Hip']; subst. simpl. rewrite Hc, IH; done.
Qed.

Lemma lstrip_plain (s : string) :
  match s with
  | EmptyString => True
  | String c _ => Py.is_space c = false
  end →
  Py.lstrip s = s.
Proof.
  unfold Py.lstrip. destruct s as [|c t]; simpl; [done|]. by intros ->.
Qed.

(** Text without white space is its own [strip]. *)
Lemma strip_plain (s : string) :
  Forall (λ c, Py.is_space c = false) (chars s) → Py.strip s = s.
Proof.
  intros Hs. unfold Py.strip, Py.rstrip.
  assert (Hhead : ∀ t, Forall (λ c, Py.is_space c = false) (chars t) →
                       Py.lstrip t = t).
  { intros t Ht. apply lstrip_plain. destruct t; [done|]. by inversion Ht. }
  rewrite (Hhead s Hs). rewrite Hhead; [apply rev_rev|].
  rewrite chars_rev_eq. by apply Forall_rev.
Qed.

Lemma digit_not_space (c : ascii) : Py.is_digit c = true → Py.is_space c = false.
Proof.
  unfold Py.is_digit, Py.is_space.
  intros [H1 H2]%andb_true_iff. apply Nat.leb_le in H1, H2.
  apply orb_false_intro; apply andb_false_iff.
  - right. apply Nat.leb_gt. lia.
  - right. apply Nat.leb_gt. lia.
Qed.

Lemma digits_no_space (s : string) :
  digits_text s → Forall (λ c, Py.is_space c = false) (chars s).
Proof. intros Hs. eapply Forall_impl; [exact Hs | apply digit_not_space]. Qed.

Lemma digit_not_sign (c : ascii) :
  Py.is_digit c = true → c ≠ "+"%char ∧ c ≠ "-"%char ∧ c ≠ "."%char.
Proof. intros Hc. repeat split; intros ->; by vm_compute in Hc. Qed.

(** A match of the number pattern is a text [float] converts. *)
Lemma number_text_converts (m : string) :
  number_text m → is_Some (Py.float_of_string m).
Proof.
  intros Hm. unfold Py.float_of_string. destruct Hm as [ip Hne Hip | ip fp Hne Hip Hfp].
  - rewrite strip_plain by by apply digits_no_space.
    destruct ip as [|c t]; [done|].
    inversion Hip as [|? ? Hc Ht]; subst.
    destruct (digit_not_sign c Hc) as (Hp & Hm & _).
    rewrite split_sign_plain by done.
    rewrite <- (app_empty_r (String c t)) at 1.
    rewrite span_digits_app by done. simpl. by eexists.
  - assert (Hsp : Forall (λ c, Py.is_space c = false) (chars (ip +:+ String "." fp))).
    { rewrite chars_app. apply Forall_app. split; [by apply digits_no_space|].
      simpl. constructor; [done|]. by apply digits_no_space. }
    rewrite strip_plain by done.
    destruct ip as [|c t]; [done|].
    inversion Hip as [|? ? Hc Ht]; subst.
    destruct (digit_not_sign c Hc) as (Hp & Hm & _).
    change (String c t +:+ String "." fp) with (String c (t +:+ String "." fp)).
    rewrite split_sign_plain by done.
    change (String c (t +:+ String "." fp)) with (String c t +:+ String "." fp).
    rewrite span_digits_app by done.
    change (Py.split_fraction (String "." fp)) with (Py.span Py.is_digit fp).
    rewrite <- (app_empty_r fp) at 1.
    rewrite span_digits_app by done. simpl. by eexists.
Qed.

(** [float(m)] succeeds on every match [re.findall] or [re.search]
    reports for the number pattern. *)
Lemma findall_numbers_convert (s m : string) :
  m ∈ Re.findall_numbers s → is_Some (Py.float_of_string m).
Proof.
  intros Hm. apply number_text_converts.
  by eapply findall_go_number_text; [|exact Hm].
Qed.

End NumberText.

(** ** Returns and net revenue of the cached aggregator *)

Section Returns.
Import Tasks.
Local Open Scope Q_scope.
Local Arguments Py.lower : simpl never.
Local Arguments Py.contains : simpl never.
Local Arguments Py.float_of_string : simpl never.
Local Arguments Re.search_number : simpl never.

Lemma return_amount_nonneg (row : posaud_row) : 0 <= return_amount row.
Proof.
  unfold return_amount.
  destruct (Py.contains "return" _ || Py.contains "refund" _); [|lra].
  destruct (Re.search_number _) as [m|] eqn:Hm; [|lra].
  destruct (Py.float_of_string m) as [q|] eqn:Hq; simpl; [|lra].
  apply (float_of_string_nonneg m q Hq).
  eapply findall_numbers_chars. unfold Re.search_number in Hm.
  by apply head_Some_elem_of in Hm.
Qed.

(** A line without the keywords, or without a number, adds nothing. *)
Lemma return_amount_unmatched (row : posaud_row) :
  has_return_amount row = false → return_amount row = 0.
Proof.
  unfold has_return_amount, return_amount.
  destruct (Py.contains "return" _ || Py.contains "refund" _); [|done].
  destruct (Re.search_number _) as [m|]; [|done].
  rewrite andb_true_l, bool_decide_eq_false. intros []. by eexists.
Qed.

(** A line with a keyword and a number adds the value of its first
    number. *)
Lemma return_amount_matched (row : posaud_row) (m : string) :
  let text := Py.lower (default "" (aud_details row)) in
  Py.contains "return" text || Py.contains "refund" text = true →
  Re.search_number text = Some m →
  Py.float_of_string m = Some (return_amount row).
Proof.
  intros text Hkey Hm. unfold return_amount. fold text. rewrite Hkey, Hm.
  unfold Re.search_number in Hm. apply head_Some_elem_of in Hm.
  by destruct (findall_numbers_convert _ _ Hm) as [q ->].
Qed.

Lemma returns_step_returns (st : state) (row : posaud_row) :
  returns (tot (returns_step st row)) == returns (tot st) + return_amount row.
Proof.
  unfold returns_step. destruct (has_return_amount row) eqn:Hh; simpl; [lra|].
  rewrite (return_amount_unmatched row Hh). lra.
Qed.

Lemma foldl_returns_step (rows : list posaud_row) (st : state) :
  returns (tot (foldl returns_step st rows))
  == returns (tot st) + sumQ (return_amount <$> rows).
Proof.
  revert st. induction rows as [|row rows IH]; intros st.
  - simpl. lra.
  - change (foldl returns_step st (row :: rows))
      with (foldl returns_step (returns_step st row) rows).
    rewrite IH, returns_step_returns, fmap_cons, sumQ_cons. lra.
Qed.

Lemma eod_step_returns w st row : returns (tot (eod_step w st row)) = returns (tot st).
Proof.
  unfold eod_step. destruct (s_date row) as [ds|]; [|done].
  by destruct (Calendar.strptime_ymd ds), (total row).
Qed.

Lemma pos_step_returns w st row : returns (tot (pos_step w st row)) = returns (tot st).
Proof.
  unfold pos_step. destruct (trandate row) as [[|c r]|]; try done.
  destruct (Calendar.strptime_ymd (String c r)); [|done].
  by destruct (is_void _).
Qed.

Lemma run_loops_returns w eod_data pos2_data pos3_data posaud_data :
  returns (tot (run_loops w eod_data pos2_data pos3_data posaud_data))
  == sumQ (return_amount <$> posaud_data).
Proof.
  unfold run_loops. rewrite foldl_returns_step.
  assert (H0 : returns (tot (foldl (pos_step w) (foldl (eod_step w) state_init eod_data)
                               (pos2_data ++ pos3_data)%list)) = 0).
  { apply (foldl_invariant (λ st, returns (tot st) = 0)).
    - intros st x Hst. by rewrite pos_step_returns.
    - apply (foldl_invariant (λ st, returns (tot st) = 0)); [|done].
      intros st x Hst. by rewrite eod_step_returns. }
  rewrite H0. lra.
Qed.

Lemma sumQ_nonneg (l : list Q) : Forall (λ x, 0 <= x) l → 0 <= sumQ l.
Proof.
  induction 1 as [|x l Hx Hl IH]; [simpl; lra|]. rewrite sumQ_cons. lra.
Qed.

Lemma round2_nonneg (x : Q) : 0 <= x → 0 <= round2 x.
Proof.
  intros Hx. unfold round2.
  assert (Hfloor : (0 <= Qfloor (x * 100))%Z).
  { change 0%Z with (Qfloor 0). apply Qfloor_resp_le. lra. }
  set (lower := Qfloor (x * 100)) in *.
  set (cents := if Qltb _ _ then _ else _).
  assert (Hcents : (0 <= cents)%Z).
  { unfold cents. destruct (Qltb _ (1 # 2)); [done|].
    destruct (Qltb (1 # 2) _); [lia|]. destruct (Z.even lower); lia. }
  rewrite Zle_Qle in Hcents. change (inject_Z 0) with 0 in Hcents.
  unfold Qdiv. apply Qmult_le_0_compat; [done|]. by vm_compute.
Qed.

Lemma build_dashboard_totals today eod_data pos2_data pos3_data posaud_data d :
  build_dashboard today eod_data pos2_data pos3_data posaud_data = Ok d →
  let t := tot (run_loops (window_of today) eod_data pos2_data pos3_data posaud_data) in
  nett_revenue d = round2 (revenue t - returns t)
  ∧ total_revenue d = round2 (revenue t)
  ∧ total_returns d = round2 (returns t)
  ∧ total_transactions d = transactions t.
Proof.
  unfold build_dashboard.
  destruct (pos1_total 0 eod_data) as [p1|e]; simpl; [|discriminate].
  by intros [= <-].
Qed.

(** The audit lines of a day: a return, a refund without an amount, a
    sale. *)
Definition audit_lines : list posaud_row :=
  [ {| aud_details := Some "RETURN BREAD 15.00 x1" |};
    {| aud_details := Some "Refund requested" |};
    {| aud_details := Some "SALE 22.50" |} ].

End Returns.

(** *** The total of the returns page, row by row *)

Section ReturnsPage.
Import Views.
Local Open Scope Q_scope.
Local Arguments Py.lower : simpl never.
Local Arguments Py.contains : simpl never.
Local Arguments Py.float_of_string : simpl never.
Local Arguments Re.search_amount : simpl never.
Local Arguments remove_spaces : simpl never.

Lemma dict_keys_get {K V} `{EqDecision K} (d : Dict.t K V) (k : K) :
  k ∈ Dict.keys d ↔ is_Some (Dict.get d k).
Proof.
  unfold Dict.keys. induction d as [|[k0 v] d IH].
  - split; [by intros ?%elem_of_nil | by intros [? ?]].
  - rewrite fmap_cons, elem_of_cons.
    change (Dict.get ((k0, v) :: d) k)
      with (if decide (k0 = k) then Some v else Dict.get d k).
    change ((k0, v).1) with k0.
    destruct (decide (k0 = k)) as [->|Hne].
    + split; [by eexists | by left].
    + rewrite IH. split; [intros [?|?]; [congruence|done] | by right].
Qed.

(** Whether a line names a return or a refund, as the page tests a
    slip. *)
Definition names_return (r : audit_row) : bool :=
  mentions_return (Py.lower (default "" (audit_details r))).

(** The rows of a slip. *)
Definition slip_rows (data : list audit_row) (k : option string) : list audit_row :=
  filter (λ r, opref r = k) data.

(** What a line adds to the total of the page once its slip is listed:
    the number behind the word amount, when the line, lower-cased and
    without its spaces, names a return or a refund. *)
Definition page_amount (r : audit_row) : Q :=
  let text := remove_spaces (Py.lower (default "" (audit_details r))) in
  if Py.contains "return" text || Py.contains "refund" text then
    match Re.search_amount text with
    | Some g => default 0 (Py.float_of_string g)
    | None => 0
    end
  else 0.

(** What a row adds to the total of the page: the amount of its line,
    when some line of its slip names a return or a refund. *)
Definition page_share (data : list audit_row) (r : audit_row) : Q :=
  if existsb names_return (slip_rows data (opref r)) then page_amount r else 0.

Lemma add_row_amount_spec (total : Q) (r : audit_row) :
  add_row_amount total r == total + page_amount r.
Proof.
  unfold add_row_amount, page_amount, mentions_return.
  destruct (Py.contains "return" _ || Py.contains "refund" _); [|lra].
  destruct (Re.search_amount _) as [g|]; [|lra].
  destruct (Py.float_of_string g); simpl; lra.
Qed.

Lemma match_amount_chars (s g : string) :
  Re.match_amount_at s = Some g → "-"%char ∉ chars g.
Proof.
  unfold Re.match_amount_at. destruct (Py.startswith "amount" s); [|done].
  destruct (Py.span Py.is_digit _) as [ip r3] eqn:Hspan.
  destruct (Re.is_empty ip); [done|].
  assert (Hip : "-"%char ∉ chars ip).
  { intros Hin. apply span_taken in Hspan.
    rewrite Forall_forall in Hspan. by apply Hspan in Hin. }
  assert (Hcat : ∀ a b, "-"%char ∉ chars a → "-"%char ∉ chars b →
                        "-"%char ∉ chars (a +:+ b)).
  { intros a b Ha Hb. rewrite chars_app, elem_of_app. tauto. }
  assert (Hone : ∀ a t, Py.is_digit a = true → "-"%char ∉ chars t →
                        "-"%char ∉ chars (String a t)).
  { intros a t Ha Ht. simpl. rewrite elem_of_cons. intros [<-|?]; done. }
  assert (Hnil : "-"%char ∉ chars "") by (simpl; apply not_elem_of_nil).
  assert (Hpt : "-"%char ∉ chars ".").
  { simpl. rewrite elem_of_cons. intros [[=]|?%elem_of_nil]; done. }
  assert (Hdot : ∀ a b, Py.is_digit a = true → Py.is_digit b = true →
                        "-"%char ∉ chars (ip +:+ "." +:+ String a (String b EmptyString))).
  { intros a b Ha Hb. apply Hcat; [done|]. apply Hcat; [done|]. auto. }
  assert (Hdot1 : ∀ a, Py.is_digit a = true →
                       "-"%char ∉ chars (ip +:+ "." +:+ String a EmptyString)).
  { intros a Ha. apply Hcat; [done|]. apply Hcat; [done|]. auto. }
  destruct r3 as [|c1 r3]; [by intros [= <-]|].
  destruct (decide (c1 = "."%char)) as [->|Hne].
  - destruct r3 as [|a r3]; [by intros [= <-]|].
    destruct r3 as [|b r3].
    + destruct (Py.is_digit a) eqn:Ha; intros [= <-]; [by apply Hdot1 | done].
    + destruct (Py.is_digit a) eqn:Ha, (Py.is_digit b) eqn:Hb; simpl; intros [= <-];
        [by apply Hdot | by apply Hdot1 | done | done].
  - destruct c1 as [[] [] [] [] [] [] [] []]; try (by intros [= <-]); congruence.
Qed.

Lemma search_amount_chars (s g : string) :
  Re.search_amount s = Some g → "-"%char ∉ chars g.
Proof.
  induction s as [|c s IH].
  - unfold Re.search_amount. destruct (Re.match_amount_at "") eqn:Hm; [|done].
    intros [= <-]. by eapply match_amount_chars.
  - change (Re.search_amount (String c s))
      with (match Re.match_amount_at (String c s) with
            | Some g => Some g
            | None => Re.search_amount s
            end).
    destruct (Re.match_amount_at (String c s)) eqn:Hm; [|done].
    intros [= <-]. by eapply match_amount_chars.
Qed.

Lemma page_amount_nonneg (r : audit_row) : 0 <= page_amount r.
Proof.
  unfold page_amount.
  destruct (Py.contains "return" _ || Py.contains "refund" _); [|lra].
  destruct (Re.search_amount _) as [g|] eqn:Hg; [|lra].
  destruct (Py.float_of_string g) as [q|] eqn:Hq; simpl; [|lra].
  apply (float_of_string_nonneg g q Hq). by eapply search_amount_chars.
Qed.

(** *** Grouping by slip *)

Lemma group_by_opref_snoc (data : list audit_row) (r : audit_row) :
  group_by_opref (data ++ [r])
  = Dict.update (opref r) (λ old, (default [] old ++ [r])%list) (group_by_opref data).
Proof. unfold group_by_opref. by rewrite foldl_app. Qed.

(** The dictionary of the slips has one entry for each slip reference of
    the rows, and the entry holds the rows of the slip in their order. *)
Lemma group_by_opref_spec (data : list audit_row) :
  NoDup (Dict.keys (group_by_opref data))
  ∧ (∀ r, r ∈ data → opref r ∈ Dict.keys (group_by_opref data))
  ∧ (∀ k rs, Dict.get (group_by_opref data) k = Some rs → rs = slip_rows data k).
Proof.
  induction data as [|r data IH] using rev_ind.
  - split; [apply NoDup_nil_2|]. split; [by intros r ?%elem_of_nil | done].
  - destruct IH as (Hnd & Hkeys & Hget). rewrite group_by_opref_snoc.
    split; [by apply dict_keys_update_NoDup|]. split.
    + intros r' Hin. rewrite dict_keys_update.
      apply elem_of_app in Hin as [Hin|Hin].
      * destruct (decide (_ ∈ _)); [by apply Hkeys|].
        apply elem_of_app. left. by apply Hkeys.
      * apply list_elem_of_singleton in Hin as ->.
        destruct (decide (opref r ∈ _)); [done|].
        apply elem_of_app. right. by apply list_elem_of_singleton.
    + intros k rs. rewrite dict_get_update. unfold slip_rows. rewrite filter_app.
      destruct (decide (opref r = k)) as [Hk|Hk].
      * rewrite (filter_cons_True (λ r, opref r = k)) by done. rewrite filter_nil.
        intros [= <-]. f_equal.
        destruct (Dict.get (group_by_opref data) (opref r)) as [rs0|] eqn:Hg; simpl.
        -- rewrite <- Hk. by apply Hget.
        -- destruct (filter (λ r0, opref r0 = k) data) as [|r' rs'] eqn:Hf; [done|].
           assert (Hin : r' ∈ filter (λ r0, opref r0 = k) data)
             by (rewrite Hf; by left).
           apply list_elem_of_filter in Hin as [Hr' Hin].
           apply Hkeys, dict_keys_get in Hin. rewrite Hr', <- Hk, Hg in Hin.
           by destruct Hin.
      * rewrite (filter_cons_False (λ r, opref r = k)) by done.
        rewrite filter_nil, app_nil_r. apply Hget.
Qed.

Lemma sumQ_fmap_ext {A} (f g : A → Q) (l : list A) :
  (∀ x, x ∈ l → f x == g x) → sumQ (f <$> l) == sumQ (g <$> l).
Proof.
  induction l as [|x l IH]; intros Hfg; [reflexivity|].
  assert (Hx : f x == g x) by (apply Hfg; by left).
  assert (Hl : sumQ (f <$> l) == sumQ (g <$> l)).
  { apply IH. intros y Hy. apply Hfg. by right. }
  rewrite !fmap_cons, !sumQ_cons. lra.
Qed.

Lemma sumQ_fmap_plus {A} (f g : A → Q) (l : list A) :
  sumQ ((λ x, f x + g x) <$> l) == sumQ (f <$> l) + sumQ (g <$> l).
Proof.
  induction l as [|x l IH]; [simpl; lra|].
  rewrite !fmap_cons, !sumQ_cons, IH. lra.
Qed.

Lemma sumQ_fmap_zero {A} (l : list A) : sumQ ((λ _, 0) <$> l) == 0.
Proof. induction l as [|x l IH]; [reflexivity|]. rewrite fmap_cons, sumQ_cons, IH. lra. Qed.

(** One key among distinct ones. *)
Lemma sumQ_pick {K} `{EqDecision K} (k0 : K) (a : Q) (ks : list K) :
  NoDup ks → k0 ∈ ks →
  sumQ ((λ k, if decide (k0 = k) then a else 0) <$> ks) == a.
Proof.
  induction 1 as [|k ks Hk Hnd IH]; [by intros ?%elem_of_nil|].
  rewrite fmap_cons, sumQ_cons. intros Hin. destruct (decide (k0 = k)) as [->|Hne].
  - rewrite (sumQ_fmap_ext _ (λ _, 0)), sumQ_fmap_zero; [lra|].
    intros k' Hk'. destruct (decide (k = k')) as [->|]; [done|reflexivity].
  - apply elem_of_cons in Hin as [?|Hin]; [done|]. rewrite IH by done. lra.
Qed.

(** Summing slip by slip is summing row by row. *)
Lemma sumQ_by_slip (f : audit_row → Q) (ks : list (option string)) (data : list audit_row) :
  NoDup ks → (∀ r, r ∈ data → opref r ∈ ks) →
  sumQ ((λ k, sumQ (f <$> slip_rows data k)) <$> ks) == sumQ (f <$> data).
Proof.
  intros Hnd. unfold slip_rows. induction data as [|r data IH]; intros Hks.
  - rewrite (sumQ_fmap_ext _ (λ _, 0)) by (intros; reflexivity).
    rewrite sumQ_fmap_zero. reflexivity.
  - rewrite (sumQ_fmap_ext _
      (λ k, (if decide (opref r = k) then f r else 0)
            + sumQ (f <$> filter (λ r, opref r = k) data))).
    + rewrite sumQ_fmap_plus, sumQ_pick, IH, fmap_cons, sumQ_cons;
        [reflexivity | | done |].
      * intros r' Hr'. apply Hks. by right.
      * apply Hks. by left.
    + intros k _. destruct (decide (opref r = k)) as [Hk|Hk].
      * rewrite (filter_cons_True (λ r, opref r = k)) by done.
        rewrite fmap_cons, sumQ_cons. reflexivity.
      * rewrite (filter_cons_False (λ r, opref r = k)) by done. lra.
Qed.

(** The total of the page is the sum of the shares of the rows. *)
Lemma return_transactions_total_spec (data : list audit_row) :
  return_transactions_total data == sumQ (page_share data <$> data).
Proof.
  destruct (group_by_opref_spec data) as (Hnd & Hkeys & Hget).
  unfold return_transactions_total.
  rewrite (foldl_sum _ (λ total, total)
             (λ slip, if existsb names_return slip.2
                      then sumQ (page_amount <$> slip.2) else 0)).
  2:{ intros total slip. fold names_return.
      destruct (existsb names_return slip.2); [|lra].
      apply (foldl_sum add_row_amount (λ total, total) page_amount).
      apply add_row_amount_spec. }
  rewrite Qplus_0_l, <- (sumQ_by_slip (page_share data) _ data Hnd Hkeys).
  unfold Dict.keys. rewrite <- list_fmap_compose.
  apply sumQ_fmap_ext. intros [k rs] Hin. simpl.
  apply dict_get_Some, Hget in Hin; [|done]. subst rs.
  destruct (existsb names_return (slip_rows data k)) eqn:Hflag.
  - apply sumQ_fmap_ext. intros r Hr. unfold page_share.
    apply list_elem_of_filter in Hr as [-> _]. rewrite Hflag. reflexivity.
  - rewrite <- (sumQ_fmap_zero (slip_rows data k)). apply sumQ_fmap_ext.
    intros r Hr. unfold page_share.
    apply list_elem_of_filter in Hr as [-> _]. rewrite Hflag. reflexivity.
Qed.

Lemma page_share_nonneg (data : list audit_row) (r : audit_row) : 0 <= page_share data r.
Proof.
  unfold page_share. destruct (existsb _ _); [apply page_amount_nonneg | lra].
Qed.

Lemma return_transactions_total_nonneg (data : list audit_row) :
  0 <= return_transactions_total data.
Proof.
  rewrite return_transactions_total_spec.
  apply sumQ_nonneg, Forall_fmap, Forall_forall. intros r _. apply page_share_nonneg.
Qed.

End ReturnsPage.

Section ReturnsClaim.
Import Tasks.
Local Open Scope Q_scope.
Local Arguments Py.lower : simpl never.
Local Arguments Py.contains : simpl never.
Local Arguments Py.float_of_string : simpl never.
Local Arguments Re.search_number : simpl never.

(** *** Rounding to hundredths *)

(** The number of hundredths [round2] settles on. *)
Definition hundredths (x : Q) : Z :=
  let scaled := x * 100 in
  let lower := Qfloor scaled in
  let rest := scaled - inject_Z lower in
  if Qltb rest (1 # 2) then lower
  else if Qltb (1 # 2) rest then (lower + 1)%Z
  else if Z.even lower then lower else (lower + 1)%Z.

Lemma round2_hundredths (x : Q) : round2 x = inject_Z (hundredths x) / 100.
Proof. reflexivity. Qed.

(** A rounded amount is within half a hundredth of the amount. *)
Lemma hundredths_close (x : Q) :
  - (1 # 2) <= inject_Z (hundredths x) - x * 100 <= 1 # 2.
Proof.
  unfold hundredths.
  pose proof (Qfloor_le (x * 100)) as Hlo.
  pose proof (Qlt_floor (x * 100)) as Hhi.
  rewrite inject_Z_plus in Hhi. change (inject_Z 1) with 1 in Hhi.
  set (lower := Qfloor (x * 100)) in *.
  destruct (Qltb (x * 100 - inject_Z lower) (1 # 2)) eqn:Hlt.
  { apply Qgtb_true in Hlt. lra. }
  apply Qgtb_false in Hlt.
  destruct (Qltb (1 # 2) (x * 100 - inject_Z lower)) eqn:Hgt.
  { rewrite inject_Z_plus. change (inject_Z 1) with 1. lra. }
  apply Qgtb_false in Hgt.
  destruct (Z.even lower); [lra|].
  rewrite inject_Z_plus. change (inject_Z 1) with 1. lra.
Qed.

(** The rounded difference of two amounts is the difference of the two
    rounded amounts, or a hundredth off. *)
Lemma round2_minus (a b : Q) :
  ∃ z : Z, (-1 <= z <= 1)%Z
           ∧ round2 (a - b) == round2 a - round2 b + inject_Z z / 100.
Proof.
  exists (hundredths (a - b) - (hundredths a - hundredths b))%Z.
  pose proof (hundredths_close a) as Ha.
  pose proof (hundredths_close b) as Hb.
  pose proof (hundredths_close (a - b)) as Hab.
  split.
  - assert (Hz : - (3 # 2) <= inject_Z (hundredths (a - b) - (hundredths a - hundredths b))
                 <= 3 # 2).
    { unfold Z.sub. repeat (rewrite inject_Z_plus || rewrite inject_Z_opp). lra. }
    set (z := (hundredths (a - b) - (hundredths a - hundredths b))%Z) in *.
    assert (H1 : (-2 < z)%Z).
    { rewrite Zlt_Qlt. change (inject_Z (-2)) with (-2 # 1). lra. }
    assert (H2 : (z < 2)%Z).
    { rewrite Zlt_Qlt. change (inject_Z 2) with (2 # 1). lra. }
    lia.
  - rewrite !round2_hundredths. unfold Z.sub.
    repeat (rewrite inject_Z_plus || rewrite inject_Z_opp). field.
Qed.

(** C6, amended: in the cached aggregator the returns total is the sum,
    over the audit lines, of the value of the first number of each line
    that contains return or refund, a line without the keywords or
    without a number adding 0, and it is never negative.  The dashboard reports the
    revenue, the returns and their difference each rounded to
    hundredths, so the reported net revenue is the reported revenue
    minus the reported returns or one hundredth off.  The returns page
    sums otherwise: a row counts when a line of its slip names a return
    or a refund, and adds the number behind the word amount of its own
    line, lower-cased and without spaces, when that line names a return
    or a refund; this total is never negative either.  Amounts are exact
    decimals here. *)
Theorem returns_total_and_net_revenue
    (today : Calendar.date) (eod_data : list eod_row)
    (pos2_data pos3_data : list pos_row) (posaud_data : list posaud_row)
    (d : dashboard) (page_data : list Views.audit_row) :
  let t := tot (run_loops (window_of today) eod_data pos2_data pos3_data posaud_data) in
  returns t == sumQ (return_amount <$> posaud_data)
  ∧ (∀ row m,
       let text := Py.lower (default "" (aud_details row)) in
       Py.contains "return" text || Py.contains "refund" text = true →
       Re.search_number text = Some m →
       Py.float_of_string m = Some (return_amount row))
  ∧ (∀ row, has_return_amount row = false → return_amount row = 0)
  ∧ 0 <= returns t
  ∧ (build_dashboard today eod_data pos2_data pos3_data posaud_data = Ok d →
     nett_revenue d = round2 (revenue t - returns t)
     ∧ total_revenue d = round2 (revenue t)
     ∧ total_returns d = round2 (returns t)
     ∧ 0 <= total_returns d
     ∧ ∃ z : Z, (-1 <= z <= 1)%Z
                ∧ nett_revenue d == total_revenue d - total_returns d + inject_Z z / 100)
  ∧ Views.return_transactions_total page_data
    == sumQ (page_share page_data <$> page_data)
  ∧ 0 <= Views.return_transactions_total page_data.
Proof.
  intros t.
  assert (Hsum : returns t == sumQ (return_amount <$> posaud_data))
    by apply run_loops_returns.
  assert (Hpos : 0 <= returns t).
  { rewrite Hsum. apply sumQ_nonneg, Forall_fmap, Forall_forall.
    intros row _. apply return_amount_nonneg. }
  split; [done|]. split; [apply return_amount_matched|].
  split; [apply return_amount_unmatched|]. split; [done|].
  split; [|split; [apply return_transactions_total_spec
                  | apply return_transactions_total_nonneg]].
  intros (Hnett & Hrev & Hret & _)%build_dashboard_totals.
  split; [done|]. split; [done|]. split; [done|].
  split; [rewrite Hret; by apply round2_nonneg|].
  rewrite Hnett, Hrev, Hret. apply round2_minus.
Qed.

Lemma returns_total_and_net_revenue_witness :
  match build_dashboard a_day [] [] [] audit_lines with
  | Ok d => nett_revenue d == -15 ∧ total_returns d == 15 ∧ 0 <= total_returns d
  | Raise _ => False
  end.
Proof.
  destruct (build_dashboard a_day [] [] [] audit_lines) as [d|e] eqn:Hrun.
  - destruct (returns_total_and_net_revenue a_day [] [] [] audit_lines d [])
      as (_ & _ & _ & _ & Hd & _).
    destruct (Hd Hrun) as (Hnett & _ & Hret & Hpos & _).
    rewrite Hnett, Hret. split; [by vm_compute|]. split; [by vm_compute|].
    by rewrite <- Hret.
  - vm_compute in Hrun. discriminate Hrun.
Defined.

Example return_amounts :
  return_amount <$> audit_lines = [15; 0; 0].
Proof. reflexivity. Qed.

(** A fuel sale of 100.004 and a refund of 0.006. *)
Definition small_refund : list posaud_row :=
  [ {| aud_details := Some "REFUND 0.006" |} ].

Definition fuel_sale : list eod_row :=
  [ {| s_date := Some "2025-02-15"; total := Some 100.004;
       gradeid := Some "09"; tagid := None |} ].

(** C6, as stated, fails in two places.  The returns page does not read
    the first number of a line: a refund line without the word amount
    adds nothing to its total, and a line with it adds the number behind
    it, 30 here, not the first one, 2.  And the net revenue the cached
    dashboard reports is not its reported revenue minus its reported
    returns: 100.0 against 100.0 - 0.01, on exact decimals and on
    floats alike. *)
Lemma returns_page_reads_amount :
  let line text := {| Views.opref := Some "S-1"; Views.audit_details := Some text |} in
  Views.return_transactions_total [line "REFUND 12.50"] = 0
  ∧ return_amount {| aud_details := Some "REFUND 12.50" |} = 25 # 2
  ∧ Views.return_transactions_total [line "Return 2 x BREAD amount: 30.00"] = 30
  ∧ return_amount {| aud_details := Some "Return 2 x BREAD amount: 30.00" |} = 2
  ∧ (∃ d, build_dashboard a_day fuel_sale [] [] small_refund = Ok d
          ∧ total_revenue d == 100 ∧ total_returns d == 1 # 100 ∧ nett_revenue d == 100
          ∧ ¬ nett_revenue d == total_revenue d - total_returns d)
  ∧ (let f := Binary64.cached_figures 100.004 small_refund in
     Binary64.reported_revenue f = 100%float
     ∧ Binary64.reported_returns f = 0.01%float
     ∧ Binary64.reported_nett f = 100%float
     ∧ PrimFloat.eqb (Binary64.reported_nett f)
         (Binary64.reported_revenue f - Binary64.reported_returns f)%float = false).
Proof.
  intros line. split; [reflexivity|]. split; [reflexivity|].
  split; [reflexivity|]. split; [reflexivity|]. split.
  - eexists. split; [reflexivity|]. split; [by vm_compute|]. split; [by vm_compute|].
    split; [by vm_compute|]. by vm_compute.
  - repeat split; reflexivity.
Qed.

End ReturnsClaim.

(** ** Line parser *)

Section LineParser.
Import Views.
Local Open Scope Q_scope.
Local Arguments Re.match_qty_price : simpl never.
Local Arguments Py.strip : simpl never.
Local Arguments plain_entry : simpl never.
Local Arguments qty_price_values : simpl never.

(** A row without details once trimmed, and a quantity/price row. *)
Definition blank (row : raw_row) : Prop := details_of row = EmptyString.
Definition qty_line (row : raw_row) : Prop :=
  is_Some (Re.match_qty_price (details_of row)).

(** How the rows of a group are accounted for by the emitted entries: a
    blank row emits nothing; a quantity/price row emits one entry with
    the converted values, under its own text and code; a row followed by
    a quantity/price row emits one entry for both, named after the
    first; any other row emits the entry of rules 3 to 5. *)
Inductive accounted (group_rows : list raw_row) : list raw_row → list entry → Prop :=
| accounted_nil : accounted group_rows [] []
| accounted_blank row rest es :
    blank row →
    accounted group_rows rest es →
    accounted group_rows (row :: rest) es
| accounted_qty row rest e es m :
    ¬ blank row →
    Re.match_qty_price (details_of row) = Some m →
    qty_price_values m = Ok (e_qty e, e_unit_price e, e_total_price e) →
    e_name e = details_of row → e_barcode e = code_of row →
    accounted group_rows rest es →
    accounted group_rows (row :: rest) (e :: es)
| accounted_pair row next rest e es m :
    ¬ blank row → ¬ qty_line row →
    Re.match_qty_price (details_of next) = Some m →
    qty_price_values m = Ok (e_qty e, e_unit_price e, e_total_price e) →
    e_name e = details_of row → e_barcode e = code_of row →
    accounted group_rows rest es →
    accounted group_rows (row :: next :: rest) (e :: es)
| accounted_plain row rest es :
    ¬ blank row → ¬ qty_line row →
    match rest with
    | next :: _ => ¬ qty_line next
    | [] => True
    end →
    accounted group_rows rest es →
    accounted group_rows (row :: rest)
      (plain_entry group_rows (details_of row) (code_of row) :: es).

(** Every row is accounted for exactly once: the emitted entries and the
    skipped or merged rows add up to the rows of the group. *)
Lemma accounted_length group_rows rest es :
  accounted group_rows rest es → (length es <= length rest)%nat.
Proof. induction 1; simpl; lia. Qed.

Lemma is_empty_spec (s : string) : Re.is_empty s = true ↔ s = EmptyString.
Proof. by destruct s. Qed.

(** Where the loop stands, the previous row cannot lend its name to the
    current one: it is absent, blank or a quantity/price row itself, or
    else the current row is no quantity/price row.  A description in
    front of a quantity/price row is taken by the look-ahead of rule 2
    first. *)
Definition prev_inv (prev : option raw_row) (rest : list raw_row) : Prop :=
  match prev with
  | None => True
  | Some p =>
      blank p ∨ qty_line p
      ∨ match rest with
        | row :: _ => ¬ qty_line row
        | [] => True
        end
  end.

Lemma qty_line_name_own prev row rest text barcode :
  prev_inv prev (row :: rest) → qty_line row →
  qty_line_name prev text barcode = (text, barcode).
Proof.
  unfold prev_inv, qty_line_name. destruct prev as [p|]; [|done].
  intros [Hb | [Hq | Hn]] Hrow; [| |done].
  - unfold blank in Hb. by rewrite Hb.
  - rewrite (bool_decide_eq_true_2 _ Hq). by rewrite andb_false_r.
Qed.

Lemma normalize_loop_accounted (n : nat) group_rows prev rest normalized es :
  (length rest <= n)%nat →
  prev_inv prev rest →
  normalize_loop group_rows prev rest normalized = Ok es →
  ∃ es', es = (normalized ++ es')%list ∧ accounted group_rows rest es'.
Proof.
  revert prev rest normalized es.
  induction n as [|n IH]; intros prev rest normalized es Hlen Hprev.
  { destruct rest; [|simpl in Hlen; lia]. simpl. intros [= <-].
    exists []. split; [by rewrite app_nil_r | constructor]. }
  destruct rest as [|row rest'].
  { simpl. intros [= <-]. exists []. split; [by rewrite app_nil_r | constructor]. }
  simpl in Hlen. simpl.
  destruct (Re.is_empty (details_of row)) eqn:Hblank.
  { apply is_empty_spec in Hblank.
    intros (es' & -> & Hacc)%IH; [|lia|by left].
    exists es'. split; [done|]. by apply accounted_blank. }
  assert (Hnb : ¬ blank row).
  { unfold blank. intros H%is_empty_spec. congruence. }
  destruct (Re.match_qty_price (details_of row)) as [m|] eqn:Hm.
  { assert (Hq : qty_line row) by (unfold qty_line; rewrite Hm; by eexists).
    destruct (qty_price_values m) as [[[q u] t]|e] eqn:Hv; simpl; [|discriminate].
    rewrite (qty_line_name_own prev row rest') by done.
    intros (es' & -> & Hacc)%IH; [|lia|right; by left].
    eexists (_ :: es'). split; [by rewrite <- app_assoc|].
    by eapply accounted_qty. }
  assert (Hnq : ¬ qty_line row).
  { unfold qty_line. rewrite Hm. by intros [? ?]. }
  assert (Hplain : ∀ es,
    match rest' with next :: _ => ¬ qty_line next | [] => True end →
    normalize_loop group_rows (Some row) rest'
      (normalized ++ [plain_entry group_rows (details_of row) (code_of row)]) = Ok es →
    ∃ es', es = (normalized ++ es')%list ∧ accounted group_rows (row :: rest') es').
  { intros es0 Hnext (es' & -> & Hacc)%IH; [|lia|by right; right].
    eexists (_ :: es'). split; [by rewrite <- app_assoc|].
    by apply accounted_plain. }
  destruct rest' as [|next rest''].
  { by apply Hplain. }
  destruct (Re.match_qty_price (details_of next)) as [m|] eqn:Hm'.
  - assert (Hq : qty_line next) by (unfold qty_line; rewrite Hm'; by eexists).
    destruct (qty_price_values m) as [[[q u] t]|e] eqn:Hv; simpl; [|discriminate].
    intros (es' & -> & Hacc)%IH; [|simpl in Hlen; lia|right; by left].
    eexists (_ :: es'). split; [by rewrite <- app_assoc|].
    by eapply accounted_pair.
  - apply Hplain. unfold qty_line. rewrite Hm'. by intros [? ?].
Qed.

(** Whenever the parser returns, its entries account for every row of
    the group. *)
Lemma normalize_item_rows_accounted (group_rows : list raw_row) (es : list entry) :
  normalize_item_rows group_rows = Ok es → accounted group_rows group_rows es.
Proof.
  unfold normalize_item_rows.
  intros (es' & -> & Hacc)%(normalize_loop_accounted (length group_rows)); done.
Qed.

(** The entry of rules 3 to 5 is the fallback entry when the group has no
    usable ITEMS 1 TOTAL line and the text does not end in a price. *)
Lemma plain_entry_fallback group_rows text barcode :
  items1_total group_rows = None →
  Re.match_description_price text = None →
  plain_entry group_rows text barcode
  = {| e_name := text; e_qty := 1; e_unit_price := 0; e_total_price := 0;
       e_barcode := barcode |}.
Proof. unfold plain_entry. by intros -> ->. Qed.

(** The parser returns when the numbers of every quantity/price row
    convert. *)
Lemma normalize_loop_returns (n : nat) group_rows prev rest normalized :
  (length rest <= n)%nat →
  (∀ row m, row ∈ rest → Re.match_qty_price (details_of row) = Some m →
            ∃ v, qty_price_values m = Ok v) →
  ∃ es, normalize_loop group_rows prev rest normalized = Ok es.
Proof.
  revert prev rest normalized.
  induction n as [|n IH]; intros prev rest normalized Hlen Hconv.
  { destruct rest; [|simpl in Hlen; lia]. by eexists. }
  destruct rest as [|row rest']; [by eexists|].
  simpl in Hlen. simpl.
  assert (Hrest : ∀ row0 m, row0 ∈ rest' →
            Re.match_qty_price (details_of row0) = Some m →
            ∃ v, qty_price_values m = Ok v).
  { intros row0 m Hin. apply Hconv. by right. }
  destruct (Re.is_empty (details_of row)); [apply IH; [lia | done]|].
  destruct (Re.match_qty_price (details_of row)) as [m|] eqn:Hm.
  { destruct (Hconv row m) as [[[q u] t] ->]; [by left | done |]. simpl.
    destruct (qty_line_name prev _ _). apply IH; [lia | done]. }
  destruct rest' as [|next rest'']; [apply IH; [simpl; lia | done]|].
  destruct (Re.match_qty_price (details_of next)) as [m|] eqn:Hm'.
  - destruct (Hrest next m) as [[[q u] t] ->]; [by left | done |]. simpl.
    apply IH; [simpl in Hlen; lia|]. intros row0 m0 Hin. apply Hrest. by right.
  - apply IH; [lia | done].
Qed.

(** The receipt of the specification: a description and its quantity
    line give one entry. *)
Example normalize_bread :
  normalize_item_rows
    [ {| details := Some "BREAD"; code := Some "6001" |};
      {| details := Some "1 @ 15.00 15.00"; code := None |} ]
  = Ok [ {| e_name := "BREAD"; e_qty := 1; e_unit_price := 15;
            e_total_price := 15; e_barcode := "6001" |} ].
Proof. reflexivity. Qed.

Example normalize_fallback :
  normalize_item_rows [ {| details := Some "  LOYALTY CARD  "; code := None |} ]
  = Ok [ {| e_name := "LOYALTY CARD"; e_qty := 1; e_unit_price := 0;
            e_total_price := 0; e_barcode := "" |} ].
Proof. reflexivity. Qed.

Example normalize_skips_blank :
  normalize_item_rows
    [ {| details := Some "   "; code := Some "1" |}; {| details := None; code := None |} ]
  = Ok [].
Proof. reflexivity. Qed.

(** The unit price group of the quantity pattern is any run of digits
    and dots, and its conversion is not guarded. *)
Example qty_pattern_accepts_dots :
  Re.match_qty_price "1 @ 1.2.3" = Some ("1", "1.2.3", "").
Proof. reflexivity. Qed.

(** C5: the claim that the line parser never raises fails on the code.
    Rules 1 and 2 convert the price groups of the quantity pattern with
    an unguarded [float]; on a detail line such as "1 @ 1.2.3", or on a
    description followed by "1 @ 15.00 15.00.", the conversion raises
    [ValueError] and the parser raises with it, where rule 3 catches the
    same failure. *)
Theorem normalize_item_rows_raises :
  normalize_item_rows [ {| details := Some "1 @ 1.2.3"; code := None |} ]
  = Raise ValueError
  ∧ normalize_item_rows
      [ {| details := Some "BREAD"; code := Some "6001" |};
        {| details := Some "1 @ 15.00 15.00."; code := None |} ]
    = Raise ValueError.
Proof. split; reflexivity. Qed.

End LineParser.

(** ** Idempotence of the aggregation *)

Section Idempotence.
Import Process Views.

(** The answer of an invocation does not depend on the cache it meets. *)
Lemma invoke_answer (i : invocation) (c c' : cache) : (invoke i c).1 = (invoke i c').1.
Proof.
  destruct i as [today eod_data pos2_data pos3_data posaud_data | today all_data];
    simpl; [|done].
  unfold Tasks.refresh_dashboard_cache.
  by destruct (Tasks.build_dashboard _ _ _ _ _).
Qed.

(** Running the same invocation a second time leaves the cache the first
    run left. *)
Lemma invoke_twice (i : invocation) (c : cache) :
  (invoke i (invoke i c).2).2 = (invoke i c).2.
Proof.
  destruct i as [today eod_data pos2_data pos3_data posaud_data | today all_data];
    simpl; [|done].
  unfold Tasks.refresh_dashboard_cache.
  destruct (Tasks.build_dashboard _ _ _ _ _) as [d|e]; simpl; [|done].
  by rewrite insert_insert_eq.
Qed.

Example dashboard_after_refresh :
  let rows := [item_of 1 "Diesel 50ppm" 500; item_of 1 "BREAD" 15] in
  let c1 := run [Refresh a_day [] [receipt_line "BREAD 15.00"] [] []] ∅ in
  (invoke (Dashboard a_day rows) c1).1 = (invoke (Dashboard a_day rows) ∅).1
  ∧ c1 ≠ ∅.
Proof.
  split; [reflexivity|]. intros H. apply (f_equal (λ m, m !! "dashboard_cache")) in H.
  by vm_compute in H.
Qed.

(** C9, amended: two runs of the dashboard aggregation on the same date
    over the same rows, in whatever order the row source hands them
    over, end alike: both raise [ValueError], or both return, and then with the
    same transaction count and windows, with equal revenue, net revenue,
    VAT, returns, fuel, non-fuel, diesel and unleaded totals, equal
    sales of the day, the week and the month, equal average and shares,
    and for every attendant the same number of transactions and equal
    sales.  The money totals are equal as sums of exact amounts. *)
Theorem aggregation_same_rows_same_totals
    (today : Calendar.date) (rows rows' : list slip_item) :
  rows ≡ₚ rows' →
  match admin_dashboard today rows, admin_dashboard today rows' with
  | Ok d, Ok d' => same_totals d d'
  | Raise e, Raise e' => e = ValueError ∧ e' = ValueError
  | _, _ => False
  end.
Proof. apply admin_dashboard_Permutation. Qed.

Lemma aggregation_same_rows_same_totals_witness :
  match admin_dashboard a_day mixed_rows, admin_dashboard a_day (reverse mixed_rows) with
  | Ok d, Ok d' => same_totals d d'
  | Raise e, Raise e' => e = ValueError ∧ e' = ValueError
  | _, _ => False
  end.
Proof.
  apply (aggregation_same_rows_same_totals a_day mixed_rows (reverse mixed_rows)).
  symmetry. apply reverse_Permutation.
Defined.

(** Three rows of one day priced 0.10, 0.20 and 0.30. *)
Definition dime_to_thirty : list Binary64.item :=
  [ {| Binary64.item_name := Some "BREAD"; Binary64.total_price := Some 0.1%float |};
    {| Binary64.item_name := Some "MILK"; Binary64.total_price := Some 0.2%float |};
    {| Binary64.item_name := Some "PIE"; Binary64.total_price := Some 0.3%float |} ].

(** C9, as stated, fails on the floats of the code: the query of the
    dashboard sets no order, and the same three rows summed in the
    opposite order give a revenue of 0.6 instead of 0.6000000000000001,
    and so for the non-fuel total. *)
Lemma row_order_changes_float_totals :
  let t := Binary64.aggregate dime_to_thirty in
  let t' := Binary64.aggregate (reverse dime_to_thirty) in
  dime_to_thirty ≡ₚ reverse dime_to_thirty
  ∧ Binary64.total_revenue t = 0.6000000000000001%float
  ∧ Binary64.total_revenue t' = 0.6%float
  ∧ PrimFloat.eqb (Binary64.total_revenue t) (Binary64.total_revenue t') = false
  ∧ PrimFloat.eqb (Binary64.nonfuel_total t) (Binary64.nonfuel_total t') = false.
Proof.
  intros t t'. split; [symmetry; apply reverse_Permutation|].
  repeat split; reflexivity.
Qed.

End Idempotence.

(** * Further properties of the code *)

(** ** The dispensed-litres calculator on a running meter *)

Section DispensedMore.
Import Views.
Local Open Scope Q_scope.

(** The reading a meter shows after [advance] more litres: it starts
    again from zero when it reaches [max_meter]. *)
Definition meter_after (opening advance max_meter : Q) : Q :=
  if Qle_bool max_meter (opening + advance)
  then opening + advance - max_meter
  else opening + advance.

(** X1: on a meter that wraps at [max_meter], the calculator gives back
    the litres dispensed since the opening reading whenever the meter
    did not wrap or fewer than half the range was dispensed; a wrap
    after half the range or more is taken for bad data and gives zero. *)
Theorem calc_dispensed_recovers_advance (opening advance max_meter : Q) :
  0 <= opening → opening < max_meter → 0 <= advance → advance < max_meter →
  ∃ r, calc_dispensed (PyNum opening)
         (PyNum (meter_after opening advance max_meter)) max_meter = Ok r
       ∧ (opening + advance < max_meter ∨ advance < (1 # 2) * max_meter → r == advance)
       ∧ (max_meter <= opening + advance → (1 # 2) * max_meter <= advance → r == 0).
Proof.
  intros Ho Hm Ha Hlt. rewrite calc_dispensed_num. eexists. split; [reflexivity|].
  unfold meter_after.
  destruct (Qle_bool max_meter (opening + advance)) eqn:Hwrap.
  - apply Qle_bool_iff in Hwrap.
    destruct (Qle_bool opening (opening + advance - max_meter)) eqn:Hle.
    { apply Qle_bool_iff in Hle. exfalso. lra. }
    destruct (Qgtb _ _) eqn:Hroll.
    + apply Qgtb_true in Hroll. split; intros; lra.
    + apply Qgtb_false in Hroll. split; intros; lra.
  - apply Qle_bool_false in Hwrap.
    destruct (Qle_bool opening (opening + advance)) eqn:Hle.
    + split; intros; lra.
    + apply Qle_bool_false in Hle. exfalso. lra.
Qed.

Lemma calc_dispensed_recovers_advance_witness :
  ∃ r, calc_dispensed (PyNum 99000) (PyNum (meter_after 99000 1500 100000)) 100000 = Ok r
       ∧ (99000 + 1500 < 100000 ∨ 1500 < (1 # 2) * 100000 → r == 1500)
       ∧ (100000 <= 99000 + 1500 → (1 # 2) * 100000 <= 1500 → r == 0).
Proof.
  apply (calc_dispensed_recovers_advance 99000 1500 100000); lra.
Defined.

(** X2: the calculator gives a negative value exactly when the closing
    reading is below the opening one by more than the whole meter range
    (and more than half of it). *)
Theorem calc_dispensed_negative_iff (opening closing max_meter : Q) :
  ∃ r, calc_dispensed (PyNum opening) (PyNum closing) max_meter = Ok r
       ∧ (r < 0 ↔ closing < opening
                  ∧ (1 # 2) * max_meter < opening - closing
                  ∧ max_meter < opening - closing).
Proof.
  rewrite calc_dispensed_num. eexists. split; [reflexivity|].
  destruct (Qle_bool opening closing) eqn:Hle.
  - apply Qle_bool_iff in Hle. split; [intros; exfalso; lra | intros (? & _); lra].
  - apply Qle_bool_false in Hle.
    destruct (Qgtb _ _) eqn:Hroll.
    + apply Qgtb_true in Hroll. split; [intros; repeat split; lra | intros (_ & _ & ?); lra].
    + apply Qgtb_false in Hroll. split; [intros; exfalso; lra | intros (_ & ? & _); lra].
Qed.

End DispensedMore.

(** ** Fuel type by price *)

Section FuelType.
Local Open Scope Q_scope.

Lemma fuel_type_in_ranges (price : Q) :
  (Views.get_fuel_type_from_price price = "UNLEADED 95" ↔ 21.50 <= price <= 22.50)
  ∧ (Views.get_fuel_type_from_price price = "DIESEL 50PPM" ↔ 22.50 < price <= 23.50)
  ∧ (Views.get_fuel_type_from_price price = "UNKNOWN" ↔ price < 21.50 ∨ 23.50 < price).
Proof.
  unfold Views.get_fuel_type_from_price, Views.FUEL_PRICE_RANGES, Views.fuel_type_in.
  destruct (Qle_bool 21.50 price) eqn:H1; destruct (Qle_bool price 22.50) eqn:H2;
    destruct (Qle_bool 22.50 price) eqn:H3; destruct (Qle_bool price 23.50) eqn:H4;
    simpl;
    repeat match goal with
           | H : Qle_bool _ _ = true |- _ => apply Qle_bool_iff in H
           | H : Qle_bool _ _ = false |- _ => apply Qle_bool_false in H
           end;
    (repeat split; intros; try discriminate; try reflexivity;
     repeat match goal with H : _ ∧ _ |- _ => destruct H | H : _ ∨ _ |- _ => destruct H end;
     try lra; try (exfalso; lra); try (left; lra); try (right; lra)).
Qed.

(** X3: the price ranges of views.py share the bound 22.50, and the
    first range of the dictionary wins there: a price is unleaded from
    21.50 to 22.50, both included, diesel above 22.50 up to 23.50, and
    unknown outside. *)
Theorem fuel_type_by_price (price : Q) :
  (Views.get_fuel_type_from_price price = "UNLEADED 95" ↔ 21.50 <= price <= 22.50)
  ∧ (Views.get_fuel_type_from_price price = "DIESEL 50PPM" ↔ 22.50 < price <= 23.50)
  ∧ (Views.get_fuel_type_from_price price = "UNKNOWN" ↔ price < 21.50 ∨ 23.50 < price).
Proof. apply fuel_type_in_ranges. Qed.

(** X4: whenever the price test of utils/fuel_utils.py names a fuel,
    the price ranges of views.py name the same fuel. *)
Theorem fuel_type_versions_agree (price : Q) :
  FuelUtils.get_fuel_type_from_price price ≠ "UNKNOWN" →
  Views.get_fuel_type_from_price price = FuelUtils.get_fuel_type_from_price price.
Proof.
  unfold FuelUtils.get_fuel_type_from_price. intros Hknown.
  destruct (fuel_type_in_ranges price) as (Hu & Hd & _).
  destruct (Qltb (Qabs (price - 22.08)) 0.05) eqn:Ha.
  - apply Qgtb_true in Ha. rewrite (proj2 Hu); [done|]. revert Ha. apply Qabs_case; intros; lra.
  - destruct (Qltb (Qabs (price - 22.8)) 0.05) eqn:Hb; [|done].
    apply Qgtb_true in Hb. rewrite (proj2 Hd); [done|]. revert Hb. apply Qabs_case; intros; lra.
Qed.

End FuelType.

Lemma fuel_type_versions_agree_witness :
  Views.get_fuel_type_from_price 22.08%Q = FuelUtils.get_fuel_type_from_price 22.08%Q.
Proof. apply (fuel_type_versions_agree 22.08%Q). vm_compute. discriminate. Defined.
